(** * Provisional Natality Data Dashboard (app.py): a shallow embedding

    The dashboard is one Streamlit script that is re-executed from top to
    bottom on every interaction.  One execution is modelled as a computation
    that emits the elements it renders, in order, and ends in one of three
    ways: the script reaches its last line, [st.stop()] is called, or an
    exception leaves the script.

    Conventions of the embedding:
    - text is [string], holding the UTF-8 encoding of a Python [str];
      [strip] removes the white space of Unicode, as Python does;
    - a table cell is a finite number, a text or the missing marker (NaN);
    - a data frame is a list of column labels and a list of rows;
    - four behaviours of the libraries under the script are not spelled out
      but taken as a [platform]: the lower-casing of Unicode text, the
      machine sums of numpy and pandas (int64 sums wrap, float64 sums round
      and may be infinite), the order in which [sort_values] leaves equal
      totals (some permutation), and whether [json.dumps] accepts a
      context.  General statements hold for every platform; what they need
      to know of it is a hypothesis ([lowers_ascii], [exact_sums],
      [serialises_text]).  [reference] is one platform, used where a
      concrete execution is evaluated;
    - likewise the text-to-number parser of [pd.to_numeric] is a parameter
      of the normaliser, and [decimal_literal] is one instance;
    - the Python dictionaries of the chat context are association lists in
      insertion order, which is the order [json.dumps] enumerates;
    - the endpoint, the secret store and the file system are inputs of an
      execution. *)

From Stdlib Require Import List String Ascii Bool Arith ZArith QArith Qabs Lia.
From Stdlib Require Import Permutation Sorted.
Import ListNotations.

Local Close Scope Q_scope.
Local Open Scope string_scope.
Local Open Scope list_scope.

(* ------------------------------------------------------------------ *)
(** ** Text helpers: [str.strip], [str.replace(" ", "_")], [repr] *)

Module Text.

(** White space of one byte: tab, line feed, vertical tab, form feed,
    carriage return, the four separators 28..31, and space. *)
Definition is_space (c : ascii) : bool :=
  let n := nat_of_ascii c in
  (((9 <=? n) && (n <=? 13)) || ((28 <=? n) && (n <=? 32)))%nat.

(** White space of two bytes: U+0085 and U+00A0. *)
Definition is_space2 (c1 c2 : ascii) : bool :=
  let a := nat_of_ascii c1 in
  let b := nat_of_ascii c2 in
  ((a =? 194) && ((b =? 133) || (b =? 160)))%nat.

(** White space of three bytes: U+1680, U+2000..U+200A, U+2028, U+2029,
    U+202F, U+205F and U+3000. *)
Definition is_space3 (c1 c2 c3 : ascii) : bool :=
  let a := nat_of_ascii c1 in
  let b := nat_of_ascii c2 in
  let c := nat_of_ascii c3 in
  (((a =? 225) && (b =? 154) && (c =? 128))
   || ((a =? 226) && (b =? 128)
       && (((128 <=? c) && (c <=? 138)) || (c =? 168) || (c =? 169) || (c =? 175)))
   || ((a =? 226) && (b =? 129) && (c =? 159))
   || ((a =? 227) && (b =? 128) && (c =? 128)))%nat.

(** Leading white space removed, on the bytes of the text. *)
Fixpoint lstrip_bytes (s : list ascii) : list ascii :=
  match s with
  | [] => []
  | c1 :: s1 =>
      if is_space c1 then lstrip_bytes s1
      else
        match s1 with
        | [] => s
        | c2 :: s2 =>
            if is_space2 c1 c2 then lstrip_bytes s2
            else
              match s2 with
              | [] => s
              | c3 :: s3 => if is_space3 c1 c2 c3 then lstrip_bytes s3 else s
              end
        end
  end.

(** The same on the reversed text: a character is met last byte first. *)
Fixpoint lstrip_reversed (s : list ascii) : list ascii :=
  match s with
  | [] => []
  | c1 :: s1 =>
      if is_space c1 then lstrip_reversed s1
      else
        match s1 with
        | [] => s
        | c2 :: s2 =>
            if is_space2 c2 c1 then lstrip_reversed s2
            else
              match s2 with
              | [] => s
              | c3 :: s3 => if is_space3 c3 c2 c1 then lstrip_reversed s3 else s
              end
        end
  end.

Definition lstrip (s : string) : string :=
  string_of_list_ascii (lstrip_bytes (list_ascii_of_string s)).

Definition rstrip (s : string) : string :=
  string_of_list_ascii
    (rev (lstrip_reversed (rev (list_ascii_of_string s)))).

(** [str.strip()] *)
Definition strip (s : string) : string := rstrip (lstrip s).

Fixpoint map_chars (f : ascii -> ascii) (s : string) : string :=
  match s with
  | EmptyString => EmptyString
  | String c s' => String (f c) (map_chars f s')
  end.

(** [str.lower()] on the letters A..Z. *)
Definition lower_char (c : ascii) : ascii :=
  let n := nat_of_ascii c in
  if ((65 <=? n) && (n <=? 90))%nat then ascii_of_nat (n + 32) else c.

Definition ascii_lower : string -> string := map_chars lower_char.

(** Texts of ASCII characters only. *)
Definition is_ascii (s : string) : bool :=
  forallb (fun c => (nat_of_ascii c <? 128)%nat) (list_ascii_of_string s).

(** [str.replace(" ", "_")] *)
Definition replace_space_underscore : string -> string :=
  map_chars (fun c => if Ascii.eqb c " "%char then "_"%char else c).

(** [", ".join(...)] *)
Fixpoint join (sep : string) (l : list string) : string :=
  match l with
  | [] => EmptyString
  | [x] => x
  | x :: xs => (x ++ sep ++ join sep xs)%string
  end.

(** [repr] of a list of plain identifiers, as an f-string prints it:
    ['a', 'b'].  Only used on members of [required_cols], which need no
    escaping. *)
Definition repr_list (l : list string) : string :=
  ("[" ++ join ", " (map (fun s => "'" ++ s ++ "'") l) ++ "]")%string.

Definition mem (s : string) (l : list string) : bool :=
  existsb (String.eqb s) l.

End Text.
(* ------------------------------------------------------------------ *)
(** ** Cells and data frames *)

Inductive value : Type :=
| VNum (q : Q)        (* int64 / float64 *)
| VStr (s : string)   (* object *)
| VNaN.               (* missing *)

Definition isna (v : value) : bool :=
  match v with VNaN => true | _ => false end.

Definition notna (v : value) : bool := negb (isna v).

(** Membership test used by [Series.isin], [unique] and [groupby]: numbers
    by numeric value, texts by content; a missing cell matches a missing
    cell (pandas hashes every NaN to one key). *)
Definition value_eqb (a b : value) : bool :=
  match a, b with
  | VNum p, VNum q => Qeq_bool p q
  | VStr s, VStr t => String.eqb s t
  | VNaN, VNaN => true
  | _, _ => false
  end.

(** [v in sel] of [Series.isin(sel)], cell by cell. *)
Definition isin (v : value) (sel : list value) : bool :=
  existsb (value_eqb v) sel.

(** Python's ["All" in sel]: [==] against the text "All". *)
Definition has_all (sel : list value) : bool :=
  existsb (fun v => match v with VStr s => String.eqb s "All" | _ => false end) sel.

(** The float behind a measure cell; [Series.sum] skips missing cells. *)
Definition num_of (v : value) : Q :=
  match v with VNum q => q | _ => 0%Q end.

Definition row := list value.

Record DataFrame : Type := mkDF {
  columns : list string;
  rows : list row
}.

(** Position of the first column carrying [label]. *)
Fixpoint index_of (label : string) (cols : list string) : option nat :=
  match cols with
  | [] => None
  | c :: cs =>
      if String.eqb label c then Some 0
      else option_map S (index_of label cs)
  end.

(** [row[label]]; a cell that is not there reads as missing. *)
Definition cell (cols : list string) (label : string) (r : row) : value :=
  match index_of label cols with
  | Some i => nth i r VNaN
  | None => VNaN
  end.

Fixpoint set_nth (i : nat) (v : value) (r : row) : row :=
  match r, i with
  | [], _ => []
  | _ :: xs, O => v :: xs
  | x :: xs, S j => x :: set_nth j v xs
  end.

(** Number of columns carrying [label]; with two or more, [df[label]] is
    a frame and not a series. *)
Definition label_count (label : string) (cols : list string) : nat :=
  List.length (filter (String.eqb label) cols).

(** [df[label]] as a series. *)
Definition series (df : DataFrame) (label : string) : list value :=
  map (cell (columns df) label) (rows df).

(** Exact sum of a list of numbers. *)
Definition qsum (l : list Q) : Q := fold_right Qplus 0%Q l.

(** The number in the measure cell of a row, 0 where there is none:
    [Series.sum] skips missing cells, and the normaliser leaves no text in
    the measure column. *)
Definition births_of (cols : list string) (r : row) : Q :=
  num_of (cell cols "births" r).

(* ------------------------------------------------------------------ *)
(** ** Ordering helpers: [sorted], [unique], [sort_values] *)

Definition is_num (v : value) : bool :=
  match v with VNum _ => true | _ => false end.

Definition is_str (v : value) : bool :=
  match v with VStr _ => true | _ => false end.

(** [a <= b] between cells of one kind.  Across kinds the order is fixed
    arbitrarily (numbers, texts, missing): no execution compares cells of
    two kinds, since [sorted] has raised by then. *)
Definition value_leb (a b : value) : bool :=
  match a, b with
  | VNum p, VNum q => Qle_bool p q
  | VNum _, _ => true
  | VStr _, VNum _ => false
  | VStr s, VStr t => String.leb s t
  | VStr _, VNaN => true
  | VNaN, VNaN => true
  | VNaN, _ => false
  end.

Section Insertion.
Context {A : Type} (before : A -> A -> bool).

(** [x] goes in front of the first element it may precede, so elements
    that compare equal keep their relative order. *)
Fixpoint insert (x : A) (l : list A) : list A :=
  match l with
  | [] => [x]
  | y :: ys => if before x y then x :: y :: ys else y :: insert x ys
  end.

Definition isort (l : list A) : list A := fold_right insert [] l.
End Insertion.

Section Distinct.
Context {A : Type} (eqb : A -> A -> bool).

(** Distinct elements in order of first appearance. *)
Fixpoint unique_by (l : list A) : list A :=
  match l with
  | [] => []
  | x :: xs => x :: filter (fun y => negb (eqb x y)) (unique_by xs)
  end.
End Distinct.

(** [Series.unique()] *)
Definition unique : list value -> list value := unique_by value_eqb.

(** Python's [sorted] on a list of cells without missing values: it raises
    [TypeError] ([None] here) when texts and numbers meet. *)
Definition sorted (l : list value) : option (list value) :=
  if forallb is_num l || forallb is_str l
  then Some (isort value_leb l)
  else None.

(** [sorted(df[label].dropna().unique())].  When two columns carry
    [label], [df[label]] is a frame, which has no [unique]: the call raises
    ([None] here), as it does when [sorted] meets mixed kinds. *)
Definition options (df : DataFrame) (label : string) : option (list value) :=
  if (label_count label (columns df) =? 1)%nat
  then sorted (unique (filter notna (series df label)))
  else None.

(* ------------------------------------------------------------------ *)
(** ** Machine numbers, the chat context and the platform *)

(** What a machine sum can be: a finite number, an infinity, or NaN. *)
Inductive number : Type :=
| Fin (q : Q)
| PosInf
| NegInf
| NotANumber.

(** [a <= b] as [sort_values] orders totals, NaN below everything so that
    a descending sort leaves it last. *)
Definition num_leb (a b : number) : bool :=
  match a, b with
  | NotANumber, _ => true
  | _, NotANumber => false
  | NegInf, _ => true
  | _, NegInf => false
  | _, PosInf => true
  | PosInf, _ => false
  | Fin p, Fin q => Qle_bool p q
  end.

(** The same order as a proposition. *)
Definition num_le (a b : number) : Prop :=
  match a, b with
  | NotANumber, _ => True
  | _, NotANumber => False
  | NegInf, _ => True
  | _, NegInf => False
  | _, PosInf => True
  | PosInf, _ => False
  | Fin p, Fin q => (p <= q)%Q
  end.

(** The dictionary of lines 157-167. *)
Record context : Type := mkContext {
  total_births : Z;
  state_totals : list (value * number);
  gender_totals : list (value * number);
  monthly_totals : list (value * number);
  filters_applied : list value * list value * list value
}.

(** What the script takes from the libraries without this model spelling
    it out. *)
Class platform : Type := {
  str_lower : string -> string;          (* [str.lower()] *)
  series_sum : list Q -> number;         (* [Series.sum()] on the measure *)
  group_sum : list Q -> number;          (* a group's sum under [groupby] *)
  tie_order : list (value * number) -> list (value * number);
                                         (* the order in which the sort of
                                            [sort_values] meets the totals *)
  tie_order_permutes : forall l, Permutation (tie_order l) l;
                                         (* it drops and adds nothing *)
  serialisable : context -> bool         (* whether [json.dumps] accepts *)
}.

(** Numbers on which machine sums are exact whatever the dtype and the
    order of the additions: whole numbers whose absolute values add up to
    less than 2^53. *)
Definition whole (q : Q) : Prop := exists z : Z, (q == inject_Z z)%Q.

Definition safe (l : list Q) : Prop :=
  (forall q, In q l -> whole q) /\
  (qsum (map Qabs l) < inject_Z (2 ^ 53))%Q.

(** What is known of a platform. *)
Definition lowers_ascii (P : platform) : Prop :=
  forall s, Text.is_ascii s = true -> str_lower s = Text.ascii_lower s.

Definition exact_sums (P : platform) : Prop :=
  forall l, safe l ->
            (exists q, series_sum l = Fin q /\ (q == qsum l)%Q) /\
            (exists q, group_sum l = Fin q /\ (q == qsum l)%Q).

(** A context whose keys and selections are all texts. *)
Definition textual (c : context) : bool :=
  forallb is_str (map fst (state_totals c))
  && forallb is_str (map fst (gender_totals c))
  && forallb is_str (map fst (monthly_totals c))
  && forallb is_str (fst (fst (filters_applied c)))
  && forallb is_str (snd (fst (filters_applied c)))
  && forallb is_str (snd (filters_applied c)).

Definition serialises_text (P : platform) : Prop :=
  forall c, textual c = true -> serialisable c = true.

(* ------------------------------------------------------------------ *)
(** ** Schema normaliser (lines 30-48) *)

Definition required_cols : list string :=
  [ "state_of_residence"; "month"; "month_code"; "year_code";
    "sex_of_infant"; "births" ].

(** [[c for c in required_cols if c not in df.columns]] *)
Definition missing (df : DataFrame) : list string :=
  filter (fun c => negb (Text.mem c (columns df))) required_cols.

(** [df = df.dropna(subset=["births"])] *)
Definition dropna_births (df : DataFrame) : DataFrame :=
  mkDF (columns df)
       (filter (fun r => notna (cell (columns df) "births" r)) (rows df)).

(** How the normaliser ends. *)
Inductive normalized : Type :=
| MissingColumns (names : list string)   (* [st.error] and [st.stop()] *)
| NotASeries                             (* [TypeError] *)
| Clean (df : DataFrame).

Section Coercion.
Context {P : platform}.
(** What [pd.to_numeric] makes of a text cell: a number, or nothing. *)
Variable parse : string -> option Q.

(** [c.strip().lower().replace(" ", "_")] *)
Definition normalize_label (c : string) : string :=
  Text.replace_space_underscore (str_lower (Text.strip c)).

(** [df.columns = [c.strip().lower().replace(" ", "_") for c in df.columns]] *)
Definition rename_columns (df : DataFrame) : DataFrame :=
  mkDF (map normalize_label (columns df)) (rows df).

(** [pd.to_numeric(..., errors="coerce")] on one cell *)
Definition to_numeric (v : value) : value :=
  match v with
  | VNum q => VNum q
  | VStr s => match parse s with Some q => VNum q | None => VNaN end
  | VNaN => VNaN
  end.

(** [df["births"] = pd.to_numeric(df["births"], errors="coerce")] *)
Definition coerce_births (df : DataFrame) : DataFrame :=
  match index_of "births" (columns df) with
  | Some i =>
      mkDF (columns df)
           (map (fun r => set_nth i (to_numeric (nth i r VNaN)) r) (rows df))
  | None => df
  end.

(** Lines 30-48.  [pd.to_numeric] wants a series: when two columns are
    called [births] after renaming, [df["births"]] is a frame and the
    call raises [TypeError]. *)
Definition normalize (df_raw : DataFrame) : normalized :=
  let df := rename_columns df_raw in
  match missing df with
  | _ :: _ => MissingColumns (missing df)
  | [] =>
      if (label_count "births" (columns df) =? 1)%nat
      then Clean (dropna_births (coerce_births df))
      else NotASeries
  end.
End Coercion.

(** One parser, for the examples: it reads signed decimal literals such as
    [12], [-5], [3.25] and nothing else ([pd.to_numeric] reads more, such
    as exponents and numerals padded with blanks). *)
Definition digit_of (c : ascii) : option Z :=
  let n := nat_of_ascii c in
  if ((48 <=? n) && (n <=? 57))%nat then Some (Z.of_nat (n - 48)) else None.

Fixpoint literal_digits (s : string) (num : Z) (den : positive)
         (dot seen : bool) : option Q :=
  match s with
  | EmptyString => if seen then Some (Qmake num den) else None
  | String c s' =>
      match digit_of c with
      | Some d =>
          literal_digits s' (10 * num + d)%Z (if dot then (10 * den)%positive else den)
                         dot true
      | None =>
          if Ascii.eqb c "."%char && negb dot
          then literal_digits s' num den true seen
          else None
      end
  end.

Definition decimal_literal (s : string) : option Q :=
  match s with
  | String "-"%char s' => option_map Qopp (literal_digits s' 0%Z 1%positive false false)
  | String "+"%char s' => literal_digits s' 0%Z 1%positive false false
  | _ => literal_digits s 0%Z 1%positive false false
  end.

(* ------------------------------------------------------------------ *)
(** ** Filter engine (lines 65-74) *)

(** [frame[frame[label].isin(sel)]] *)
Definition keep_isin (label : string) (sel : list value) (df : DataFrame)
  : DataFrame :=
  mkDF (columns df)
       (filter (fun r => isin (cell (columns df) label r) sel) (rows df)).

(** [if "All" not in sel: filtered = filtered[filtered[label].isin(sel)]] *)
Definition restrict (label : string) (sel : list value) (df : DataFrame)
  : DataFrame :=
  if negb (has_all sel) then keep_isin label sel df else df.

(** The test [restrict] comes to, row by row. *)
Definition admits (cols : list string) (label : string) (sel : list value)
           (r : row) : bool :=
  has_all sel || isin (cell cols label r) sel.

Definition filter_engine (df : DataFrame)
           (state_sel gender_sel month_sel : list value) : DataFrame :=
  let filtered := df in
  let filtered := restrict "state_of_residence" state_sel filtered in
  let filtered := restrict "sex_of_infant" gender_sel filtered in
  let filtered := restrict "month" month_sel filtered in
  filtered.

(** [frame.empty]: no rows, or no columns. *)
Definition empty (df : DataFrame) : bool :=
  match rows df, columns df with
  | [], _ => true
  | _, [] => true
  | _, _ => false
  end.

(* ------------------------------------------------------------------ *)
(** ** Exceptions *)

(** Exceptions the script can meet; each one is an [Exception]. *)
Inductive exn : Type :=
| KeyError | IndexError | TypeError | RequestException | JSONDecodeError
| OverflowError | ValueError.

Definition attempt (A : Type) : Type := (exn + A)%type.

Definition try_bind {A B} (m : attempt A) (k : A -> attempt B) : attempt B :=
  match m with
  | inl e => inl e
  | inr a => k a
  end.

Declare Scope try_scope.
Delimit Scope try_scope with try.
Notation "x <-- m ;; k" := (try_bind m (fun x => k))
  (at level 61, m at next level, right associativity) : try_scope.

(* ------------------------------------------------------------------ *)
(** ** Aggregator (lines 85-89 and 136-167) *)

(** Rows of the group of [k] under [groupby(label)]. *)
Definition group_rows (df : DataFrame) (label : string) (k : value) : list row :=
  filter (fun r => value_eqb k (cell (columns df) label r)) (rows df).

Definition pair_eqb (a b : value * value) : bool :=
  value_eqb (fst a) (fst b) && value_eqb (snd a) (snd b).

Definition pair_leb (a b : value * value) : bool :=
  if value_eqb (fst a) (fst b) then value_leb (snd a) (snd b)
  else value_leb (fst a) (fst b).

Definition key2 (cols : list string) (l1 l2 : string) (r : row) : value * value :=
  (cell cols l1 r, cell cols l2 r).

(** Python's [int] on a finite float: truncation towards zero. *)
Definition py_int (q : Q) : Z := Z.quot (Qnum q) (Z.pos (Qden q)).

(** Python's [int] on what a sum returns: it raises on an infinity and on
    NaN. *)
Definition int_of_number (x : number) : attempt Z :=
  match x with
  | Fin q => inr (py_int q)
  | PosInf | NegInf => inl OverflowError
  | NotANumber => inl ValueError
  end.

Section Aggregates.
Context {P : platform}.

(** [frame["births"].sum()] *)
Definition births_sum (df : DataFrame) : number :=
  series_sum (map (births_of (columns df)) (rows df)).

(** [frame.groupby(label)["births"].sum()]: one entry per distinct key that
    is not missing, keys in ascending order. *)
Definition groupby_sum (df : DataFrame) (label : string) : list (value * number) :=
  map (fun k => (k, group_sum (map (births_of (columns df)) (group_rows df label k))))
      (isort value_leb (unique (filter notna (series df label)))).

(** [frame.groupby([l1, l2])["births"].sum().reset_index()] *)
Definition groupby2_sum (df : DataFrame) (l1 l2 : string)
  : list (value * value * number) :=
  let cols := columns df in
  let keys :=
    filter (fun k => notna (fst k) && notna (snd k)) (map (key2 cols l1 l2) (rows df)) in
  map (fun k =>
         (k, group_sum (map (births_of cols)
                            (filter (fun r => pair_eqb k (key2 cols l1 l2 r)) (rows df)))))
      (isort pair_leb (unique_by pair_eqb keys)).

(** [.sort_values(ascending=False)]: largest total first, NaN last.  The
    sort of pandas is not stable; the order in which it leaves equal
    totals is that of [tie_order]. *)
Definition sort_values_desc (l : list (value * number)) : list (value * number) :=
  isort (fun x y => num_leb (snd y) (snd x)) (tie_order l).

(** Line 136: [int(filtered["births"].sum())] *)
Definition total_births_of (filtered : DataFrame) : attempt Z :=
  int_of_number (births_sum filtered).

(** Lines 138-143 *)
Definition state_totals_of (filtered : DataFrame) : list (value * number) :=
  sort_values_desc (groupby_sum filtered "state_of_residence").

(** Lines 145-149 *)
Definition gender_totals_of (filtered : DataFrame) : list (value * number) :=
  groupby_sum filtered "sex_of_infant".

(** Lines 151-155 *)
Definition monthly_totals_of (filtered : DataFrame) : list (value * number) :=
  groupby_sum filtered "month".

(** Lines 136-167: the context, unless line 136 raises. *)
Definition build_context (filtered : DataFrame)
           (state_sel gender_sel month_sel : list value) : attempt context :=
  (total <-- total_births_of filtered ;;
   inr {| total_births := total;
          state_totals := state_totals_of filtered;
          gender_totals := gender_totals_of filtered;
          monthly_totals := monthly_totals_of filtered;
          filters_applied := (state_sel, gender_sel, month_sel) |})%try.

(** Lines 136-186: the context the prompt embeds, unless line 136 raises or
    [json.dumps] refuses the context ([TypeError]). *)
Definition prompt_context (filtered : DataFrame)
           (state_sel gender_sel month_sel : list value) : attempt context :=
  (ctx <-- build_context filtered state_sel gender_sel month_sel ;;
   if serialisable ctx then inr ctx else inl TypeError)%try.
End Aggregates.

(* ------------------------------------------------------------------ *)
(** ** Chat client (lines 188-208) *)

(** A decoded JSON document, as [response.json()] returns it. *)
#[local] Unset Elimination Schemes.
Inductive pyval : Type :=
| PNone
| PBool (b : bool)
| PNum (q : Q)
| PStr (s : string)
| PList (l : list pyval)
| PDict (l : list (string * pyval)).
#[local] Set Elimination Schemes.

(** [x[key]] with a text key *)
Definition getitem (key : string) (x : pyval) : attempt pyval :=
  match x with
  | PDict l =>
      match find (fun kv => String.eqb key (fst kv)) l with
      | Some kv => inr (snd kv)
      | None => inl KeyError
      end
  | _ => inl TypeError
  end.

(** [x[0]] *)
Definition getitem0 (x : pyval) : attempt pyval :=
  match x with
  | PList (y :: _) => inr y
  | PList [] => inl IndexError
  | PStr (String c _) => inr (PStr (String c EmptyString))
  | PStr EmptyString => inl IndexError
  | PDict _ => inl KeyError
  | _ => inl TypeError
  end.

Record response : Type := mkResponse {
  json : attempt pyval            (* [response.json()] *)
}.

Record request : Type := mkRequest {
  url : string;
  authorization : string;
  model : string;
  system_context : context;       (* the context the system prompt embeds *)
  user_content : string;
  temperature : Q
}.

(** The world outside the script, as far as the chat block sees it. *)
Record network : Type := mkNetwork {
  secret : option string;                    (* [st.secrets[...]] *)
  post : request -> attempt response         (* [requests.post(...)] *)
}.

Definition fallback : string := "The AI analyst is currently unavailable.".

(** The body of the [try]. *)
Definition completion (net : network) (ctx : context) (user_input : string)
  : attempt pyval :=
  (key <-- match secret net with Some k => inr k | None => inl KeyError end ;;
   resp <-- post net
         {| url := "https://api.groq.com/openai/v1/chat/completions";
            authorization := ("Bearer " ++ key)%string;
            model := "llama3-8b-8192";
            system_context := ctx;
            user_content := user_input;
            temperature := Qmake 2 10 |} ;;
   body <-- json resp ;;
   choices <-- getitem "choices" body ;;
   first <-- getitem0 choices ;;
   message <-- getitem "message" first ;;
   getitem "content" message)%try.

(** [try: ... except Exception: result = fallback] *)
Definition chat_result (net : network) (ctx : context) (user_input : string)
  : pyval :=
  match completion net ctx user_input with
  | inr result => result
  | inl _ => PStr fallback
  end.

(* ------------------------------------------------------------------ *)
(** ** One execution of the script *)

Record turn : Type := mkTurn { role : string; content : pyval }.

Inductive event : Type :=
| PageConfig (layout : string)
| Title (s : string)
| Subheader (s : string)
| Header (s : string)
| Markdown (s : string)
| Error (s : string)
| Warning (s : string)
| SidebarHeader (s : string)
| Multiselect (label : string) (choices default : list value)
| PlotlyChart (agg : list (value * value * number))
| Dataframe (df : DataFrame)
| ChatMessage (name : string) (body : pyval)
| ChatInput (placeholder : string).

(** How an execution ends. *)
Inductive outcome : Type :=
| Completed      (* the last line was reached *)
| Stopped        (* [st.stop()] *)
| Raised.        (* an exception left the script *)

(** What an execution leaves behind: the elements rendered, in order, and
    [st.session_state.messages] ([None] while the key is not set). *)
Record ui : Type := mkUi {
  trace : list event;
  messages : option (list turn)
}.

Definition script (A : Type) : Type := ui -> ui * (A + outcome).

Definition ret {A} (a : A) : script A := fun u => (u, inl a).

Definition bind {A B} (m : script A) (k : A -> script B) : script B :=
  fun u =>
    match m u with
    | (u', inl a) => k a u'
    | (u', inr o) => (u', inr o)
    end.

Declare Scope script_scope.
Delimit Scope script_scope with script.
Notation "x <- m ;; k" := (bind m (fun x => k))
  (at level 61, m at next level, right associativity) : script_scope.
Notation "m ;; k" := (bind m (fun _ => k))
  (at level 61, right associativity) : script_scope.

Definition emit (e : event) : script unit :=
  fun u => (mkUi (trace u ++ [e]) (messages u), inl tt).

Definition st_stop {A} : script A := fun u => (u, inr Stopped).

Definition raise {A} : script A := fun u => (u, inr Raised).

(** [if "messages" not in st.session_state: st.session_state.messages = []],
    then read the list. *)
Definition session_messages : script (list turn) :=
  fun u =>
    match messages u with
    | Some l => (u, inl l)
    | None => (mkUi (trace u) (Some []), inl [])
    end.

(** [st.session_state.messages.append(t)] *)
Definition append_message (t : turn) : script unit :=
  fun u =>
    match messages u with
    | Some l => (mkUi (trace u) (Some (l ++ [t])), inl tt)
    | None => (u, inr Raised)
    end.

Fixpoint for_each {A} (f : A -> script unit) (l : list A) : script unit :=
  match l with
  | [] => ret tt
  | x :: xs => bind (f x) (fun _ => for_each f xs)
  end.

(** What the user and the environment supply to one execution. *)
Record interaction : Type := mkInteraction {
  csv : option DataFrame;         (* [pd.read_csv]; [None] when it raises *)
  state_choice : list value;      (* what the three multiselects return *)
  gender_choice : list value;
  month_choice : list value;
  chat_text : option string;      (* what [st.chat_input] returns *)
  net : network
}.

(** [load_data()] *)
Definition load_data (i : interaction) : option DataFrame := csv i.

(** A widget call renders the widget and returns the current choice. *)
Definition multiselect (label : string) (choices default current : list value)
  : script (list value) :=
  (emit (Multiselect label choices default) ;; ret current)%script.

(** [sorted(df[label].dropna().unique())] inside the script. *)
Definition option_list (df : DataFrame) (label : string) : script (list value) :=
  match options df label with
  | Some l => ret l
  | None => raise
  end.

(** Python truthiness of [user_input]. *)
Definition submitted (t : option string) : option string :=
  match t with
  | Some EmptyString => None
  | other => other
  end.

Local Open Scope script_scope.

(** Column labels that are pairwise distinct. *)
Fixpoint distinct (l : list string) : bool :=
  match l with
  | [] => true
  | x :: xs => negb (Text.mem x xs) && distinct xs
  end.

(** [st.dataframe(frame)]: it raises when two columns carry one label. *)
Definition st_dataframe (df : DataFrame) : script unit :=
  if distinct (columns df) then emit (Dataframe df) else raise.

Section App.
Context {P : platform}.
Variable parse : string -> option Q.

(** Lines 85-109: chart and table. *)
Definition visualization (filtered : DataFrame) : script unit :=
  let agg := groupby2_sum filtered "state_of_residence" "sex_of_infant" in
  emit (PlotlyChart agg) ;;
  emit (Subheader "Filtered Records") ;;
  st_dataframe filtered.

(** Lines 128-213: one chat submission.  Lines 136-186 stand outside the
    [try]: when [int] or [json.dumps] raises, the exception leaves the
    script after the user's turn has been stored and shown. *)
Definition chat_submission (net : network) (filtered : DataFrame)
           (state_sel gender_sel month_sel : list value) (user_input : string)
  : script unit :=
  append_message (mkTurn "user" (PStr user_input)) ;;
  emit (ChatMessage "user" (PStr user_input)) ;;
  match prompt_context filtered state_sel gender_sel month_sel with
  | inl _ => raise
  | inr ctx =>
      let result := chat_result net ctx user_input in
      emit (ChatMessage "assistant" result) ;;
      append_message (mkTurn "assistant" result)
  end.

(** Lines 116-213: the analyst section. *)
Definition analyst (i : interaction) (filtered : DataFrame)
           (state_sel gender_sel month_sel : list value) : script unit :=
  emit (Markdown "---") ;;
  emit (Header "AI Data Analyst") ;;
  history <- session_messages ;;
  for_each (fun msg => emit (ChatMessage (role msg) (content msg))) history ;;
  emit (ChatInput "Ask an analytical question about the data...") ;;
  match submitted (chat_text i) with
  | Some user_input =>
      chat_submission (net i) filtered state_sel gender_sel month_sel user_input
  | None => ret tt
  end.

(** The script, top to bottom. *)
Definition app (i : interaction) : script unit :=
  emit (PageConfig "wide") ;;
  emit (Title "Provisional Natality Data Dashboard") ;;
  emit (Subheader "Birth Analysis by State and Gender") ;;
  match load_data i with
  | None =>
      emit (Error "Dataset file not found in repository.") ;;
      st_stop
  | Some df_raw =>
      match normalize parse df_raw with
      | MissingColumns missing =>
          emit (Error ("Missing required columns: " ++ Text.repr_list missing)%string) ;;
          st_stop
      | NotASeries => raise
      | Clean df =>
          emit (SidebarHeader "Filters") ;;
          states <- option_list df "state_of_residence" ;;
          genders <- option_list df "sex_of_infant" ;;
          months <- option_list df "month" ;;
          let all := [VStr "All"] in
          state_sel <- multiselect "State" (all ++ states) all (state_choice i) ;;
          gender_sel <- multiselect "Gender" (all ++ genders) all (gender_choice i) ;;
          month_sel <- multiselect "Month" (all ++ months) all (month_choice i) ;;
          let filtered := filter_engine df state_sel gender_sel month_sel in
          if empty filtered then
            emit (Warning "No data matches selected filters.") ;;
            st_stop
          else
            visualization filtered ;;
            analyst i filtered state_sel gender_sel month_sel
      end
  end.

(** One execution, started with the session's conversation. *)
Definition run (i : interaction) (session : option (list turn)) : ui * outcome :=
  match app i (mkUi [] session) with
  | (u, inl _) => (u, Completed)
  | (u, inr o) => (u, o)
  end.

(** Streamlit keeps [st.session_state] from one execution of a session to
    the next, whichever way the execution ends: the conversation an
    execution leaves is the one the next execution starts with. *)
Fixpoint session_after (steps : list interaction)
         (session : option (list turn)) : option (list turn) :=
  match steps with
  | [] => session
  | i :: rest => session_after rest (messages (fst (run i session)))
  end.
End App.

Local Close Scope script_scope.

(** What lines 7-9 render. *)
Definition preamble : list event :=
  [ PageConfig "wide";
    Title "Provisional Natality Data Dashboard";
    Subheader "Birth Analysis by State and Gender" ].

(** What lines 55-63 render. *)
Definition sidebar (states genders months : list value) : list event :=
  [ SidebarHeader "Filters";
    Multiselect "State" (VStr "All" :: states) [VStr "All"];
    Multiselect "Gender" (VStr "All" :: genders) [VStr "All"];
    Multiselect "Month" (VStr "All" :: months) [VStr "All"] ].

(** Elements of the chart, table and analyst sections (lines 85-213). *)
Definition section_element (e : event) : bool :=
  match e with
  | PlotlyChart _ | Dataframe _ | Markdown _ | Header _
  | ChatMessage _ _ | ChatInput _ => true
  | _ => false
  end.

Definition is_multiselect (e : event) : bool :=
  match e with Multiselect _ _ _ => true | _ => false end.

(** The conversation held in a session. *)
Definition conversation (session : option (list turn)) : list turn :=
  match session with Some l => l | None => [] end.

(* ------------------------------------------------------------------ *)
(** ** Auxiliary notions for the properties *)

(** Equality of cells as the filter and the grouping see it: numbers by
    value, texts by content, missing with missing. *)
Definition same_value (a b : value) : Prop :=
  match a, b with
  | VNum p, VNum q => (p == q)%Q
  | VStr s, VStr t => s = t
  | VNaN, VNaN => True
  | _, _ => False
  end.

(** A cell is among the chosen values. *)
Definition chosen (v : value) (sel : list value) : Prop :=
  exists w, In w sel /\ same_value v w.

(** What [.lower().replace(" ", "_")] does to one ASCII character. *)
Definition label_char (c : ascii) : ascii :=
  let c := Text.lower_char c in
  if Ascii.eqb c " "%char then "_"%char else c.

(** Leading white space removed from a text of ASCII characters. *)
Fixpoint skip_spaces (l : list ascii) : list ascii :=
  match l with
  | [] => []
  | c :: l' => if Text.is_space c then skip_spaces l' else l
  end.

(** A turn as [st.chat_message(role)] with [st.markdown(content)] shows it. *)
Definition render_turn (t : turn) : event := ChatMessage (role t) (content t).

Definition is_chat_message (e : event) : bool :=
  match e with ChatMessage _ _ => true | _ => false end.

(** The request of lines 189-203. *)
Definition chat_request (key : string) (ctx : context) (user_input : string)
  : request :=
  {| url := "https://api.groq.com/openai/v1/chat/completions";
     authorization := ("Bearer " ++ key)%string;
     model := "llama3-8b-8192";
     system_context := ctx;
     user_content := user_input;
     temperature := Qmake 2 10 |}.

(** What the analyst section renders, given the conversation it finds and
    the turns it adds. *)
Definition transcript (history new : list turn) : list event :=
  [ Markdown "---"; Header "AI Data Analyst" ]
  ++ map render_turn history
  ++ [ ChatInput "Ask an analytical question about the data..." ]
  ++ map render_turn new.

Section Exchange.
Context {P : platform}.

(** The turns one execution of the analyst section adds: none without a
    question, the user's turn alone when lines 136-186 raise, the user's
    and the assistant's otherwise. *)
Definition exchange (i : interaction) (filtered : DataFrame)
           (ss gs ms : list value) : list turn :=
  match submitted (chat_text i) with
  | Some user_input =>
      mkTurn "user" (PStr user_input)
      :: match prompt_context filtered ss gs ms with
         | inr ctx => [ mkTurn "assistant" (chat_result (net i) ctx user_input) ]
         | inl _ => []
         end
  | None => []
  end.

(** Whether the analyst section reaches its last line. *)
Definition answers (i : interaction) (filtered : DataFrame)
           (ss gs ms : list value) : bool :=
  match submitted (chat_text i) with
  | Some _ =>
      match prompt_context filtered ss gs ms with
      | inr _ => true
      | inl _ => false
      end
  | None => true
  end.
End Exchange.

(* ------------------------------------------------------------------ *)
(** ** One platform *)

(** Two's-complement wrap-around of int64. *)
Definition wrap64 (z : Z) : Z := ((z + 2 ^ 63) mod 2 ^ 64 - 2 ^ 63)%Z.

Definition is_whole (q : Q) : bool :=
  (Z.rem (Qnum q) (Z.pos (Qden q)) =? 0)%Z.

Definition in_int64 (q : Q) : bool :=
  ((- 2 ^ 63 <=? py_int q) && (py_int q <? 2 ^ 63))%Z.

(** A sum as numpy computes it, as far as the examples need it: a column
    of whole numbers within int64 is summed with wrap-around; any other
    column is a float64 column, whose sum is an infinity when it leaves
    the range of float64 (rounding is not reproduced). *)
Definition reference_sum (l : list Q) : number :=
  if forallb (fun q => is_whole q && in_int64 q) l
  then Fin (inject_Z (wrap64 (py_int (qsum l))))
  else if Qle_bool (inject_Z (2 ^ 1024)) (qsum l) then PosInf
  else if Qle_bool (qsum l) (inject_Z (- 2 ^ 1024)) then NegInf
  else Fin (qsum l).

(** One platform, for the examples: the lower-casing of ASCII letters (the
    samples hold no other letters), [reference_sum], ties left in the
    order of the grouping, and a [json.dumps] that accepts a context when
    its keys and selections are texts. *)
Definition reference : platform :=
  {| str_lower := Text.ascii_lower;
     series_sum := reference_sum;
     group_sum := reference_sum;
     tie_order := fun l => l;
     tie_order_permutes := fun l => Permutation_refl l;
     serialisable := textual |}.

#[local] Existing Instance reference.

(* ------------------------------------------------------------------ *)
(** ** Sample data *)

Module Sample.

Definition all : list value := [VStr "All"].

(** Column labels as the file spells them. *)
Definition header : list string :=
  [ "State of Residence"; "Month"; "Month Code"; "Year Code";
    "Sex of Infant"; "Births" ].

Definition record (state month : value) (code : Z) (sex births : value) : row :=
  [ state; month; VNum (inject_Z code); VNum (inject_Z 2025); sex; births ].

(** Three well-formed records, one whose count is given as text, and one
    whose count is not a number. *)
Definition raw : DataFrame :=
  mkDF header
       [ record (VStr "CA") (VStr "Jan") 1 (VStr "M") (VNum (inject_Z 100));
         record (VStr "CA") (VStr "Jan") 1 (VStr "F") (VStr "90");
         record (VStr "TX") (VStr "Feb") 2 (VStr "M") (VNum (inject_Z 50));
         record (VStr "TX") (VStr "Feb") 2 (VStr "F") (VStr "n/a") ].

Definition labels : list string := map normalize_label header.

Definition df : DataFrame :=
  mkDF labels
       [ record (VStr "CA") (VStr "Jan") 1 (VStr "M") (VNum (inject_Z 100));
         record (VStr "CA") (VStr "Jan") 1 (VStr "F") (VNum (inject_Z 90));
         record (VStr "TX") (VStr "Feb") 2 (VStr "M") (VNum (inject_Z 50)) ].

(** A file with a negative count. *)
Definition negative_raw : DataFrame :=
  mkDF header
       [ record (VStr "CA") (VStr "Jan") 1 (VStr "M") (VNum (inject_Z (-5)));
         record (VStr "TX") (VStr "Feb") 2 (VStr "M") (VNum (inject_Z 10)) ].

Definition negative_df : DataFrame :=
  mkDF labels (rows negative_raw).

(** A file in which the state of one record is missing. *)
Definition gap_raw : DataFrame :=
  mkDF header
       [ record VNaN (VStr "Jan") 1 (VStr "M") (VNum (inject_Z 100));
         record (VStr "CA") (VStr "Jan") 1 (VStr "F") (VNum (inject_Z 90)) ].

Definition gap_df : DataFrame := mkDF labels (rows gap_raw).

(** A file with one record whose count is one half. *)
Definition half_raw : DataFrame :=
  mkDF header
       [ record (VStr "CA") (VStr "Jan") 1 (VStr "M") (VNum (Qmake 1 2)) ].

Definition half_df : DataFrame := mkDF labels (rows half_raw).

(** A reply as the endpoint sends it. *)
Definition reply (text : string) : pyval :=
  PDict [ ("choices",
           PList [ PDict [ ("message", PDict [ ("content", PStr text) ]) ] ]) ].

Definition online : network :=
  mkNetwork (Some "token")
            (fun _ => inr (mkResponse (inr (reply "Births are highest in CA.")))).

(** The endpoint cannot be reached. *)
Definition offline : network :=
  mkNetwork (Some "token") (fun _ => inl RequestException).

(** The endpoint answers with an error document. *)
Definition refusing : network :=
  mkNetwork (Some "token")
            (fun _ => inr (mkResponse (inr (PDict [ ("error", PStr "rate limit") ])))).

Definition no_file : interaction :=
  mkInteraction None all all all None online.

Definition headless : interaction :=
  mkInteraction (Some (mkDF [ "State of Residence"; "Births" ] []))
                all all all None online.

(** California in February: no such record. *)
Definition no_match : interaction :=
  mkInteraction (Some raw) [VStr "CA"] all [VStr "Feb"] (Some "Why?") online.

Definition question (n : network) : interaction :=
  mkInteraction (Some raw) [VStr "CA"] all all (Some "Why?") n.

(** A file whose only count is withheld. *)
Definition suppressed_raw : DataFrame :=
  mkDF header
       [ record (VStr "CA") (VStr "Jan") 1 (VStr "M") (VStr "Suppressed") ].

Definition suppressed : interaction :=
  mkInteraction (Some suppressed_raw) all all all (Some "Why?") online.

(** A file whose two counts add up to more than a float64 can hold. *)
Definition huge_raw : DataFrame :=
  mkDF header
       [ record (VStr "CA") (VStr "Jan") 1 (VStr "M") (VNum (inject_Z (2 ^ 1023)));
         record (VStr "TX") (VStr "Feb") 2 (VStr "M") (VNum (inject_Z (2 ^ 1023))) ].

Definition huge_df : DataFrame := mkDF labels (rows huge_raw).

Definition overflowing : interaction :=
  mkInteraction (Some huge_raw) all all all (Some "Why?") online.

(** A file whose births label begins with a no-break space (U+00A0). *)
Definition padded_header : list string :=
  [ "State of Residence"; "Month"; "Month Code"; "Year Code"; "Sex of Infant";
    String (ascii_of_nat 194) (String (ascii_of_nat 160) "Births") ].

(** A file with two columns called Month Code. *)
Definition doubled_raw : DataFrame :=
  mkDF (header ++ [ "month code" ])
       [ [ VStr "CA"; VStr "Jan"; VNum (inject_Z 1); VNum (inject_Z 2025);
           VStr "M"; VNum (inject_Z 100); VNum (inject_Z 1) ] ].

Definition doubled : interaction :=
  mkInteraction (Some doubled_raw) all all all None online.

End Sample.

(* ================================================================== *)
(** * Properties *)

(* ------------------------------------------------------------------ *)
(** ** Cell equality *)

Lemma value_eqb_refl (v : value) : value_eqb v v = true.
Proof.
  destruct v as [q | s |]; simpl; trivial.
  - apply Qeq_bool_iff. reflexivity.
  - apply String.eqb_refl.
Qed.

Lemma value_eqb_sym (a b : value) : value_eqb a b = value_eqb b a.
Proof.
  destruct a as [p | s |], b as [q | t |]; simpl; trivial.
  - destruct (Qeq_bool p q) eqn:E, (Qeq_bool q p) eqn:F; trivial.
    + apply Qeq_bool_iff in E. symmetry in E. apply Qeq_bool_iff in E. congruence.
    + apply Qeq_bool_iff in F. symmetry in F. apply Qeq_bool_iff in F. congruence.
  - apply String.eqb_sym.
Qed.

Lemma value_eqb_trans (a b c : value) :
  value_eqb a b = true -> value_eqb b c = true -> value_eqb a c = true.
Proof.
  destruct a as [p | s |], b as [q | t |], c as [r | u |]; simpl;
    try discriminate; trivial.
  - rewrite !Qeq_bool_iff. intros H1 H2. now rewrite H1.
  - rewrite !String.eqb_eq. congruence.
Qed.

Lemma value_eqb_str (s : string) (v : value) :
  value_eqb (VStr s) v = true <-> v = VStr s.
Proof.
  destruct v as [q | t |]; simpl; split; try discriminate.
  - intros H. apply String.eqb_eq in H. now subst.
  - intros H. injection H as ->. apply String.eqb_refl.
Qed.

Lemma value_eqb_nan (v : value) : value_eqb VNaN v = true <-> v = VNaN.
Proof. destruct v; simpl; split; congruence. Qed.

(** Membership as [isin] tests it. *)
Lemma isin_spec (v : value) (sel : list value) :
  isin v sel = true <-> exists w, In w sel /\ value_eqb v w = true.
Proof. unfold isin. apply existsb_exists. Qed.

Lemma isin_str (s : string) (sel : list value) :
  isin (VStr s) sel = true <-> In (VStr s) sel.
Proof.
  rewrite isin_spec. split.
  - intros (w & Hw & E). apply value_eqb_str in E. now subst.
  - intros H. exists (VStr s). split; [exact H | apply value_eqb_refl].
Qed.

Lemma isin_nan (sel : list value) : isin VNaN sel = true <-> In VNaN sel.
Proof.
  rewrite isin_spec. split.
  - intros (w & Hw & E). apply value_eqb_nan in E. now subst.
  - intros H. exists VNaN. split; [exact H | reflexivity].
Qed.

Lemma has_all_spec (sel : list value) :
  has_all sel = true <-> In (VStr "All") sel.
Proof.
  unfold has_all. rewrite existsb_exists. split.
  - intros (v & Hv & E). destruct v as [q | s |]; try discriminate.
    apply String.eqb_eq in E. now subst.
  - intros H. exists (VStr "All"). split; [exact H | reflexivity].
Qed.

Lemma value_eqb_same (a b : value) : value_eqb a b = true <-> same_value a b.
Proof.
  destruct a as [p | s |], b as [q | t |]; simpl;
    try (split; [discriminate | contradiction]).
  - apply Qeq_bool_iff.
  - apply String.eqb_eq.
  - tauto.
Qed.

(** [isin] is membership up to equality of cells. *)
Lemma isin_chosen (v : value) (sel : list value) :
  isin v sel = true <-> chosen v sel.
Proof.
  rewrite isin_spec. unfold chosen.
  split; intros (w & Hw & E); exists w; (split; [exact Hw |]);
    now apply value_eqb_same.
Qed.

(* ------------------------------------------------------------------ *)
(** ** Filter engine *)

Lemma restrict_columns (label : string) (sel : list value) (df : DataFrame) :
  columns (restrict label sel df) = columns df.
Proof. unfold restrict. destruct (negb (has_all sel)); reflexivity. Qed.

Lemma filter_true {A} (l : list A) : filter (fun _ => true) l = l.
Proof. induction l; simpl; congruence. Qed.

Lemma restrict_rows (label : string) (sel : list value) (df : DataFrame) :
  rows (restrict label sel df) = filter (admits (columns df) label sel) (rows df).
Proof.
  unfold restrict, admits. destruct (has_all sel); simpl.
  - now rewrite filter_true.
  - reflexivity.
Qed.

Lemma filter_filter {A} (p q : A -> bool) (l : list A) :
  filter q (filter p l) = filter (fun x => p x && q x) l.
Proof.
  induction l as [| x xs IH]; simpl; trivial.
  destruct (p x); simpl; [destruct (q x) |]; now rewrite IH.
Qed.

Lemma filter_engine_columns df ss gs ms :
  columns (filter_engine df ss gs ms) = columns df.
Proof. unfold filter_engine. now rewrite !restrict_columns. Qed.

(** The three conditional steps amount to one pass with the conjunction of
    the three tests. *)
Lemma filter_engine_rows df ss gs ms :
  rows (filter_engine df ss gs ms) =
  filter (fun r => admits (columns df) "state_of_residence" ss r
                   && (admits (columns df) "sex_of_infant" gs r
                       && admits (columns df) "month" ms r))
         (rows df).
Proof.
  unfold filter_engine.
  rewrite !restrict_rows, !restrict_columns, !filter_filter. reflexivity.
Qed.

(** C1, as amended (filter engine semantics).  For every frame and every
    three selections, the output has the columns of the input, and a row is
    in the output exactly when it is a row of the input and, for each of
    state, gender and month, the text "All" is among the selected values or
    the row's cell in that column equals one of the selected values; the
    rows that pass keep their order and multiplicity. *)
Theorem filter_engine_semantics (df : DataFrame) (ss gs ms : list value) :
  columns (filter_engine df ss gs ms) = columns df /\
  (forall r : row,
      In r (rows (filter_engine df ss gs ms)) <->
      In r (rows df) /\
      (In (VStr "All") ss \/ chosen (cell (columns df) "state_of_residence" r) ss) /\
      (In (VStr "All") gs \/ chosen (cell (columns df) "sex_of_infant" r) gs) /\
      (In (VStr "All") ms \/ chosen (cell (columns df) "month" r) ms)) /\
  (exists keep : row -> bool,
      rows (filter_engine df ss gs ms) = filter keep (rows df) /\
      forall r, keep r = true <->
                (In (VStr "All") ss \/ chosen (cell (columns df) "state_of_residence" r) ss) /\
                (In (VStr "All") gs \/ chosen (cell (columns df) "sex_of_infant" r) gs) /\
                (In (VStr "All") ms \/ chosen (cell (columns df) "month" r) ms)).
Proof.
  assert (K : forall r,
             admits (columns df) "state_of_residence" ss r
             && (admits (columns df) "sex_of_infant" gs r
                 && admits (columns df) "month" ms r) = true <->
             (In (VStr "All") ss \/ chosen (cell (columns df) "state_of_residence" r) ss) /\
             (In (VStr "All") gs \/ chosen (cell (columns df) "sex_of_infant" r) gs) /\
             (In (VStr "All") ms \/ chosen (cell (columns df) "month" r) ms)).
  { intros r. unfold admits.
    rewrite !andb_true_iff, !orb_true_iff, !has_all_spec, !isin_chosen. tauto. }
  split; [apply filter_engine_columns |]. split.
  - intros r. rewrite filter_engine_rows, filter_In, K. tauto.
  - eexists. split; [apply filter_engine_rows | exact K].
Qed.

(** C1 as stated fails: a selection that holds "All" next to other values
    is not the "All" sentinel, yet it restricts nothing.  With "TX" and
    "All" chosen, the record of California is kept although California is
    not among the chosen values. *)
Lemma all_among_other_values :
  ~ (forall r : row,
        In r (rows (filter_engine Sample.df [VStr "TX"; VStr "All"]
                                  Sample.all Sample.all)) <->
        In r (rows Sample.df) /\
        ([VStr "TX"; VStr "All"] = [VStr "All"] \/
         chosen (cell (columns Sample.df) "state_of_residence" r)
                [VStr "TX"; VStr "All"]) /\
        (Sample.all = [VStr "All"] \/
         chosen (cell (columns Sample.df) "sex_of_infant" r) Sample.all) /\
        (Sample.all = [VStr "All"] \/
         chosen (cell (columns Sample.df) "month" r) Sample.all)).
Proof.
  intros H.
  destruct (H (Sample.record (VStr "CA") (VStr "Jan") 1 (VStr "M")
                             (VNum (inject_Z 100)))) as [K _].
  destruct K as (_ & [E | (w & Hw & S)] & _).
  - left. reflexivity.
  - discriminate E.
  - destruct Hw as [<- | [<- | []]]; discriminate S.
Qed.

Lemma restrict_all (label : string) (sel : list value) (df : DataFrame) :
  has_all sel = true -> restrict label sel df = df.
Proof. unfold restrict. now intros ->. Qed.

(** C4 ("All" is an identity restriction).  Two selections that, in every
    dimension, either coincide or both contain "All" give the same output:
    a selection containing "All" in a dimension filters like the one that
    leaves this dimension unrestricted, whatever else was chosen there. *)
Theorem all_is_identity (df : DataFrame) (ss gs ms ss' gs' ms' : list value) :
  (ss = ss' \/ has_all ss = true /\ has_all ss' = true) ->
  (gs = gs' \/ has_all gs = true /\ has_all gs' = true) ->
  (ms = ms' \/ has_all ms = true /\ has_all ms' = true) ->
  filter_engine df ss gs ms = filter_engine df ss' gs' ms'.
Proof.
  intros Hs Hg Hm. unfold filter_engine.
  assert (E : forall label a b d,
             (a = b \/ has_all a = true /\ has_all b = true) ->
             restrict label a d = restrict label b d).
  { intros label a b d [-> | [Ha Hb]]; trivial.
    now rewrite !restrict_all. }
  rewrite (E "state_of_residence" ss ss' df Hs).
  rewrite (E "sex_of_infant" gs gs' _ Hg).
  now rewrite (E "month" ms ms' _ Hm).
Qed.

(** "TX" chosen together with "All" filters like "All" alone. *)
Lemma all_is_identity_witness :
  ([VStr "TX"; VStr "All"] = Sample.all \/
   has_all [VStr "TX"; VStr "All"] = true /\ has_all Sample.all = true) /\
  filter_engine Sample.df [VStr "TX"; VStr "All"] [VStr "M"] Sample.all =
  filter_engine Sample.df Sample.all [VStr "M"] Sample.all.
Proof.
  split.
  - right. split; reflexivity.
  - apply all_is_identity.
    + right. split; reflexivity.
    + left. reflexivity.
    + left. reflexivity.
Defined.

(* ------------------------------------------------------------------ *)
(** ** Exact sums and machine sums *)

Lemma qsum_app (l1 l2 : list Q) : (qsum (l1 ++ l2) == qsum l1 + qsum l2)%Q.
Proof.
  induction l1 as [| x xs IH]; simpl.
  - ring.
  - rewrite IH. ring.
Qed.

Lemma qsum_perm (l1 l2 : list Q) :
  Permutation l1 l2 -> (qsum l1 == qsum l2)%Q.
Proof.
  induction 1 as [| x l l' _ IH | x y l | l l' l'' _ IH1 _ IH2]; simpl.
  - reflexivity.
  - now rewrite IH.
  - ring.
  - now rewrite IH1.
Qed.

Lemma qsum_map_ext {A} (f g : A -> Q) (l : list A) :
  (forall x, In x l -> (f x == g x)%Q) ->
  (qsum (map f l) == qsum (map g l))%Q.
Proof.
  induction l as [| x xs IH]; intros H; simpl; [reflexivity |].
  rewrite (H x (or_introl eq_refl)), IH; [reflexivity |].
  intros y Hy. apply H. now right.
Qed.

Lemma qsum_zero {A} (l : list A) : (qsum (map (fun _ => 0%Q) l) == 0)%Q.
Proof.
  induction l as [| x xs IH]; simpl; [reflexivity |].
  now rewrite IH, Qplus_0_l.
Qed.

Lemma qsum_filter_le {A} (f : A -> Q) (keep : A -> bool) (l : list A) :
  (forall x, In x l -> (0 <= f x)%Q) ->
  (qsum (map f (filter keep l)) <= qsum (map f l))%Q.
Proof.
  induction l as [| x xs IH]; intros Hpos; simpl.
  - apply Qle_refl.
  - assert (Hx : (0 <= f x)%Q) by (apply Hpos; now left).
    assert (Hxs : (qsum (map f (filter keep xs)) <= qsum (map f xs))%Q)
      by (apply IH; intros y Hy; apply Hpos; now right).
    destruct (keep x); simpl.
    + apply Qplus_le_compat; [apply Qle_refl | exact Hxs].
    + rewrite <- (Qplus_0_l (qsum (map f (filter keep xs)))).
      apply Qplus_le_compat; assumption.
Qed.

Lemma py_int_whole (q : Q) (z : Z) : (q == inject_Z z)%Q -> py_int q = z.
Proof.
  unfold py_int, Qeq. simpl. intros H. rewrite Z.mul_1_r in H. rewrite H.
  apply Z.quot_mul. discriminate.
Qed.


Lemma whole_qsum (l : list Q) :
  (forall q, In q l -> whole q) -> whole (qsum l).
Proof.
  induction l as [| x xs IH]; intros H; simpl.
  - exists 0%Z. reflexivity.
  - destruct (H x (or_introl eq_refl)) as [a Ha].
    destruct IH as [b Hb]; [intros q Hq; apply H; now right |].
    exists (a + b)%Z. rewrite Ha, Hb, inject_Z_plus. reflexivity.
Qed.

Lemma qsum_abs_nonneg (l : list Q) : (0 <= qsum (map Qabs l))%Q.
Proof.
  induction l as [| x xs IH]; simpl; [apply Qle_refl |].
  rewrite <- (Qplus_0_l 0). apply Qplus_le_compat; [apply Qabs_nonneg | exact IH].
Qed.

Lemma qabs_qsum (l : list Q) : (Qabs (qsum l) <= qsum (map Qabs l))%Q.
Proof.
  induction l as [| x xs IH]; simpl; [apply Qle_refl |].
  eapply Qle_trans; [apply Qabs_triangle |].
  apply Qplus_le_compat; [apply Qle_refl | exact IH].
Qed.

Lemma qabs_member (q : Q) (l : list Q) :
  In q l -> (Qabs q <= qsum (map Qabs l))%Q.
Proof.
  induction l as [| x xs IH]; intros H; simpl; [destruct H |].
  destruct H as [-> | H].
  - rewrite <- (Qplus_0_r (Qabs q)) at 1.
    apply Qplus_le_compat; [apply Qle_refl | apply qsum_abs_nonneg].
  - rewrite <- (Qplus_0_l (Qabs q)).
    apply Qplus_le_compat; [apply Qabs_nonneg | now apply IH].
Qed.

(** A whole number below a bound in absolute value. *)
Lemma whole_bound (q : Q) (z b : Z) :
  (q == inject_Z z)%Q -> (Qabs q < inject_Z b)%Q -> (Z.abs z < b)%Z.
Proof.
  intros E H. rewrite E in H.
  change (Qabs (inject_Z z)) with (inject_Z (Z.abs z)) in H.
  now rewrite Zlt_Qlt.
Qed.

(** The rows that pass a test are safe to add when all the rows are. *)
Lemma safe_filter {A} (f : A -> Q) (p : A -> bool) (l : list A) :
  safe (map f l) -> safe (map f (filter p l)).
Proof.
  intros [Hw Hb]. split.
  - intros q Hq. apply Hw. apply in_map_iff in Hq.
    destruct Hq as (x & <- & Hx). apply filter_In in Hx. now apply in_map.
  - eapply Qle_lt_trans; [| exact Hb].
    rewrite !map_map. apply qsum_filter_le.
    intros x _. apply Qabs_nonneg.
Qed.

(** Int64 does not wrap below 2^53. *)
Lemma wrap64_small (z : Z) : (Z.abs z < 2 ^ 53)%Z -> wrap64 z = z.
Proof.
  unfold wrap64.
  change (2 ^ 53)%Z with 9007199254740992%Z.
  change (2 ^ 63)%Z with 9223372036854775808%Z.
  change (2 ^ 64)%Z with 18446744073709551616%Z.
  intros H. rewrite Z.mod_small; lia.
Qed.

Lemma is_whole_whole (q : Q) (z : Z) : (q == inject_Z z)%Q -> is_whole q = true.
Proof.
  unfold is_whole, Qeq. simpl. rewrite Z.mul_1_r. intros ->.
  rewrite Z.rem_mul; [reflexivity | discriminate].
Qed.

(** On safe numbers the sum of the reference platform is the exact sum. *)
Lemma reference_sum_exact (l : list Q) :
  safe l -> exists q, reference_sum l = Fin q /\ (q == qsum l)%Q.
Proof.
  intros [Hw Hb]. unfold reference_sum.
  assert (F : forallb (fun q => is_whole q && in_int64 q) l = true).
  { apply forallb_forall. intros q Hq. destruct (Hw q Hq) as [z Hz].
    apply andb_true_iff. split; [now apply is_whole_whole with z |].
    unfold in_int64. rewrite (py_int_whole q z Hz).
    assert (B : (Z.abs z < 2 ^ 53)%Z).
    { apply (whole_bound q z _ Hz).
      eapply Qle_lt_trans; [apply qabs_member; exact Hq | exact Hb]. }
    revert B.
    change (2 ^ 53)%Z with 9007199254740992%Z.
    change (2 ^ 63)%Z with 9223372036854775808%Z.
    intros B. apply andb_true_iff. split; [apply Z.leb_le | apply Z.ltb_lt]; lia. }
  rewrite F. destruct (whole_qsum l Hw) as [z Hz].
  eexists. split; [reflexivity |].
  rewrite (py_int_whole _ z Hz), wrap64_small, Hz; [reflexivity |].
  apply (whole_bound (qsum l) z _ Hz).
  eapply Qle_lt_trans; [apply qabs_qsum | exact Hb].
Qed.

(** The reference platform has the properties asked of a platform. *)
Lemma reference_exact_sums : exact_sums reference.
Proof. intros l H. split; now apply reference_sum_exact. Qed.

Lemma reference_lowers_ascii : lowers_ascii reference.
Proof. intros s _. reflexivity. Qed.

Lemma reference_serialises_text : serialises_text reference.
Proof. intros c H. exact H. Qed.

(* ------------------------------------------------------------------ *)
(** ** Sums over restrictions *)

(** C3, as amended (monotonicity under restriction).  The filtered rows are
    always a sub-sequence of the rows of the frame.  When the machine sums
    are exact on safe numbers, no measure of the frame is negative and the
    measures are safe to add (whole numbers whose absolute values add up to
    less than 2^53), both sums are finite and exact, and the filtered sum
    does not exceed the full sum. *)
Theorem restriction_monotone {P : platform}
        (df : DataFrame) (ss gs ms : list value) :
  (exists keep : row -> bool,
      rows (filter_engine df ss gs ms) = filter keep (rows df)) /\
  incl (rows (filter_engine df ss gs ms)) (rows df) /\
  (exact_sums P ->
   (forall r, In r (rows df) -> (0 <= births_of (columns df) r)%Q) ->
   safe (map (births_of (columns df)) (rows df)) ->
   exists p q : Q,
     births_sum (filter_engine df ss gs ms) = Fin p /\
     births_sum df = Fin q /\
     (p == qsum (map (births_of (columns df)) (rows (filter_engine df ss gs ms))))%Q /\
     (q == qsum (map (births_of (columns df)) (rows df)))%Q /\
     (p <= q)%Q).
Proof.
  split; [| split].
  - eexists. apply filter_engine_rows.
  - intros r. rewrite filter_engine_rows, filter_In. tauto.
  - intros HP Hpos Hsafe. unfold births_sum.
    rewrite filter_engine_columns, filter_engine_rows.
    destruct (HP _ (safe_filter (births_of (columns df))
                      (fun r => admits (columns df) "state_of_residence" ss r
                                && (admits (columns df) "sex_of_infant" gs r
                                    && admits (columns df) "month" ms r))
                      (rows df) Hsafe)) as [(p & Ep & Hp) _].
    destruct (HP _ Hsafe) as [(q & Eq & Hq) _].
    exists p, q. split; [exact Ep |]. split; [exact Eq |].
    split; [exact Hp |]. split; [exact Hq |].
    rewrite Hp, Hq. now apply qsum_filter_le.
Qed.

(** The sample frame, restricted to California: 190 against 240. *)
Lemma restriction_monotone_witness :
  exact_sums reference /\
  (forall r, In r (rows Sample.df) ->
             (0 <= births_of (columns Sample.df) r)%Q) /\
  safe (map (births_of (columns Sample.df)) (rows Sample.df)) /\
  exists p q : Q,
    births_sum (filter_engine Sample.df [VStr "CA"] Sample.all Sample.all) = Fin p /\
    births_sum Sample.df = Fin q /\
    (p == qsum (map (births_of (columns Sample.df))
                    (rows (filter_engine Sample.df [VStr "CA"] Sample.all Sample.all))))%Q /\
    (q == qsum (map (births_of (columns Sample.df)) (rows Sample.df)))%Q /\
    (p <= q)%Q.
Proof.
  assert (H : forall r, In r (rows Sample.df) ->
                        (0 <= births_of (columns Sample.df) r)%Q).
  { simpl. intros r [<- | [<- | [<- | []]]]; vm_compute; discriminate. }
  assert (S : safe (map (births_of (columns Sample.df)) (rows Sample.df))).
  { split.
    - simpl. intros q [<- | [<- | [<- | []]]];
        [exists 100%Z | exists 90%Z | exists 50%Z]; reflexivity.
    - vm_compute. reflexivity. }
  split; [exact reference_exact_sums |]. split; [exact H |]. split; [exact S |].
  exact (proj2 (proj2 (restriction_monotone Sample.df [VStr "CA"] Sample.all Sample.all))
               reference_exact_sums H S).
Defined.

(** C3 as stated fails: a negative count is accepted by the normaliser,
    and removing its row raises the sum (10 against 5). *)
Lemma restriction_can_raise_the_sum :
  normalize decimal_literal Sample.negative_raw = Clean Sample.negative_df /\
  births_sum (filter_engine Sample.negative_df [VStr "TX"] Sample.all Sample.all)
  = Fin (inject_Z 10) /\
  births_sum Sample.negative_df = Fin (inject_Z 5) /\
  ~ num_le (births_sum (filter_engine Sample.negative_df [VStr "TX"]
                                      Sample.all Sample.all))
           (births_sum Sample.negative_df).
Proof.
  split; [reflexivity |]. split; [reflexivity |]. split; [reflexivity |].
  vm_compute. intros H. apply H. reflexivity.
Qed.


(* ------------------------------------------------------------------ *)
(** ** Schema normaliser *)

Lemma mem_In (c : string) (l : list string) : Text.mem c l = true <-> In c l.
Proof.
  unfold Text.mem. rewrite existsb_exists. split.
  - intros (x & Hx & E). apply String.eqb_eq in E. now subst.
  - intros H. exists c. split; [exact H | apply String.eqb_refl].
Qed.

Lemma missing_spec (df : DataFrame) (c : string) :
  In c (missing df) <-> In c required_cols /\ ~ In c (columns df).
Proof.
  unfold missing. rewrite filter_In, negb_true_iff.
  pose proof (mem_In c (columns df)) as M.
  destruct (Text.mem c (columns df)); split; intros [H1 H2]; split; trivial.
  - discriminate.
  - elim H2. now apply M.
  - intros H. apply M in H. discriminate.
Qed.

Lemma missing_nil (df : DataFrame) :
  missing df = [] -> forall c, In c required_cols -> In c (columns df).
Proof.
  intros E c Hc. apply mem_In.
  destruct (Text.mem c (columns df)) eqn:M; trivial.
  assert (H : In c (missing df)).
  { apply missing_spec. split; trivial. rewrite <- mem_In. congruence. }
  rewrite E in H. destruct H.
Qed.

Lemma nth_set_nth (i : nat) (v : value) (r : row) :
  nth i (set_nth i v r) VNaN = if (i <? List.length r)%nat then v else VNaN.
Proof.
  revert i. induction r as [| x xs IH]; intros [| j]; simpl; trivial.
Qed.

Lemma nth_set_nth_other (i j : nat) (v : value) (r : row) :
  i <> j -> nth j (set_nth i v r) VNaN = nth j r VNaN.
Proof.
  revert i j. induction r as [| x xs IH]; intros [| i] [| j] H; simpl; trivial.
  - congruence.
  - apply IH. congruence.
Qed.

Lemma index_of_label (label : string) (cols : list string) (i : nat) :
  index_of label cols = Some i -> nth_error cols i = Some label.
Proof.
  revert i. induction cols as [| c cs IH]; intros i; simpl; [discriminate |].
  destruct (String.eqb label c) eqn:E.
  - intros [= <-]. apply String.eqb_eq in E. now subst.
  - destruct (index_of label cs); simpl; [| discriminate].
    intros [= <-]. simpl. now apply IH.
Qed.

Section CoercionFacts.
Variable parse : string -> option Q.

Lemma to_numeric_kind (v : value) :
  to_numeric parse v = VNaN \/ exists q, to_numeric parse v = VNum q.
Proof.
  destruct v as [q | s |]; simpl; eauto.
  destruct (parse s); eauto.
Qed.

Lemma coerce_births_columns (df : DataFrame) :
  columns (coerce_births parse df) = columns df.
Proof. unfold coerce_births. now destruct (index_of "births" (columns df)). Qed.

(** The assignment of line 47, row by row: the measure cell is coerced,
    every other column keeps its cell. *)
Lemma coerce_births_rows (df : DataFrame) :
  exists g : row -> row,
    rows (coerce_births parse df) = map g (rows df) /\
    (forall r, cell (columns df) "births" (g r)
               = to_numeric parse (cell (columns df) "births" r)) /\
    (forall label r, label <> "births" ->
                     cell (columns df) label (g r) = cell (columns df) label r).
Proof.
  unfold coerce_births, cell.
  destruct (index_of "births" (columns df)) as [i |] eqn:E.
  - exists (fun r => set_nth i (to_numeric parse (nth i r VNaN)) r).
    split; [reflexivity |]. split.
    + intros r. rewrite nth_set_nth.
      destruct (i <? List.length r)%nat eqn:L; trivial.
      apply Nat.ltb_ge in L. now rewrite (nth_overflow r VNaN L).
    + intros label r Hl.
      destruct (index_of label (columns df)) as [j |] eqn:F; trivial.
      apply nth_set_nth_other. intros ->.
      apply index_of_label in E. apply index_of_label in F. congruence.
  - exists (fun r => r). split; [now rewrite map_id |]. split; trivial.
Qed.
End CoercionFacts.

Lemma map_filter_comm {A B} (f : A -> B) (p : B -> bool) (l : list A) :
  map f (filter (fun x => p (f x)) l) = filter p (map f l).
Proof.
  induction l as [| x xs IH]; simpl; trivial.
  destruct (p (f x)); simpl; now rewrite IH.
Qed.

(** C2, as amended (normaliser postcondition).  When the normaliser hands
    over a frame: the six required columns are present; the measure column
    is the sequence of the numbers the raw measure cells coerce to, the
    cells that fail coercion being dropped with their rows; so every
    retained measure is a number and none is missing.  A retained measure
    is whatever number its raw cell denotes: all of them are non-negative
    exactly when all coerced raw values are. *)
Theorem normalize_postcondition {P : platform} (parse : string -> option Q)
        (df_raw df : DataFrame) :
  normalize parse df_raw = Clean df ->
  (forall c, In c required_cols -> In c (columns df)) /\
  series df "births"
  = filter notna (map (to_numeric parse) (series (rename_columns df_raw) "births")) /\
  (forall r, In r (rows df) -> exists q, cell (columns df) "births" r = VNum q) /\
  ((forall r, In r (rows df) -> (0 <= births_of (columns df) r)%Q) <->
   (forall v q, In v (series (rename_columns df_raw) "births") ->
                to_numeric parse v = VNum q -> (0 <= q)%Q)).
Proof.
  unfold normalize. set (d := rename_columns df_raw).
  destruct (missing d) eqn:M; [| discriminate].
  destruct (label_count "births" (columns d) =? 1)%nat; [| discriminate].
  intros [= <-].
  destruct (coerce_births_rows parse d) as (g & Hrows & Hcell & _).
  assert (S : series (dropna_births (coerce_births parse d)) "births"
              = filter notna (map (to_numeric parse) (series d "births"))).
  { unfold series, dropna_births. simpl.
    rewrite coerce_births_columns, Hrows.
    rewrite (map_filter_comm (cell (columns d) "births") notna).
    rewrite !map_map. f_equal. apply map_ext. exact Hcell. }
  assert (N : forall r, In r (rows (dropna_births (coerce_births parse d))) ->
                        exists q, cell (columns d) "births" r = VNum q).
  { intros r Hr. unfold dropna_births in Hr. simpl in Hr.
    rewrite coerce_births_columns, Hrows in Hr.
    apply filter_In in Hr. destruct Hr as [Hin Hna].
    apply in_map_iff in Hin. destruct Hin as (r0 & <- & _).
    rewrite Hcell in Hna |- *.
    destruct (to_numeric_kind parse (cell (columns d) "births" r0)) as [E | [q E]];
      rewrite E in *; [discriminate | eauto]. }
  assert (HC : columns (dropna_births (coerce_births parse d)) = columns d)
    by (simpl; apply coerce_births_columns).
  split; [| split; [| split]].
  - rewrite HC. now apply missing_nil.
  - exact S.
  - rewrite HC. exact N.
  - unfold births_of. rewrite HC. split.
    + intros H v q Hv E.
      assert (Hq : In (VNum q) (series (dropna_births (coerce_births parse d)) "births")).
      { rewrite S. apply filter_In. split; [| reflexivity].
        rewrite <- E. now apply in_map. }
      unfold series in Hq. apply in_map_iff in Hq.
      destruct Hq as (r & Er & Hr). rewrite HC in Er.
      specialize (H r Hr). now rewrite Er in H.
    + intros H r Hr.
      assert (Hs : In (cell (columns d) "births" r)
                      (series (dropna_births (coerce_births parse d)) "births")).
      { unfold series. rewrite HC. now apply in_map. }
      destruct (N r Hr) as [q Eq]. rewrite Eq in *. simpl.
      rewrite S in Hs. apply filter_In in Hs. destruct Hs as [Hs _].
      apply in_map_iff in Hs. destruct Hs as (v & Ev & Hv).
      now apply (H v q).
Qed.

(** The sample file: the text "90" becomes a number, "n/a" is dropped. *)
Lemma normalize_postcondition_witness :
  normalize decimal_literal Sample.raw = Clean Sample.df /\
  series Sample.df "births"
  = filter notna
      (map (to_numeric decimal_literal)
           (series (rename_columns Sample.raw) "births")).
Proof.
  assert (H : normalize decimal_literal Sample.raw = Clean Sample.df)
    by reflexivity.
  split; [exact H |].
  exact (proj1 (proj2 (normalize_postcondition decimal_literal Sample.raw Sample.df H))).
Defined.

(** C2 as stated fails: the file passes the column check and the count -5
    is retained. *)
Lemma normalize_keeps_negative :
  missing (rename_columns Sample.negative_raw) = [] /\
  normalize decimal_literal Sample.negative_raw = Clean Sample.negative_df /\
  ~ (forall r, In r (rows Sample.negative_df) ->
               (0 <= births_of (columns Sample.negative_df) r)%Q).
Proof.
  split; [reflexivity |]. split; [reflexivity |].
  intros H.
  specialize (H (Sample.record (VStr "CA") (VStr "Jan") 1 (VStr "M")
                               (VNum (inject_Z (-5))))
                (or_introl eq_refl)).
  vm_compute in H. apply H. reflexivity.
Qed.

(** The normaliser hands over a frame exactly when no required column is
    missing and one column is called [births]. *)
Lemma normalize_clean_iff {P : platform} (parse : string -> option Q)
      (df_raw : DataFrame) :
  (exists df, normalize parse df_raw = Clean df) <->
  missing (rename_columns df_raw) = [] /\
  label_count "births" (columns (rename_columns df_raw)) = 1%nat.
Proof.
  unfold normalize.
  destruct (missing (rename_columns df_raw)) eqn:M.
  - destruct (label_count "births" (columns (rename_columns df_raw)) =? 1)%nat eqn:C.
    + apply Nat.eqb_eq in C. split; eauto.
    + apply Nat.eqb_neq in C. split.
      * intros [df H]. discriminate.
      * intros [_ H]. contradiction.
  - split.
    + intros [df H]. discriminate.
    + intros [H _]. discriminate.
Qed.

(* ------------------------------------------------------------------ *)
(** ** Sorting and distinct values *)

Section InsertionFacts.
Context {A : Type} (before : A -> A -> bool).

Lemma insert_perm (x : A) (l : list A) :
  Permutation (insert before x l) (x :: l).
Proof.
  induction l as [| y ys IH]; simpl; [reflexivity |].
  destruct (before x y); [reflexivity |].
  rewrite IH. apply perm_swap.
Qed.

Lemma isort_perm (l : list A) : Permutation (isort before l) l.
Proof.
  induction l as [| x xs IH]; simpl; [reflexivity |].
  rewrite insert_perm. now constructor.
Qed.

(** Sortedness, for a test that is total and transitive. *)
Variable R : A -> A -> Prop.
Hypothesis before_R : forall x y, before x y = true -> R x y.
Hypothesis before_total : forall x y, before x y = false -> R y x.
Hypothesis R_trans : forall x y z, R x y -> R y z -> R x z.

Lemma insert_sorted (x : A) (l : list A) :
  StronglySorted R l -> StronglySorted R (insert before x l).
Proof.
  induction 1 as [| y ys Hs IH Hall]; simpl.
  - constructor; constructor.
  - destruct (before x y) eqn:E.
    + constructor; [now constructor |].
      constructor; [now apply before_R |].
      apply Forall_forall. intros z Hz.
      apply R_trans with y; [now apply before_R |].
      rewrite Forall_forall in Hall. now apply Hall.
    + constructor; trivial.
      apply Forall_forall. intros z Hz.
      apply (Permutation_in _ (insert_perm x ys)) in Hz.
      destruct Hz as [<- | Hz]; [now apply before_total |].
      rewrite Forall_forall in Hall. now apply Hall.
Qed.

Lemma isort_sorted (l : list A) : StronglySorted R (isort before l).
Proof.
  induction l as [| x xs IH]; simpl; [constructor | now apply insert_sorted].
Qed.
End InsertionFacts.

Lemma unique_by_incl {A} (eqb : A -> A -> bool) (l : list A) :
  incl (unique_by eqb l) l.
Proof.
  induction l as [| x xs IH]; simpl; intros y Hy; trivial.
  destruct Hy as [<- | Hy]; [now left |].
  apply filter_In in Hy. right. apply IH. tauto.
Qed.

(** Every offered option is a cell of the column, and none is missing. *)
Lemma options_observed (df : DataFrame) (label : string) (opts : list value) :
  options df label = Some opts ->
  forall v, In v opts -> In v (series df label) /\ v <> VNaN.
Proof.
  unfold options, sorted.
  destruct (label_count label (columns df) =? 1)%nat; [| discriminate].
  destruct (forallb is_num _ || forallb is_str _); [| discriminate].
  intros [= <-] v Hv.
  apply (Permutation_in _ (isort_perm value_leb _)) in Hv.
  apply unique_by_incl in Hv. apply filter_In in Hv.
  destruct Hv as [Hin Hna]. split; trivial.
  intros ->. discriminate.
Qed.

(* ------------------------------------------------------------------ *)
(** ** Rows with a missing category *)

(** C10 (rows with a missing category are unreachable by explicit
    selection).  The options offered for state, gender and month contain no
    missing value.  For selections made among the offered options, a row of
    the frame that survives the filter and whose cell is missing in one of
    the three columns does so only because the selection of that column
    contains "All"; with "All" in the three selections every row is
    retained. *)
Theorem missing_category_needs_all
        (df : DataFrame) (states genders months ss gs ms : list value) (r : row) :
  options df "state_of_residence" = Some states ->
  options df "sex_of_infant" = Some genders ->
  options df "month" = Some months ->
  incl ss (VStr "All" :: states) ->
  incl gs (VStr "All" :: genders) ->
  incl ms (VStr "All" :: months) ->
  In r (rows df) ->
  (~ In VNaN (VStr "All" :: states) /\
   ~ In VNaN (VStr "All" :: genders) /\
   ~ In VNaN (VStr "All" :: months)) /\
  (In r (rows (filter_engine df ss gs ms)) ->
   (cell (columns df) "state_of_residence" r = VNaN -> has_all ss = true) /\
   (cell (columns df) "sex_of_infant" r = VNaN -> has_all gs = true) /\
   (cell (columns df) "month" r = VNaN -> has_all ms = true)) /\
  (has_all ss = true -> has_all gs = true -> has_all ms = true ->
   In r (rows (filter_engine df ss gs ms))).
Proof.
  intros Hs Hg Hm Is Ig Im Hr.
  assert (O : forall label opts,
             options df label = Some opts -> ~ In VNaN (VStr "All" :: opts)).
  { intros label opts H [E | E]; [discriminate |].
    now destruct (options_observed df label opts H VNaN E). }
  assert (K : forall label opts sel,
             options df label = Some opts -> incl sel (VStr "All" :: opts) ->
             cell (columns df) label r = VNaN ->
             admits (columns df) label sel r = true -> has_all sel = true).
  { intros label opts sel H I E. unfold admits. rewrite E.
    destruct (has_all sel); trivial. simpl. intros F.
    apply isin_nan in F. apply I in F. now elim (O label opts H). }
  split; [| split].
  - repeat split; eapply O; eassumption.
  - rewrite filter_engine_rows, filter_In, !andb_true_iff.
    intros (_ & A1 & A2 & A3). repeat split; intros E; eauto.
  - intros A1 A2 A3. rewrite filter_engine_rows, filter_In.
    split; trivial. unfold admits. now rewrite A1, A2, A3.
Qed.

(** The record without a state is not reached by choosing "CA". *)
Lemma missing_category_needs_all_witness :
  options Sample.gap_df "state_of_residence" = Some [VStr "CA"] /\
  options Sample.gap_df "sex_of_infant" = Some [VStr "F"; VStr "M"] /\
  options Sample.gap_df "month" = Some [VStr "Jan"] /\
  incl [VStr "CA"] [VStr "All"; VStr "CA"] /\
  incl Sample.all [VStr "All"; VStr "F"; VStr "M"] /\
  incl Sample.all [VStr "All"; VStr "Jan"] /\
  In (Sample.record VNaN (VStr "Jan") 1 (VStr "M") (VNum (inject_Z 100)))
     (rows Sample.gap_df) /\
  ~ In (Sample.record VNaN (VStr "Jan") 1 (VStr "M") (VNum (inject_Z 100)))
       (rows (filter_engine Sample.gap_df [VStr "CA"] Sample.all Sample.all)).
Proof.
  assert (H1 : options Sample.gap_df "state_of_residence" = Some [VStr "CA"])
    by reflexivity.
  assert (H2 : options Sample.gap_df "sex_of_infant" = Some [VStr "F"; VStr "M"])
    by reflexivity.
  assert (H3 : options Sample.gap_df "month" = Some [VStr "Jan"])
    by reflexivity.
  assert (I1 : incl [VStr "CA"] [VStr "All"; VStr "CA"])
    by (intros v [<- | []]; simpl; tauto).
  assert (I2 : incl Sample.all [VStr "All"; VStr "F"; VStr "M"])
    by (intros v [<- | []]; simpl; tauto).
  assert (I3 : incl Sample.all [VStr "All"; VStr "Jan"])
    by (intros v [<- | []]; simpl; tauto).
  assert (R : In (Sample.record VNaN (VStr "Jan") 1 (VStr "M") (VNum (inject_Z 100)))
                 (rows Sample.gap_df))
    by (left; reflexivity).
  repeat (split; [assumption |]).
  intros F.
  destruct (missing_category_needs_all Sample.gap_df _ _ _ _ _ _ _
              H1 H2 H3 I1 I2 I3 R) as (_ & K & _).
  destruct (K F) as (A & _ & _).
  specialize (A eq_refl). discriminate A.
Defined.

(* ------------------------------------------------------------------ *)
(** ** Aggregates of one filtered view *)

(** Adding [x] to the entries selected by [p] adds [x] once when exactly
    one entry is selected, and nothing when none is. *)
Lemma qsum_add_selected {A} (p : A -> bool) (t : A -> Q) (x : Q) (l : list A) :
  (List.length (filter p l) <= 1)%nat ->
  (qsum (map (fun k => if p k then x + t k else t k) l)
   == (if (List.length (filter p l) =? 1)%nat then x else 0) + qsum (map t l))%Q.
Proof.
  induction l as [| k ks IH]; simpl; intros Hle.
  - now rewrite Qplus_0_l.
  - destruct (p k) eqn:E; simpl in Hle |- *.
    + assert (Z : List.length (filter p ks) = 0%nat) by lia.
      rewrite IH by lia. rewrite Z. simpl. ring.
    + rewrite IH by exact Hle.
      destruct (List.length (filter p ks) =? 1)%nat; ring.
Qed.

Lemma filter_length_perm {A} (p : A -> bool) (l l' : list A) :
  Permutation l l' -> List.length (filter p l) = List.length (filter p l').
Proof.
  induction 1 as [| x l l' _ IH | x y l | l l' l'' _ IH1 _ IH2]; simpl; trivial.
  - destruct (p x); simpl; congruence.
  - destruct (p x), (p y); reflexivity.
  - congruence.
Qed.

Lemma filter_false_length {A} (l : list A) :
  List.length (filter (fun _ => false) l) = 0%nat.
Proof. induction l; simpl; trivial. Qed.

(** A value is matched by at most one element of [unique l], and by one
    exactly when it is matched by an element of [l]. *)
Lemma unique_count (z : value) (l : list value) :
  List.length (filter (fun k => value_eqb k z) (unique l))
  = if existsb (fun y => value_eqb y z) l then 1%nat else 0%nat.
Proof.
  unfold unique. induction l as [| x xs IH]; simpl; trivial.
  rewrite filter_filter.
  destruct (value_eqb x z) eqn:E; simpl.
  - f_equal. rewrite (filter_ext _ (fun _ => false)).
    + apply filter_false_length.
    + intros k. destruct (value_eqb x k) eqn:F; simpl; trivial.
      destruct (value_eqb k z) eqn:G; trivial.
      rewrite value_eqb_sym in G.
      rewrite (value_eqb_trans x z k E G) in F. discriminate.
  - rewrite <- IH. f_equal. apply filter_ext. intros k.
    destruct (value_eqb x k) eqn:F; simpl; trivial.
    destruct (value_eqb k z) eqn:G; trivial.
    now rewrite (value_eqb_trans x k z F G) in E.
Qed.

Lemma qsum_filter {A} (q : A -> bool) (b : A -> Q) (l : list A) :
  (qsum (map (fun r => if q r then b r else 0%Q) l)
   == qsum (map b (filter q l)))%Q.
Proof.
  induction l as [| r rs IH]; simpl; [reflexivity |].
  destruct (q r); simpl; rewrite IH; ring.
Qed.

(** Group sums over keys of which at most one matches any given value:
    a row counts once if its key is matched, and not at all otherwise. *)
Lemma group_sums_select (key : row -> value) (b : row -> Q)
      (ks : list value) (l : list row) :
  (forall z, (List.length (filter (fun k => value_eqb k z) ks) <= 1)%nat) ->
  (qsum (map (fun k => qsum (map b (filter (fun r => value_eqb k (key r)) l))) ks)
   == qsum (map (fun r =>
                   if (List.length (filter (fun k => value_eqb k (key r)) ks) =? 1)%nat
                   then b r else 0%Q) l))%Q.
Proof.
  intros Hks. induction l as [| r rs IH]; simpl.
  - apply qsum_zero.
  - rewrite <- IH.
    rewrite <- (qsum_add_selected (fun k => value_eqb k (key r))
                  (fun k => qsum (map b (filter (fun r0 => value_eqb k (key r0)) rs)))
                  (b r) ks (Hks (key r))).
    apply qsum_map_ext. intros k _.
    destruct (value_eqb k (key r)); simpl; reflexivity.
Qed.

(** The keys of a grouping match the key of a row of the frame exactly
    when that key is not missing. *)
Lemma group_keys_count (df : DataFrame) (label : string) (r : row) :
  In r (rows df) ->
  (List.length
     (filter (fun k => value_eqb k (cell (columns df) label r))
             (isort value_leb (unique (filter notna (series df label)))))
   =? 1)%nat
  = notna (cell (columns df) label r).
Proof.
  intros Hr.
  rewrite (filter_length_perm _ _ _ (isort_perm value_leb _)), unique_count.
  destruct (existsb _ _) eqn:E.
  - apply existsb_exists in E. destruct E as (y & Hy & Ey).
    apply filter_In in Hy. destruct Hy as [_ Hy].
    destruct y, (cell (columns df) label r); simpl in *;
      try discriminate; reflexivity.
  - destruct (cell (columns df) label r) eqn:C; trivial; exfalso.
    + assert (X : existsb (fun y => value_eqb y (VNum q))
                          (filter notna (series df label)) = true).
      { apply existsb_exists. exists (VNum q). split; [| apply value_eqb_refl].
        apply filter_In. split; [| reflexivity].
        rewrite <- C. unfold series. now apply in_map. }
      congruence.
    + assert (X : existsb (fun y => value_eqb y (VStr s))
                          (filter notna (series df label)) = true).
      { apply existsb_exists. exists (VStr s). split; [| apply value_eqb_refl].
        apply filter_In. split; [| reflexivity].
        rewrite <- C. unfold series. now apply in_map. }
      congruence.
Qed.

Lemma filter_all {A} (p : A -> bool) (l : list A) :
  (forall x, In x l -> p x = true) -> filter p l = l.
Proof.
  induction l as [| x xs IH]; intros H; simpl; trivial.
  rewrite (H x (or_introl eq_refl)), IH; trivial.
  intros y Hy. apply H. now right.
Qed.

Lemma filter_length_one {A} (p : A -> bool) (l : list A) :
  List.length (filter p l) = 1%nat -> exists x, In x l /\ p x = true.
Proof.
  intros H. destruct (filter p l) as [| x xs] eqn:E; [discriminate |].
  exists x. apply filter_In. rewrite E. now left.
Qed.

(** The keys of a grouping, and the option list of a control: at most one
    of them matches a given value, and exactly one when the value is a
    cell of the column that is not missing. *)
Lemma group_keys_match (df : DataFrame) (label : string) (z : value) :
  List.length
    (filter (fun k => value_eqb k z)
            (isort value_leb (unique (filter notna (series df label)))))
  = if existsb (fun y => value_eqb y z) (filter notna (series df label))
    then 1%nat else 0%nat.
Proof.
  now rewrite (filter_length_perm _ _ _ (isort_perm value_leb _)), unique_count.
Qed.

Lemma filter_length_map {A B} (f : A -> B) (p : B -> bool) (l : list A) :
  List.length (filter (fun x => p (f x)) l) = List.length (filter p (map f l)).
Proof. now rewrite <- (map_filter_comm f p), length_map. Qed.


Lemma filter_count_pos {A} (q : A -> bool) (l : list A) (j : nat) (b : A) :
  nth_error l j = Some b -> q b = true -> (1 <= List.length (filter q l))%nat.
Proof.
  revert j. induction l as [| x xs IH]; intros [| j] H Hb; simpl in *;
    try discriminate.
  - injection H as ->. rewrite Hb. simpl. lia.
  - specialize (IH j H Hb). destruct (q x); simpl; lia.
Qed.

(** Two positions that pass a test which at most one element passes are
    one position. *)
Lemma filter_count_one {A} (q : A -> bool) (l : list A) (i j : nat) (a b : A) :
  (List.length (filter q l) <= 1)%nat ->
  nth_error l i = Some a -> nth_error l j = Some b ->
  q a = true -> q b = true -> i = j.
Proof.
  revert i j. induction l as [| x xs IH]; intros [| i] [| j] H Hi Hj Ha Hb;
    simpl in *; try discriminate; trivial.
  - injection Hi as ->. rewrite Ha in H. simpl in H.
    pose proof (filter_count_pos q xs j b Hj Hb). lia.
  - injection Hj as ->. rewrite Hb in H. simpl in H.
    pose proof (filter_count_pos q xs i a Hi Ha). lia.
  - f_equal. apply IH; trivial. destruct (q x); simpl in H; lia.
Qed.

(** The order of totals. *)
Lemma num_leb_le (a b : number) : num_leb a b = true -> num_le a b.
Proof.
  destruct a, b; simpl; trivial; try discriminate. apply Qle_bool_iff.
Qed.

Lemma num_leb_total (a b : number) : num_leb a b = false -> num_le b a.
Proof.
  destruct a, b; simpl; trivial; try discriminate.
  intros H. apply Qlt_le_weak, Qnot_le_lt. intros L.
  apply Qle_bool_iff in L. congruence.
Qed.

Lemma num_le_trans (a b c : number) : num_le a b -> num_le b c -> num_le a c.
Proof.
  destruct a, b, c; simpl; trivial; try contradiction. apply Qle_trans.
Qed.

(** [int] truncates towards zero. *)
Lemma py_int_floor (q : Q) :
  (0 <= q)%Q ->
  (0 <= py_int q)%Z /\ (inject_Z (py_int q) <= q)%Q /\ (q < inject_Z (py_int q) + 1)%Q.
Proof.
  destruct q as [n d]. unfold py_int, Qle, Qlt. simpl.
  rewrite !Z.mul_1_r. intros Hn.
  rewrite Z.quot_div_nonneg by lia.
  pose proof (Z.mul_div_le n (Z.pos d) ltac:(lia)).
  pose proof (Z.mul_succ_div_gt n (Z.pos d) ltac:(lia)).
  pose proof (Z.div_pos n (Z.pos d) Hn ltac:(lia)).
  repeat split; lia.
Qed.

Lemma py_int_ceiling (q : Q) :
  (q <= 0)%Q ->
  (py_int q <= 0)%Z /\ (q <= inject_Z (py_int q))%Q /\ (inject_Z (py_int q) - 1 < q)%Q.
Proof.
  destruct q as [n d]. unfold py_int, Qle, Qlt. simpl.
  rewrite !Z.mul_1_r. intros Hn.
  replace n with (- (- n))%Z by lia.
  rewrite Z.quot_opp_l by discriminate.
  rewrite Z.quot_div_nonneg by lia.
  pose proof (Z.mul_div_le (- n) (Z.pos d) ltac:(lia)).
  pose proof (Z.mul_succ_div_gt (- n) (Z.pos d) ltac:(lia)).
  pose proof (Z.div_pos (- n) (Z.pos d) ltac:(lia) ltac:(lia)).
  repeat split; lia.
Qed.

(** A list that is a rearrangement of finite numbers is a list of finite
    numbers with the same sum. *)
Lemma finite_perm (l : list number) (qs : list Q) :
  Permutation l (map Fin qs) ->
  exists qs', l = map Fin qs' /\ (qsum qs' == qsum qs)%Q.
Proof.
  intros H. apply Permutation_map_inv in H. destruct H as (qs' & E & Hp).
  exists qs'. split; [exact E |]. symmetry. now apply qsum_perm.
Qed.

(** The keys of a grouping: the distinct cells of the column, the missing
    one apart. *)
Lemma group_key_observed (df : DataFrame) (label : string) (k : value) :
  In k (isort value_leb (unique (filter notna (series df label)))) ->
  k <> VNaN /\ exists r, In r (rows df) /\ cell (columns df) label r = k.
Proof.
  intros Hk.
  apply (Permutation_in _ (isort_perm value_leb _)) in Hk.
  apply unique_by_incl in Hk. apply filter_In in Hk. destruct Hk as [Hin Hna].
  split; [intros ->; discriminate |].
  unfold series in Hin. apply in_map_iff in Hin.
  destruct Hin as (r & E & Hr). eauto.
Qed.

Section AggregateFacts.
Context {P : platform}.

Lemma sort_values_desc_perm (l : list (value * number)) :
  Permutation (sort_values_desc l) l.
Proof.
  unfold sort_values_desc. rewrite isort_perm. apply tie_order_permutes.
Qed.

Lemma sort_values_desc_sorted (l : list (value * number)) :
  StronglySorted (fun a b : value * number => num_le (snd b) (snd a))
                 (sort_values_desc l).
Proof.
  apply isort_sorted.
  - intros x y H. now apply num_leb_le.
  - intros x y H. now apply num_leb_total.
  - intros x y w H1 H2. now apply num_le_trans with (snd y).
Qed.

Lemma map_fst_groupby_sum (df : DataFrame) (label : string) :
  map fst (groupby_sum df label)
  = isort value_leb (unique (filter notna (series df label))).
Proof. unfold groupby_sum. rewrite map_map. simpl. apply map_id. Qed.

(** The number of entries of a grouping whose key matches the cell of a
    row. *)
Lemma groupby_sum_entries (df : DataFrame) (label : string) (r : row) :
  In r (rows df) ->
  List.length (filter (fun kv => value_eqb (fst kv) (cell (columns df) label r))
                      (groupby_sum df label))
  = if notna (cell (columns df) label r) then 1%nat else 0%nat.
Proof.
  intros Hr.
  rewrite (filter_length_map fst (fun k => value_eqb k (cell (columns df) label r))).
  rewrite map_fst_groupby_sum.
  pose proof (group_keys_count df label r Hr) as C.
  pose proof (group_keys_match df label (cell (columns df) label r)) as M.
  destruct (notna (cell (columns df) label r)).
  - now apply Nat.eqb_eq in C.
  - apply Nat.eqb_neq in C. destruct (existsb _ _); lia.
Qed.

(** At most one entry of a grouping carries a given key. *)
Lemma groupby_sum_key_once (df : DataFrame) (label : string) (z : value) :
  (List.length (filter (fun kv => value_eqb (fst kv) z) (groupby_sum df label))
   <= 1)%nat.
Proof.
  rewrite (filter_length_map fst (fun k => value_eqb k z)).
  rewrite map_fst_groupby_sum, group_keys_match.
  destruct (existsb _ _); lia.
Qed.

(** An entry of a grouping: its key is a cell of the column that is not
    missing, its total the machine sum over the rows carrying that key. *)
Lemma groupby_sum_entry (df : DataFrame) (label : string) (k : value) (v : number) :
  In (k, v) (groupby_sum df label) ->
  k <> VNaN /\
  (exists r, In r (rows df) /\ cell (columns df) label r = k) /\
  exists p : row -> bool,
    (forall r, p r = true <-> same_value k (cell (columns df) label r)) /\
    v = group_sum (map (births_of (columns df)) (filter p (rows df))).
Proof.
  unfold groupby_sum. intros H. apply in_map_iff in H.
  destruct H as (k0 & [= -> <-] & Hk).
  destruct (group_key_observed df label k Hk) as [Hna Hr].
  split; [exact Hna |]. split; [exact Hr |].
  exists (fun r => value_eqb k (cell (columns df) label r)).
  split; [intros r; apply value_eqb_same | reflexivity].
Qed.

(** A row whose key is not missing has its entry in the grouping. *)
Lemma groupby_sum_covers (df : DataFrame) (label : string) (r : row) :
  In r (rows df) -> cell (columns df) label r <> VNaN ->
  exists k v, In (k, v) (groupby_sum df label) /\
              same_value k (cell (columns df) label r).
Proof.
  intros Hr Hc.
  pose proof (groupby_sum_entries df label r Hr) as E.
  assert (N : notna (cell (columns df) label r) = true)
    by (destruct (cell (columns df) label r); trivial; congruence).
  rewrite N in E. apply filter_length_one in E.
  destruct E as ([k v] & Hin & Hk). exists k, v. split; [exact Hin |].
  now apply value_eqb_same.
Qed.

Hypothesis sums : exact_sums P.

(** Group sums of safe numbers are finite and exact. *)
Lemma group_sums_exact {K : Type} (sel : K -> row -> bool) (b : row -> Q)
      (l : list row) (ks : list K) :
  safe (map b l) ->
  exists qs : list Q,
    map (fun k => group_sum (map b (filter (sel k) l))) ks = map Fin qs /\
    (qsum qs == qsum (map (fun k => qsum (map b (filter (sel k) l))) ks))%Q.
Proof.
  intros Hs. induction ks as [| k ks IH]; simpl.
  - exists []. split; reflexivity.
  - destruct IH as (qs & E & Hq).
    destruct (sums _ (safe_filter b (sel k) l Hs)) as [_ (q & Eq & Hq')].
    exists (q :: qs). simpl. split; [now rewrite Eq, E |].
    now rewrite Hq, Hq'.
Qed.

(** The totals of a grouping add up to the measure of the rows whose key
    is not missing. *)
Lemma groupby_sum_total (df : DataFrame) (label : string) :
  safe (map (births_of (columns df)) (rows df)) ->
  exists qs : list Q,
    map snd (groupby_sum df label) = map Fin qs /\
    (qsum qs
     == qsum (map (births_of (columns df))
                  (filter (fun r => notna (cell (columns df) label r)) (rows df))))%Q.
Proof.
  intros Hs.
  destruct (group_sums_exact (fun k r => value_eqb k (cell (columns df) label r))
              (births_of (columns df)) (rows df)
              (isort value_leb (unique (filter notna (series df label)))) Hs)
    as (qs & E & Hq).
  exists qs. split.
  - unfold groupby_sum, group_rows. rewrite map_map. exact E.
  - rewrite Hq, (group_sums_select (cell (columns df) label)).
    + rewrite <- qsum_filter. apply qsum_map_ext. intros r Hr.
      now rewrite group_keys_count.
    + intros z. rewrite group_keys_match. destruct (existsb _ _); lia.
Qed.

(** The grand total of safe numbers. *)
Lemma total_births_exact (df : DataFrame) :
  safe (map (births_of (columns df)) (rows df)) ->
  exists z : Z,
    total_births_of df = inr z /\
    (inject_Z z == qsum (map (births_of (columns df)) (rows df)))%Q.
Proof.
  intros Hs. unfold total_births_of, births_sum.
  destruct (sums _ Hs) as [(q & Eq & Hq) _]. rewrite Eq. simpl.
  destruct (whole_qsum _ (proj1 Hs)) as [z Hz].
  exists (py_int q). split; [reflexivity |].
  rewrite (py_int_whole q z); [now symmetry | now rewrite Hq].
Qed.
End AggregateFacts.

(** What a context that has been built holds. *)
Lemma build_context_inr {P : platform} (filtered : DataFrame)
      (ss gs ms : list value) (c : context) :
  build_context filtered ss gs ms = inr c ->
  total_births_of filtered = inr (total_births c) /\
  state_totals c = state_totals_of filtered /\
  gender_totals c = gender_totals_of filtered /\
  monthly_totals c = monthly_totals_of filtered /\
  filters_applied c = (ss, gs, ms).
Proof.
  unfold build_context. destruct (total_births_of filtered) as [e | z]; simpl;
    [discriminate |].
  intros [= <-]. repeat split.
Qed.

(** C5, as amended (consistency of the aggregates of one view).  When the
    machine sums are exact on safe numbers, no row of the filtered frame
    lacks a state or a gender, and the measures are safe to add (whole
    numbers whose absolute values add up to less than 2^53), the context
    is built, its grand total is the sum of the measures, its per-state
    and per-gender totals are finite, and the grand total equals the sum
    of the per-state totals and the sum of the per-gender totals. *)
Theorem context_totals_consistent {P : platform}
        (filtered : DataFrame) (ss gs ms : list value) :
  exact_sums P ->
  (forall r, In r (rows filtered) ->
             notna (cell (columns filtered) "state_of_residence" r) = true) ->
  (forall r, In r (rows filtered) ->
             notna (cell (columns filtered) "sex_of_infant" r) = true) ->
  safe (map (births_of (columns filtered)) (rows filtered)) ->
  exists c : context,
    build_context filtered ss gs ms = inr c /\
    (inject_Z (total_births c)
     == qsum (map (births_of (columns filtered)) (rows filtered)))%Q /\
    (exists qs : list Q,
        map snd (state_totals c) = map Fin qs /\
        (inject_Z (total_births c) == qsum qs)%Q) /\
    (exists qs : list Q,
        map snd (gender_totals c) = map Fin qs /\
        (inject_Z (total_births c) == qsum qs)%Q).
Proof.
  intros HP Hs Hg Hsafe.
  destruct (total_births_exact HP filtered Hsafe) as (z & Ez & Hz).
  unfold build_context. rewrite Ez. simpl. eexists. split; [reflexivity |].
  simpl. split; [exact Hz |]. split.
  - destruct (groupby_sum_total HP filtered "state_of_residence" Hsafe)
      as (qs & E & Hq).
    destruct (finite_perm (map snd (state_totals_of filtered)) qs) as (qs' & E' & Hq').
    { rewrite <- E. apply Permutation_map. apply sort_values_desc_perm. }
    exists qs'. split; [exact E' |].
    rewrite Hz, Hq', Hq, (filter_all _ _ Hs). reflexivity.
  - destruct (groupby_sum_total HP filtered "sex_of_infant" Hsafe)
      as (qs & E & Hq).
    exists qs. split; [exact E |].
    rewrite Hz, Hq, (filter_all _ _ Hg). reflexivity.
Qed.

(** The sample frame: 100 + 90 + 50. *)
Lemma context_totals_consistent_witness :
  exact_sums reference /\
  (forall r, In r (rows Sample.df) ->
             notna (cell (columns Sample.df) "state_of_residence" r) = true) /\
  (forall r, In r (rows Sample.df) ->
             notna (cell (columns Sample.df) "sex_of_infant" r) = true) /\
  safe (map (births_of (columns Sample.df)) (rows Sample.df)) /\
  exists c : context,
    build_context Sample.df Sample.all Sample.all Sample.all = inr c /\
    (inject_Z (total_births c)
     == qsum (map (births_of (columns Sample.df)) (rows Sample.df)))%Q /\
    (exists qs : list Q,
        map snd (state_totals c) = map Fin qs /\
        (inject_Z (total_births c) == qsum qs)%Q) /\
    (exists qs : list Q,
        map snd (gender_totals c) = map Fin qs /\
        (inject_Z (total_births c) == qsum qs)%Q).
Proof.
  assert (H1 : forall r, In r (rows Sample.df) ->
               notna (cell (columns Sample.df) "state_of_residence" r) = true)
    by (simpl; intros r [<- | [<- | [<- | []]]]; reflexivity).
  assert (H2 : forall r, In r (rows Sample.df) ->
               notna (cell (columns Sample.df) "sex_of_infant" r) = true)
    by (simpl; intros r [<- | [<- | [<- | []]]]; reflexivity).
  assert (S : safe (map (births_of (columns Sample.df)) (rows Sample.df))).
  { split.
    - simpl. intros q [<- | [<- | [<- | []]]];
        [exists 100%Z | exists 90%Z | exists 50%Z]; reflexivity.
    - vm_compute. reflexivity. }
  split; [exact reference_exact_sums |].
  repeat (split; [assumption |]).
  exact (context_totals_consistent Sample.df Sample.all Sample.all Sample.all
           reference_exact_sums H1 H2 S).
Defined.

(** C5 as stated fails twice over, with every sum exact: a row without a
    state counts in the grand total (190) and in no per-state total (90);
    and the grand total is truncated to an integer (0) while the per-gender
    totals are not (1/2). *)
Lemma context_totals_can_disagree :
  (normalize decimal_literal Sample.gap_raw = Clean Sample.gap_df /\
   empty (filter_engine Sample.gap_df Sample.all Sample.all Sample.all) = false /\
   exists c : context,
     build_context (filter_engine Sample.gap_df Sample.all Sample.all Sample.all)
                   Sample.all Sample.all Sample.all = inr c /\
     total_births c = 190%Z /\
     map snd (state_totals c) = map Fin [inject_Z 90] /\
     ~ (inject_Z (total_births c) == qsum [inject_Z 90])%Q) /\
  (normalize decimal_literal Sample.half_raw = Clean Sample.half_df /\
   empty (filter_engine Sample.half_df Sample.all Sample.all Sample.all) = false /\
   exists c : context,
     build_context (filter_engine Sample.half_df Sample.all Sample.all Sample.all)
                   Sample.all Sample.all Sample.all = inr c /\
     total_births c = 0%Z /\
     map snd (gender_totals c) = map Fin [Qmake 1 2] /\
     ~ (inject_Z (total_births c) == qsum [Qmake 1 2])%Q).
Proof.
  split; (split; [reflexivity |]); (split; [reflexivity |]);
    (eexists; split; [vm_compute; reflexivity |]);
    (split; [reflexivity |]); (split; [reflexivity |]);
    vm_compute; discriminate.
Qed.

(** C9 (order of the per-state totals).  In a context that has been built,
    the per-state mapping lists its entries from the largest total to the
    smallest (a total that is not a number last).  The mapping is the
    grouping by state: every row of the filtered frame whose state is not
    missing has its state among the keys, no state is listed twice, and
    the total listed with a state is the machine sum of the measures of
    the rows of that state. *)
Theorem state_totals_descending {P : platform}
        (filtered : DataFrame) (ss gs ms : list value) (c : context) :
  build_context filtered ss gs ms = inr c ->
  StronglySorted (fun a b : value * number => num_le (snd b) (snd a))
                 (state_totals c) /\
  (forall r, In r (rows filtered) ->
             cell (columns filtered) "state_of_residence" r <> VNaN ->
             exists k v, In (k, v) (state_totals c) /\
                         same_value k (cell (columns filtered) "state_of_residence" r)) /\
  (forall i j a b,
      nth_error (state_totals c) i = Some a ->
      nth_error (state_totals c) j = Some b ->
      same_value (fst a) (fst b) -> i = j) /\
  (forall k v,
      In (k, v) (state_totals c) ->
      k <> VNaN /\
      (exists r, In r (rows filtered) /\
                 cell (columns filtered) "state_of_residence" r = k) /\
      exists p : row -> bool,
        (forall r, p r = true <->
                   same_value k (cell (columns filtered) "state_of_residence" r)) /\
        v = group_sum (map (births_of (columns filtered)) (filter p (rows filtered)))).
Proof.
  intros H. destruct (build_context_inr _ _ _ _ _ H) as (_ & -> & _).
  unfold state_totals_of. split; [| split; [| split]].
  - apply sort_values_desc_sorted.
  - intros r Hr Hc.
    destruct (groupby_sum_covers filtered "state_of_residence" r Hr Hc)
      as (k & v & Hin & Hk).
    exists k, v. split; [| exact Hk].
    apply (Permutation_in _ (Permutation_sym (sort_values_desc_perm _))). exact Hin.
  - intros i j a b Hi Hj Hab.
    apply (filter_count_one (fun kv : value * number => value_eqb (fst kv) (fst b))
             (sort_values_desc (groupby_sum filtered "state_of_residence")) i j a b);
      trivial.
    + rewrite (filter_length_perm _ _ _ (sort_values_desc_perm _)).
      apply groupby_sum_key_once.
    + now apply value_eqb_same.
    + apply value_eqb_refl.
  - intros k v Hin.
    apply (Permutation_in _ (sort_values_desc_perm _)) in Hin.
    now apply groupby_sum_entry.
Qed.

(** The sample frame: California (190) before Texas (50). *)
Lemma state_totals_descending_witness :
  exists c : context,
    build_context Sample.df Sample.all Sample.all Sample.all = inr c /\
    state_totals c = [ (VStr "CA", Fin (inject_Z 190)); (VStr "TX", Fin (inject_Z 50)) ] /\
    StronglySorted (fun a b : value * number => num_le (snd b) (snd a))
                   (state_totals c).
Proof.
  eexists. split; [reflexivity |]. split; [reflexivity |].
  exact (proj1 (state_totals_descending Sample.df Sample.all Sample.all Sample.all
                  _ eq_refl)).
Defined.


(* ------------------------------------------------------------------ *)
(** ** Executions *)

Lemma for_each_emit {A} (f : A -> event) (l : list A) (u : ui) :
  for_each (fun x => emit (f x)) l u
  = (mkUi (trace u ++ map f l) (messages u), inl tt).
Proof.
  revert u. induction l as [| x xs IH]; intros [tr ms]; simpl.
  - unfold ret. now rewrite app_nil_r.
  - unfold bind, emit. simpl. rewrite IH. simpl.
    now rewrite <- app_assoc.
Qed.

(** The try/except: a raised exception becomes the fallback reply, a
    returned value is the reply. *)
Lemma chat_result_cases (net : network) (ctx : context) (user_input : string) :
  (forall e, completion net ctx user_input = inl e ->
             chat_result net ctx user_input = PStr fallback) /\
  (forall r, completion net ctx user_input = inr r ->
             chat_result net ctx user_input = r).
Proof. unfold chat_result. split; intros x ->; reflexivity. Qed.

Lemma bind_ret_of {A B} (m : script A) (k : A -> script B) (u u' : ui) (a : A) :
  m u = (u', inl a) -> bind m k u = k a u'.
Proof. unfold bind. now intros ->. Qed.

Lemma bind_halt_of {A B} (m : script A) (k : A -> script B) (u u' : ui)
      (o : outcome) :
  m u = (u', inr o) -> bind m k u = (u', inr o).
Proof. unfold bind. now intros ->. Qed.

Lemma bind_emit {B} (e : event) (k : unit -> script B) (u : ui) :
  bind (emit e) k u = k tt (mkUi (trace u ++ [e]) (messages u)).
Proof. reflexivity. Qed.

Lemma session_messages_eq (u : ui) :
  session_messages u
  = (mkUi (trace u) (Some (conversation (messages u))),
     inl (conversation (messages u))).
Proof. unfold session_messages. destruct u as [tr [l |]]; reflexivity. Qed.

Lemma append_message_eq (t : turn) (tr : list event) (l : list turn) :
  append_message t (mkUi tr (Some l)) = (mkUi tr (Some (l ++ [t])), inl tt).
Proof. reflexivity. Qed.

Lemma option_list_some (df : DataFrame) (label : string) (l : list value) (u : ui) :
  options df label = Some l -> option_list df label u = (u, inl l).
Proof. unfold option_list. now intros ->. Qed.

Lemma option_list_none (df : DataFrame) (label : string) (u : ui) :
  options df label = None -> option_list df label u = (u, inr Raised).
Proof. unfold option_list. now intros ->. Qed.

Lemma bind_multiselect {B} (label : string) (choices default current : list value)
      (k : list value -> script B) (u : ui) :
  bind (multiselect label choices default current) k u
  = k current (mkUi (trace u ++ [Multiselect label choices default]) (messages u)).
Proof. reflexivity. Qed.


Lemma filter_chat_render (l : list turn) :
  filter is_chat_message (map render_turn l) = map render_turn l.
Proof. induction l as [| t l IH]; simpl; congruence. Qed.

Section Executions.
Context {P : platform}.
Variable parse : string -> option Q.

(** The chart and the table: the table raises when two columns carry one
    label. *)
Lemma visualization_eq (filtered : DataFrame) (u : ui) :
  visualization filtered u
  = (mkUi (trace u
           ++ [ PlotlyChart (groupby2_sum filtered "state_of_residence" "sex_of_infant");
                Subheader "Filtered Records" ]
           ++ (if distinct (columns filtered) then [ Dataframe filtered ] else []))
          (messages u),
     if distinct (columns filtered) then inl tt else inr Raised).
Proof.
  unfold visualization, st_dataframe, bind, emit, raise. simpl.
  destruct (distinct (columns filtered)); simpl;
    rewrite <- ?app_assoc; reflexivity.
Qed.

(** The analyst section in closed form. *)
Lemma analyst_eq (i : interaction) (filtered : DataFrame)
      (ss gs ms : list value) (u0 : ui) :
  analyst i filtered ss gs ms u0
  = (mkUi (trace u0
           ++ transcript (conversation (messages u0)) (exchange i filtered ss gs ms))
          (Some (conversation (messages u0) ++ exchange i filtered ss gs ms)),
     if answers i filtered ss gs ms then inl tt else inr Raised).
Proof.
  unfold analyst, exchange, answers, transcript, chat_submission.
  rewrite !bind_emit.
  rewrite (bind_ret_of _ _ _ _ _ (session_messages_eq _)).
  rewrite (bind_ret_of _ _ _ _ _
             (for_each_emit (fun msg => ChatMessage (role msg) (content msg)) _ _)).
  rewrite bind_emit. simpl trace. simpl messages.
  destruct (submitted (chat_text i)) as [user_input |].
  - rewrite (bind_ret_of _ _ _ _ _ (append_message_eq _ _ _)).
    rewrite bind_emit. simpl trace. simpl messages.
    destruct (prompt_context filtered ss gs ms) as [e | ctx].
    + unfold raise. f_equal. f_equal.
      unfold render_turn. simpl. now rewrite <- !app_assoc.
    + rewrite bind_emit. simpl trace. simpl messages.
      rewrite append_message_eq. f_equal. f_equal.
      * unfold render_turn. simpl. now rewrite <- !app_assoc.
      * now rewrite <- app_assoc.
  - unfold ret. f_equal. f_equal.
    + unfold render_turn. simpl. now rewrite <- ?app_assoc, ?app_nil_r.
    + now rewrite app_nil_r.
Qed.

Lemma run_no_file (i : interaction) (session : option (list turn)) :
  load_data i = None ->
  run parse i session
  = (mkUi (preamble ++ [Error "Dataset file not found in repository."]) session,
     Stopped).
Proof. unfold run, app. intros ->. reflexivity. Qed.

Lemma run_missing_columns (i : interaction) (session : option (list turn))
      (df_raw : DataFrame) (names : list string) :
  load_data i = Some df_raw ->
  normalize parse df_raw = MissingColumns names ->
  run parse i session
  = (mkUi (preamble
           ++ [Error ("Missing required columns: " ++ Text.repr_list names)%string])
          session,
     Stopped).
Proof. unfold run, app. intros -> ->. reflexivity. Qed.

(** An execution that gets as far as the filter. *)
Lemma run_filtered (i : interaction) (session : option (list turn))
      (df_raw df : DataFrame) (states genders months : list value) :
  load_data i = Some df_raw ->
  normalize parse df_raw = Clean df ->
  options df "state_of_residence" = Some states ->
  options df "sex_of_infant" = Some genders ->
  options df "month" = Some months ->
  let filtered :=
    filter_engine df (state_choice i) (gender_choice i) (month_choice i) in
  let u0 := mkUi (preamble ++ sidebar states genders months) session in
  app parse i (mkUi [] session)
  = if empty filtered
    then (mkUi (trace u0 ++ [Warning "No data matches selected filters."]) session,
          inr Stopped)
    else bind (visualization filtered)
              (fun _ => analyst i filtered (state_choice i) (gender_choice i)
                                (month_choice i))
              u0.
Proof.
  intros Hl Hn Hs Hg Hm. unfold app. rewrite Hl, Hn.
  rewrite !bind_emit.
  rewrite (bind_ret_of _ _ _ _ _ (option_list_some _ _ _ _ Hs)).
  rewrite (bind_ret_of _ _ _ _ _ (option_list_some _ _ _ _ Hg)).
  rewrite (bind_ret_of _ _ _ _ _ (option_list_some _ _ _ _ Hm)).
  rewrite !bind_multiselect.
  destruct (empty _); reflexivity.
Qed.

(** An execution that gets past the filter: the chart, the table unless it
    raises, then the analyst section. *)
Lemma run_dashboard (i : interaction) (session : option (list turn))
      (df_raw df : DataFrame) (states genders months : list value) :
  load_data i = Some df_raw ->
  normalize parse df_raw = Clean df ->
  options df "state_of_residence" = Some states ->
  options df "sex_of_infant" = Some genders ->
  options df "month" = Some months ->
  let filtered :=
    filter_engine df (state_choice i) (gender_choice i) (month_choice i) in
  empty filtered = false ->
  run parse i session
  = if distinct (columns df)
    then (mkUi (preamble
                ++ sidebar states genders months
                ++ [ PlotlyChart (groupby2_sum filtered "state_of_residence"
                                               "sex_of_infant");
                     Subheader "Filtered Records";
                     Dataframe filtered ]
                ++ transcript (conversation session)
                     (exchange i filtered (state_choice i) (gender_choice i)
                               (month_choice i)))
               (Some (conversation session
                      ++ exchange i filtered (state_choice i) (gender_choice i)
                                  (month_choice i))),
          if answers i filtered (state_choice i) (gender_choice i) (month_choice i)
          then Completed else Raised)
    else (mkUi (preamble
                ++ sidebar states genders months
                ++ [ PlotlyChart (groupby2_sum filtered "state_of_residence"
                                               "sex_of_infant");
                     Subheader "Filtered Records" ])
               session,
          Raised).
Proof.
  intros Hl Hn Hs Hg Hm filtered He. unfold run.
  rewrite (run_filtered i session df_raw df states genders months Hl Hn Hs Hg Hm).
  fold filtered. rewrite He.
  pose proof (visualization_eq filtered
                (mkUi (preamble ++ sidebar states genders months) session)) as V.
  assert (C : columns filtered = columns df) by apply filter_engine_columns.
  rewrite C in V.
  destruct (distinct (columns df)).
  - rewrite (bind_ret_of _ _ _ _ _ V), analyst_eq.
    simpl trace. simpl messages.
    destruct (answers i filtered _ _ _); now rewrite <- ?app_assoc.
  - rewrite (bind_halt_of _ _ _ _ _ V).
    simpl trace. simpl messages. now rewrite <- ?app_assoc, ?app_nil_r.
Qed.

(** How an execution ends, and what it leaves in the session: either it
    ends before the analyst section, and the session is as it was, or it
    goes through the analyst section. *)
Lemma run_cases (i : interaction) (session : option (list turn)) :
  (exists tr o, o <> Completed /\ run parse i session = (mkUi tr session, o)) \/
  (exists filtered ss gs ms tr,
      run parse i session
      = (mkUi (tr ++ transcript (conversation session) (exchange i filtered ss gs ms))
              (Some (conversation session ++ exchange i filtered ss gs ms)),
         if answers i filtered ss gs ms then Completed else Raised)).
Proof.
  destruct (load_data i) as [df_raw |] eqn:Hl.
  2:{ left. rewrite (run_no_file i session Hl). do 2 eexists.
      split; [| reflexivity]. discriminate. }
  destruct (normalize parse df_raw) as [names | | df] eqn:Hn.
  1:{ left. rewrite (run_missing_columns i session df_raw names Hl Hn).
      do 2 eexists. split; [| reflexivity]. discriminate. }
  1:{ left. unfold run, app. rewrite Hl, Hn. do 2 eexists.
      split; [| reflexivity]. discriminate. }
  destruct (options df "state_of_residence") as [states |] eqn:Hs.
  2:{ left. unfold run, app. rewrite Hl, Hn, !bind_emit.
      rewrite (bind_halt_of _ _ _ _ _ (option_list_none _ _ _ Hs)).
      do 2 eexists. split; [| reflexivity]. discriminate. }
  destruct (options df "sex_of_infant") as [genders |] eqn:Hg.
  2:{ left. unfold run, app. rewrite Hl, Hn, !bind_emit.
      rewrite (bind_ret_of _ _ _ _ _ (option_list_some _ _ _ _ Hs)).
      rewrite (bind_halt_of _ _ _ _ _ (option_list_none _ _ _ Hg)).
      do 2 eexists. split; [| reflexivity]. discriminate. }
  destruct (options df "month") as [months |] eqn:Hm.
  2:{ left. unfold run, app. rewrite Hl, Hn, !bind_emit.
      rewrite (bind_ret_of _ _ _ _ _ (option_list_some _ _ _ _ Hs)).
      rewrite (bind_ret_of _ _ _ _ _ (option_list_some _ _ _ _ Hg)).
      rewrite (bind_halt_of _ _ _ _ _ (option_list_none _ _ _ Hm)).
      do 2 eexists. split; [| reflexivity]. discriminate. }
  destruct (empty (filter_engine df (state_choice i) (gender_choice i)
                                 (month_choice i))) eqn:He.
  - left. unfold run.
    rewrite (run_filtered i session df_raw df states genders months Hl Hn Hs Hg Hm).
    rewrite He. do 2 eexists. split; [| reflexivity]. discriminate.
  - rewrite (run_dashboard i session df_raw df states genders months
                           Hl Hn Hs Hg Hm He).
    destruct (distinct (columns df)).
    + right. do 5 eexists. rewrite !app_assoc. reflexivity.
    + left. do 2 eexists. split; [| reflexivity]. discriminate.
Qed.

(** An execution that reaches its last line went through the analyst
    section, which answered. *)
Lemma run_completed (i : interaction) (session : option (list turn)) (u : ui) :
  run parse i session = (u, Completed) ->
  exists filtered ss gs ms,
    answers i filtered ss gs ms = true /\
    messages u = Some (conversation session ++ exchange i filtered ss gs ms).
Proof.
  intros H.
  destruct (run_cases i session)
    as [(tr & o & Ho & R) | (f & ss & gs & ms & tr & R)];
    rewrite R in H.
  - injection H as _ ->. now elim Ho.
  - exists f, ss, gs, ms.
    destruct (answers i f ss gs ms); [| discriminate].
    injection H as <-. split; reflexivity.
Qed.

(** C7 (empty result).  When the filter leaves no row, the execution
    renders the page header and the sidebar with its three selection
    controls, then the warning, and stops there: no element of the chart,
    table or analyst sections is rendered and the conversation is left as
    it was. *)
Theorem empty_result_halts
        (i : interaction) (session : option (list turn))
        (df_raw df : DataFrame) (states genders months : list value) :
  load_data i = Some df_raw ->
  normalize parse df_raw = Clean df ->
  options df "state_of_residence" = Some states ->
  options df "sex_of_infant" = Some genders ->
  options df "month" = Some months ->
  empty (filter_engine df (state_choice i) (gender_choice i) (month_choice i))
  = true ->
  run parse i session
  = (mkUi (preamble ++ sidebar states genders months
           ++ [Warning "No data matches selected filters."])
          session,
     Stopped) /\
  (forall e, In e (trace (fst (run parse i session))) -> section_element e = false) /\
  List.length (filter is_multiselect (trace (fst (run parse i session)))) = 3%nat.
Proof.
  intros Hl Hn Hs Hg Hm He.
  assert (R : run parse i session
              = (mkUi (preamble ++ sidebar states genders months
                       ++ [Warning "No data matches selected filters."])
                      session,
                 Stopped)).
  { unfold run.
    rewrite (run_filtered i session df_raw df states genders months
                          Hl Hn Hs Hg Hm).
    rewrite He. simpl. reflexivity. }
  rewrite R. split; [reflexivity |]. split.
  - simpl. intros e H.
    repeat (destruct H as [<- | H]; [reflexivity |]). destruct H.
  - reflexivity.
Qed.

(** C8, as amended (loader failures).  When the file cannot be read, or
    a required column is missing once the labels are rewritten, the
    execution renders the page header and an error, and stops.  For an
    unreadable file the error reads "Dataset file not found in
    repository."; otherwise it reads "Missing required columns: "
    followed by the list of the required columns that are absent, in the
    order of the required list. *)
Theorem loader_failures (i : interaction) (session : option (list turn)) :
  (load_data i = None \/
   exists df_raw, load_data i = Some df_raw /\ missing (rename_columns df_raw) <> []) ->
  exists message,
    run parse i session = (mkUi (preamble ++ [Error message]) session, Stopped) /\
    (load_data i = None -> message = "Dataset file not found in repository.") /\
    (forall df_raw,
        load_data i = Some df_raw ->
        message = ("Missing required columns: "
                   ++ Text.repr_list (missing (rename_columns df_raw)))%string /\
        forall c, In c (missing (rename_columns df_raw)) <->
                  In c required_cols /\
                  ~ In c (map normalize_label (columns df_raw))).
Proof.
  intros [Hl | (df_raw & Hl & Hm)].
  - exists "Dataset file not found in repository.".
    split; [exact (run_no_file i session Hl) |]. split; trivial.
    intros df_raw H. congruence.
  - assert (Hn : normalize parse df_raw = MissingColumns (missing (rename_columns df_raw))).
    { unfold normalize. destruct (missing (rename_columns df_raw)); congruence. }
    exists ("Missing required columns: "
            ++ Text.repr_list (missing (rename_columns df_raw)))%string.
    split; [exact (run_missing_columns i session df_raw _ Hl Hn) |].
    split; [congruence |].
    intros d H. assert (d = df_raw) by congruence. subst d.
    split; trivial. intros c. apply (missing_spec (rename_columns df_raw)).
Qed.

(** C6, as amended (chat failure handling).  For every submission:
    whenever anything in the request or in the reading of the response
    raises, the assistant's text is the fallback, otherwise it is the
    content extracted from the response.  When the context of lines
    136-186 is built and serialised, the analyst section runs to its end
    and leaves the conversation longer by two turns, the user's and then
    the assistant's.  When building or serialising it raises, the
    exception leaves the script and the conversation is longer by the
    user's turn alone.  An execution that reaches its last line has
    extended the session's conversation by the two turns. *)
Theorem chat_records_two_turns
        (i : interaction) (session : option (list turn)) (user_input : string) :
  submitted (chat_text i) = Some user_input ->
  (forall ctx,
      (forall e, completion (net i) ctx user_input = inl e ->
                 chat_result (net i) ctx user_input = PStr fallback) /\
      (forall r, completion (net i) ctx user_input = inr r ->
                 chat_result (net i) ctx user_input = r)) /\
  (forall filtered ss gs ms u0 ctx,
      prompt_context filtered ss gs ms = inr ctx ->
      exists u1,
        analyst i filtered ss gs ms u0 = (u1, inl tt) /\
        messages u1
        = Some (conversation (messages u0)
                ++ [ mkTurn "user" (PStr user_input);
                     mkTurn "assistant" (chat_result (net i) ctx user_input) ])) /\
  (forall filtered ss gs ms u0 e,
      prompt_context filtered ss gs ms = inl e ->
      exists u1,
        analyst i filtered ss gs ms u0 = (u1, inr Raised) /\
        messages u1
        = Some (conversation (messages u0) ++ [ mkTurn "user" (PStr user_input) ])) /\
  (forall u,
      run parse i session = (u, Completed) ->
      exists ctx,
        messages u
        = Some (conversation session
                ++ [ mkTurn "user" (PStr user_input);
                     mkTurn "assistant" (chat_result (net i) ctx user_input) ])).
Proof.
  intros Hsub. split; [| split; [| split]].
  - intros ctx. apply chat_result_cases.
  - intros filtered ss gs ms u0 ctx Hc. rewrite analyst_eq.
    unfold answers, exchange. rewrite Hsub, Hc.
    eexists. split; reflexivity.
  - intros filtered ss gs ms u0 e Hc. rewrite analyst_eq.
    unfold answers, exchange. rewrite Hsub, Hc.
    eexists. split; reflexivity.
  - intros u Hrun.
    destruct (run_completed i session u Hrun) as (f & ss & gs & ms & Ha & Hm).
    unfold answers, exchange in Ha, Hm. rewrite Hsub in Ha, Hm.
    destruct (prompt_context f ss gs ms) as [e | ctx]; [discriminate |].
    exists ctx. exact Hm.
Qed.
End Executions.

(** California in February, on the sample file. *)
Lemma empty_result_halts_witness :
  load_data Sample.no_match = Some Sample.raw /\
  normalize decimal_literal Sample.raw = Clean Sample.df /\
  options Sample.df "state_of_residence" = Some [VStr "CA"; VStr "TX"] /\
  options Sample.df "sex_of_infant" = Some [VStr "F"; VStr "M"] /\
  options Sample.df "month" = Some [VStr "Feb"; VStr "Jan"] /\
  empty (filter_engine Sample.df (state_choice Sample.no_match)
                       (gender_choice Sample.no_match)
                       (month_choice Sample.no_match)) = true /\
  run decimal_literal Sample.no_match None
  = (mkUi (preamble
           ++ sidebar [VStr "CA"; VStr "TX"] [VStr "F"; VStr "M"]
                      [VStr "Feb"; VStr "Jan"]
           ++ [Warning "No data matches selected filters."])
          None,
     Stopped).
Proof.
  assert (H1 : load_data Sample.no_match = Some Sample.raw) by reflexivity.
  assert (H2 : normalize decimal_literal Sample.raw = Clean Sample.df)
    by reflexivity.
  assert (H3 : options Sample.df "state_of_residence" = Some [VStr "CA"; VStr "TX"])
    by reflexivity.
  assert (H4 : options Sample.df "sex_of_infant" = Some [VStr "F"; VStr "M"])
    by reflexivity.
  assert (H5 : options Sample.df "month" = Some [VStr "Feb"; VStr "Jan"])
    by reflexivity.
  assert (H6 : empty (filter_engine Sample.df (state_choice Sample.no_match)
                                    (gender_choice Sample.no_match)
                                    (month_choice Sample.no_match)) = true)
    by reflexivity.
  repeat (split; [assumption |]).
  exact (proj1 (empty_result_halts decimal_literal Sample.no_match None
                  Sample.raw Sample.df _ _ _ H1 H2 H3 H4 H5 H6)).
Defined.

(** A file with two of the six columns. *)
Lemma loader_failures_witness :
  (load_data Sample.headless = None \/
   exists df_raw,
     load_data Sample.headless = Some df_raw /\
     missing (rename_columns df_raw) <> []) /\
  exists message,
    run decimal_literal Sample.headless None
    = (mkUi (preamble ++ [Error message]) None, Stopped).
Proof.
  assert (H : load_data Sample.headless = None \/
              exists df_raw,
                load_data Sample.headless = Some df_raw /\
                missing (rename_columns df_raw) <> []).
  { right. eexists. split; [reflexivity | discriminate]. }
  split; [exact H |].
  destruct (loader_failures decimal_literal Sample.headless None H)
    as (message & R & _).
  exists message. exact R.
Defined.

(** C8 as stated fails on the wording and on what precedes the error: the
    page header is rendered first, and the error reads "Dataset file not
    found in repository.". *)
Lemma missing_file_message :
  load_data Sample.no_file = None /\
  trace (fst (run decimal_literal Sample.no_file None))
  = [ PageConfig "wide";
      Title "Provisional Natality Data Dashboard";
      Subheader "Birth Analysis by State and Gender";
      Error "Dataset file not found in repository." ] /\
  ~ In (Error "Dataset file not found.")
       (trace (fst (run decimal_literal Sample.no_file None))).
Proof.
  split; [reflexivity |]. split; [reflexivity |].
  simpl. intros [H | [H | [H | [H | []]]]]; discriminate H.
Qed.


(** A question asked while the endpoint cannot be reached. *)
Lemma chat_records_two_turns_witness :
  submitted (chat_text (Sample.question Sample.offline)) = Some "Why?" /\
  exists ctx,
    messages (fst (run decimal_literal (Sample.question Sample.offline) None))
    = Some (conversation None
            ++ [ mkTurn "user" (PStr "Why?");
                 mkTurn "assistant" (chat_result Sample.offline ctx "Why?") ]).
Proof.
  assert (H : submitted (chat_text (Sample.question Sample.offline)) = Some "Why?")
    by reflexivity.
  split; [exact H |].
  destruct (chat_records_two_turns decimal_literal (Sample.question Sample.offline)
              None "Why?" H) as (_ & _ & _ & K).
  apply K. vm_compute. reflexivity.
Defined.

(** C6 as stated fails: not every submission adds two turns.  On a file
    whose counts add up to more than a float can hold the sum is infinite,
    [int] raises at line 136, outside the [try]: the execution ends in the
    exception, and the conversation holds the user's turn and no
    assistant's turn, not even the fallback. *)
Lemma overflowing_total_leaves_one_turn :
  submitted (chat_text Sample.overflowing) = Some "Why?" /\
  normalize decimal_literal Sample.huge_raw = Clean Sample.huge_df /\
  births_sum Sample.huge_df = PosInf /\
  snd (run decimal_literal Sample.overflowing None) = Raised /\
  messages (fst (run decimal_literal Sample.overflowing None))
  = Some [ mkTurn "user" (PStr "Why?") ] /\
  ~ (exists reply,
        messages (fst (run decimal_literal Sample.overflowing None))
        = Some (conversation None
                ++ [ mkTurn "user" (PStr "Why?"); mkTurn "assistant" reply ])).
Proof.
  assert (M : messages (fst (run decimal_literal Sample.overflowing None))
              = Some [ mkTurn "user" (PStr "Why?") ]) by (vm_compute; reflexivity).
  split; [reflexivity |]. split; [vm_compute; reflexivity |].
  split; [vm_compute; reflexivity |]. split; [vm_compute; reflexivity |].
  split; [exact M |].
  intros (reply & H). rewrite M in H. discriminate H.
Qed.


(* ------------------------------------------------------------------ *)
(** ** The scenarios, executed on the reference platform *)

(** Text counts are coerced and a count that is not a number is dropped
    with its row. *)
Example scenario_normalize :
  normalize decimal_literal Sample.raw = Clean Sample.df.
Proof. reflexivity. Qed.

Example scenario_grand_total :
  total_births_of (filter_engine Sample.df Sample.all Sample.all Sample.all)
  = inr 240%Z.
Proof. reflexivity. Qed.

Example scenario_chart :
  groupby2_sum Sample.df "state_of_residence" "sex_of_infant"
  = [ (VStr "CA", VStr "F", Fin (inject_Z 90));
      (VStr "CA", VStr "M", Fin (inject_Z 100));
      (VStr "TX", VStr "M", Fin (inject_Z 50)) ].
Proof. vm_compute. reflexivity. Qed.

Example scenario_california :
  rows (filter_engine Sample.df [VStr "CA"] Sample.all Sample.all)
  = firstn 2 (rows Sample.df) /\
  total_births_of (filter_engine Sample.df [VStr "CA"] Sample.all Sample.all)
  = inr 190%Z.
Proof. split; reflexivity. Qed.

Example scenario_state_totals :
  state_totals_of Sample.df
  = [ (VStr "CA", Fin (inject_Z 190)); (VStr "TX", Fin (inject_Z 50)) ].
Proof. vm_compute. reflexivity. Qed.

Example scenario_offline :
  run decimal_literal (Sample.question Sample.offline) None
  = (mkUi (trace (fst (run decimal_literal (Sample.question Sample.offline) None)))
          (Some [ mkTurn "user" (PStr "Why?");
                  mkTurn "assistant" (PStr fallback) ]),
     Completed).
Proof. vm_compute. reflexivity. Qed.

Example scenario_refusing :
  messages (fst (run decimal_literal (Sample.question Sample.refusing) None))
  = Some [ mkTurn "user" (PStr "Why?"); mkTurn "assistant" (PStr fallback) ].
Proof. vm_compute. reflexivity. Qed.

Example scenario_online :
  messages (fst (run decimal_literal (Sample.question Sample.online)
                     (Some [ mkTurn "user" (PStr "Hello") ])))
  = Some [ mkTurn "user" (PStr "Hello");
           mkTurn "user" (PStr "Why?");
           mkTurn "assistant" (PStr "Births are highest in CA.") ].
Proof. vm_compute. reflexivity. Qed.

Example scenario_headless :
  trace (fst (run decimal_literal Sample.headless None))
  = preamble
    ++ [ Error "Missing required columns: ['month', 'month_code', 'year_code', 'sex_of_infant']" ].
Proof. vm_compute. reflexivity. Qed.

(** A no-break space in front of a label is white space to [strip]: the
    label is the required one, and no column is reported missing. *)
Example scenario_padded_header :
  map normalize_label Sample.padded_header = required_cols /\
  missing (rename_columns (mkDF Sample.padded_header [])) = [].
Proof. split; vm_compute; reflexivity. Qed.

(** [strip] removes the white space of Unicode at both ends and leaves
    the blank inside: here a no-break space and a blank in front, an
    ideographic space (U+3000) and a tab behind. *)
Example scenario_strip :
  Text.strip (String (ascii_of_nat 194) (String (ascii_of_nat 160)
                (" Month Code"
                 ++ String (ascii_of_nat 227) (String (ascii_of_nat 128)
                      (String (ascii_of_nat 128) (String (ascii_of_nat 9) EmptyString))))))%string
  = "Month Code".
Proof. vm_compute. reflexivity. Qed.

(** The same file without its month column: month alone is reported. *)
Example scenario_padded_header_without_month :
  trace (fst (run decimal_literal
                  (mkInteraction
                     (Some (mkDF (filter (fun c => negb (String.eqb c "Month"))
                                         Sample.padded_header) []))
                     Sample.all Sample.all Sample.all None Sample.online)
                  None))
  = preamble ++ [ Error "Missing required columns: ['month']" ].
Proof. vm_compute. reflexivity. Qed.

(** Two columns called month_code: the chart is drawn, the table raises,
    and the analyst section is not reached. *)
Example scenario_doubled :
  run decimal_literal Sample.doubled None
  = (mkUi (preamble
           ++ sidebar [VStr "CA"] [VStr "M"] [VStr "Jan"]
           ++ [ PlotlyChart [ (VStr "CA", VStr "M", Fin (inject_Z 100)) ];
                Subheader "Filtered Records" ])
          None,
     Raised).
Proof. vm_compute. reflexivity. Qed.

(* ================================================================== *)
(** * Further properties of the script *)

(* ------------------------------------------------------------------ *)
(** ** The normaliser as a whole (lines 30-48) *)

Lemma set_nth_same (i : nat) (r : row) : set_nth i (nth i r VNaN) r = r.
Proof.
  revert i. induction r as [| x xs IH]; intros [| j]; simpl; trivial.
  now rewrite IH.
Qed.

Lemma frame_eq (a b : DataFrame) :
  columns a = columns b -> rows a = rows b -> a = b.
Proof. destruct a, b; simpl; congruence. Qed.

(** What a frame handed over by the normaliser is made of. *)
Lemma normalize_clean_shape {P : platform} (parse : string -> option Q)
      (df_raw df : DataFrame) :
  normalize parse df_raw = Clean df ->
  missing (rename_columns df_raw) = [] /\
  label_count "births" (map normalize_label (columns df_raw)) = 1%nat /\
  columns df = map normalize_label (columns df_raw) /\
  exists g : row -> row,
    rows df
    = filter (fun r => notna (cell (columns df) "births" r)) (map g (rows df_raw)) /\
    (forall r, cell (columns df) "births" (g r)
               = to_numeric parse (cell (columns df) "births" r)) /\
    (forall label r, label <> "births" ->
                     cell (columns df) label (g r) = cell (columns df) label r).
Proof.
  unfold normalize. set (d := rename_columns df_raw).
  destruct (missing d) eqn:M; [| discriminate].
  destruct (label_count "births" (columns d) =? 1)%nat eqn:C; [| discriminate].
  intros [= <-]. apply Nat.eqb_eq in C.
  assert (HC : columns (dropna_births (coerce_births parse d)) = columns d)
    by (simpl; apply coerce_births_columns).
  split; trivial. split; [exact C |]. split; [exact HC |].
  destruct (coerce_births_rows parse d) as (g & Hrows & Hcell & Hother).
  exists g. rewrite HC. repeat split; trivial.
  unfold dropna_births. simpl rows.
  now rewrite coerce_births_columns, Hrows.
Qed.

(** X3.  Apart from the measure, the normaliser leaves every column as it
    was: a column of the result is the raw column restricted to the rows
    whose measure coerces to a number, in the original order; no row is
    added. *)
Theorem normalize_keeps_other_columns {P : platform} (parse : string -> option Q)
        (df_raw df : DataFrame) (label : string) :
  normalize parse df_raw = Clean df ->
  label <> "births" ->
  series df label
  = map (cell (columns df) label)
        (filter (fun r => notna (to_numeric parse (cell (columns df) "births" r)))
                (rows df_raw)) /\
  (List.length (rows df) <= List.length (rows df_raw))%nat.
Proof.
  intros H Hl.
  destruct (normalize_clean_shape parse df_raw df H)
    as (_ & _ & _ & g & Hrows & Hcell & Hother).
  split.
  - unfold series. rewrite Hrows.
    rewrite <- (map_filter_comm g (fun r => notna (cell (columns df) "births" r))).
    rewrite map_map.
    rewrite (filter_ext _ (fun r => notna (to_numeric parse (cell (columns df) "births" r)))).
    + apply map_ext. intros r. now apply Hother.
    + intros r. now rewrite Hcell.
  - rewrite Hrows.
    rewrite <- (length_map g (rows df_raw)). apply filter_length_le.
Qed.

Lemma normalize_keeps_other_columns_witness :
  normalize decimal_literal Sample.raw = Clean Sample.df /\
  "month" <> "births" /\
  series Sample.df "month" = [VStr "Jan"; VStr "Jan"; VStr "Feb"].
Proof.
  assert (H : normalize decimal_literal Sample.raw = Clean Sample.df)
    by reflexivity.
  assert (L : "month" <> "births") by discriminate.
  split; [exact H |]. split; [exact L |].
  rewrite (proj1 (normalize_keeps_other_columns decimal_literal _ _ "month" H L)).
  reflexivity.
Defined.

(* ------------------------------------------------------------------ *)
(** ** Composition of filters (lines 65-74) *)

(** X4.  Filtering is idempotent: applying the selections to a frame they
    have already filtered changes nothing. *)
Theorem filter_engine_idempotent (df : DataFrame) (ss gs ms : list value) :
  filter_engine (filter_engine df ss gs ms) ss gs ms = filter_engine df ss gs ms.
Proof.
  apply frame_eq.
  - now rewrite !filter_engine_columns.
  - rewrite (filter_engine_rows (filter_engine df ss gs ms)).
    rewrite filter_engine_columns. apply filter_all.
    intros r Hr. rewrite filter_engine_rows in Hr.
    apply filter_In in Hr. tauto.
Qed.

(** X5.  Two selections applied one after the other give the same frame in
    either order, namely the rows that pass both. *)
Theorem filter_engine_commutes (df : DataFrame)
        (ss gs ms ss' gs' ms' : list value) :
  filter_engine (filter_engine df ss gs ms) ss' gs' ms'
  = filter_engine (filter_engine df ss' gs' ms') ss gs ms /\
  (forall r,
      In r (rows (filter_engine (filter_engine df ss gs ms) ss' gs' ms')) <->
      In r (rows (filter_engine df ss gs ms)) /\
      In r (rows (filter_engine df ss' gs' ms'))).
Proof.
  split.
  - apply frame_eq.
    + now rewrite !filter_engine_columns.
    + rewrite (filter_engine_rows (filter_engine df ss gs ms)).
      rewrite (filter_engine_rows (filter_engine df ss' gs' ms')).
      rewrite !filter_engine_columns, !filter_engine_rows, !filter_filter.
      apply filter_ext. intros r. apply andb_comm.
  - intros r.
    rewrite (filter_engine_rows (filter_engine df ss gs ms)).
    rewrite filter_engine_columns, !filter_engine_rows, !filter_In. tauto.
Qed.

(** X6.  A selection emptied of every value matches nothing: the filtered
    frame has no row, so the execution ends at the warning. *)
Theorem empty_selection_matches_nothing (df : DataFrame) (ss gs ms : list value) :
  ss = [] \/ gs = [] \/ ms = [] ->
  rows (filter_engine df ss gs ms) = [] /\
  empty (filter_engine df ss gs ms) = true.
Proof.
  intros H.
  assert (E : rows (filter_engine df ss gs ms) = []).
  { rewrite filter_engine_rows.
    rewrite (filter_ext _ (fun _ => false)).
    - induction (rows df); simpl; trivial.
    - intros r. unfold admits.
      destruct H as [-> | [-> | ->]]; simpl;
        rewrite ?andb_false_r; reflexivity. }
  split; trivial. unfold empty. now rewrite E.
Qed.

Lemma empty_selection_matches_nothing_witness :
  ([VStr "CA"] = [] \/ @nil value = [] \/ Sample.all = []) /\
  rows (filter_engine Sample.df [VStr "CA"] [] Sample.all) = [].
Proof.
  assert (H : [VStr "CA"] = [] \/ @nil value = [] \/ Sample.all = [])
    by (right; left; reflexivity).
  split; [exact H |].
  exact (proj1 (empty_selection_matches_nothing Sample.df _ _ _ H)).
Defined.

Lemma options_columns (df : DataFrame) (label : string) (opts : list value) :
  options df label = Some opts -> columns df <> [].
Proof.
  unfold options, label_count. intros H E. rewrite E in H. discriminate.
Qed.

(** X7.  Every value offered by a selection control occurs in the data:
    chosen alone, with the other two controls left on "All", it keeps at
    least one row, so the warning is not shown. *)
Theorem offered_option_matches (df : DataFrame) (label : string)
        (opts : list value) (v : value) :
  options df label = Some opts ->
  In v opts ->
  (exists r, In r (rows df) /\ cell (columns df) label r = v /\
             In r (rows (restrict label [v] df))) /\
  (label = "state_of_residence" ->
   empty (filter_engine df [v] [VStr "All"] [VStr "All"]) = false) /\
  (label = "sex_of_infant" ->
   empty (filter_engine df [VStr "All"] [v] [VStr "All"]) = false) /\
  (label = "month" ->
   empty (filter_engine df [VStr "All"] [VStr "All"] [v]) = false).
Proof.
  intros Ho Hv.
  destruct (options_observed df label opts Ho v Hv) as [Hs _].
  unfold series in Hs. apply in_map_iff in Hs. destruct Hs as (r & Hc & Hr).
  assert (A : admits (columns df) label [v] r = true).
  { unfold admits, isin. simpl. rewrite Hc, value_eqb_refl.
    now rewrite orb_true_r. }
  assert (Hcols := options_columns df label opts Ho).
  assert (NE : forall d : DataFrame, columns d = columns df -> In r (rows d) ->
                                     empty d = false).
  { intros d Hd Hin. unfold empty. rewrite Hd.
    destruct (rows d); [destruct Hin |].
    destruct (columns df); [congruence | reflexivity]. }
  split; [| split; [| split]].
  - exists r. repeat split; trivial.
    rewrite restrict_rows, filter_In. tauto.
  - intros ->. apply NE; [apply filter_engine_columns |].
    rewrite filter_engine_rows, filter_In. split; trivial.
    now rewrite A.
  - intros ->. apply NE; [apply filter_engine_columns |].
    rewrite filter_engine_rows, filter_In. split; trivial.
    now rewrite A.
  - intros ->. apply NE; [apply filter_engine_columns |].
    rewrite filter_engine_rows, filter_In. split; trivial.
Qed.

Lemma offered_option_matches_witness :
  options Sample.df "month" = Some [VStr "Feb"; VStr "Jan"] /\
  In (VStr "Feb") [VStr "Feb"; VStr "Jan"] /\
  empty (filter_engine Sample.df [VStr "All"] [VStr "All"] [VStr "Feb"]) = false.
Proof.
  assert (H : options Sample.df "month" = Some [VStr "Feb"; VStr "Jan"])
    by reflexivity.
  assert (I : In (VStr "Feb") [VStr "Feb"; VStr "Jan"]) by (left; reflexivity).
  split; [exact H |]. split; [exact I |].
  destruct (offered_option_matches Sample.df "month" _ _ H I) as (_ & _ & _ & K).
  now apply K.
Defined.

(* ------------------------------------------------------------------ *)
(** ** Option lists and group keys (lines 57-59, 138-155) *)

Section InsertionOrder.
Context {A : Type} (before : A -> A -> bool).
Hypothesis before_total : forall x y, before x y = false -> before y x = true.

Lemma insert_hd (y x : A) (l : list A) :
  before y x = true ->
  HdRel (fun a b => before a b = true) y l ->
  HdRel (fun a b => before a b = true) y (insert before x l).
Proof.
  intros Hyx H. destruct l as [| z zs]; simpl.
  - now constructor.
  - destruct (before x z); constructor; trivial. now inversion H.
Qed.

Lemma insert_ascending (x : A) (l : list A) :
  Sorted (fun a b => before a b = true) l ->
  Sorted (fun a b => before a b = true) (insert before x l).
Proof.
  induction 1 as [| y ys Hs IH Hd]; simpl.
  - now repeat constructor.
  - destruct (before x y) eqn:E.
    + constructor; [now constructor | now constructor].
    + constructor; trivial. apply insert_hd; trivial. now apply before_total.
Qed.

Lemma isort_ascending (l : list A) :
  Sorted (fun a b => before a b = true) (isort before l).
Proof.
  induction l as [| x xs IH]; simpl; [constructor | now apply insert_ascending].
Qed.
End InsertionOrder.

Lemma value_leb_total (x y : value) :
  value_leb x y = false -> value_leb y x = true.
Proof.
  destruct x as [p | s |], y as [q | t |]; simpl; trivial; try discriminate.
  - intros H. apply Qle_bool_iff, Qlt_le_weak, Qnot_le_lt.
    intros L. apply Qle_bool_iff in L. congruence.
  - intros H. destruct (String.leb_total s t) as [L | L]; congruence.
Qed.

Lemma forallb_perm {A} (f : A -> bool) (l l' : list A) :
  Permutation l l' -> forallb f l = forallb f l'.
Proof.
  induction 1 as [| x l l' _ IH | x y l | l l' l'' _ IH1 _ IH2]; simpl; trivial.
  - now rewrite IH.
  - destruct (f x), (f y); reflexivity.
  - congruence.
Qed.

(** X8.  The values a selection control offers are in ascending order, of
    one kind (all texts or all numbers), pairwise distinct, and cover the
    column: every cell that is not missing is among them. *)
Theorem options_sorted_distinct_complete
        (df : DataFrame) (label : string) (opts : list value) :
  options df label = Some opts ->
  Sorted (fun a b => value_leb a b = true) opts /\
  forallb is_num opts || forallb is_str opts = true /\
  (forall z, (List.length (filter (fun k => value_eqb k z) opts) <= 1)%nat) /\
  (forall r, In r (rows df) ->
             cell (columns df) label r <> VNaN ->
             isin (cell (columns df) label r) opts = true).
Proof.
  unfold options, sorted.
  destruct (label_count label (columns df) =? 1)%nat; [| discriminate].
  destruct (forallb is_num _ || forallb is_str _) eqn:K; [| discriminate].
  intros [= <-]. split; [| split; [| split]].
  - apply isort_ascending. exact value_leb_total.
  - rewrite <- K.
    now rewrite !(forallb_perm _ _ _ (isort_perm value_leb (unique (filter notna (series df label))))).
  - intros z. rewrite group_keys_match. destruct (existsb _ _); lia.
  - intros r Hr Hc.
    assert (E : existsb (fun y => value_eqb y (cell (columns df) label r))
                        (filter notna (series df label)) = true).
    { apply existsb_exists. exists (cell (columns df) label r).
      split; [| apply value_eqb_refl]. apply filter_In. split.
      - unfold series. now apply in_map.
      - destruct (cell (columns df) label r); trivial. congruence. }
    pose proof (group_keys_match df label (cell (columns df) label r)) as G.
    rewrite E in G. apply filter_length_one in G. destruct G as (k & Hk & Ek).
    apply isin_spec. exists k. split; trivial. now rewrite value_eqb_sym.
Qed.

Lemma options_sorted_distinct_complete_witness :
  options Sample.df "state_of_residence" = Some [VStr "CA"; VStr "TX"] /\
  Sorted (fun a b => value_leb a b = true) [VStr "CA"; VStr "TX"].
Proof.
  assert (H : options Sample.df "state_of_residence" = Some [VStr "CA"; VStr "TX"])
    by reflexivity.
  split; [exact H |].
  exact (proj1 (options_sorted_distinct_complete Sample.df _ _ H)).
Defined.


(** X9.  When the machine sums are exact on safe numbers and the measures
    of the filtered frame are safe to add, the context is built and each
    of its three mappings holds finite totals that add up to the measure
    of the rows that have a value in the grouping column; rows whose
    state, gender or month is missing are left out of the corresponding
    mapping only. *)
Theorem context_totals_cover_present_keys {P : platform}
        (filtered : DataFrame) (ss gs ms : list value) :
  exact_sums P ->
  safe (map (births_of (columns filtered)) (rows filtered)) ->
  exists c : context,
    build_context filtered ss gs ms = inr c /\
    (exists qs : list Q,
        map snd (state_totals c) = map Fin qs /\
        (qsum qs
         == qsum (map (births_of (columns filtered))
                      (filter (fun r => notna (cell (columns filtered) "state_of_residence" r))
                              (rows filtered))))%Q) /\
    (exists qs : list Q,
        map snd (gender_totals c) = map Fin qs /\
        (qsum qs
         == qsum (map (births_of (columns filtered))
                      (filter (fun r => notna (cell (columns filtered) "sex_of_infant" r))
                              (rows filtered))))%Q) /\
    (exists qs : list Q,
        map snd (monthly_totals c) = map Fin qs /\
        (qsum qs
         == qsum (map (births_of (columns filtered))
                      (filter (fun r => notna (cell (columns filtered) "month" r))
                              (rows filtered))))%Q).
Proof.
  intros HP Hsafe.
  destruct (total_births_exact HP filtered Hsafe) as (z & Ez & _).
  unfold build_context. rewrite Ez. simpl. eexists. split; [reflexivity |].
  simpl. split; [| split].
  - destruct (groupby_sum_total HP filtered "state_of_residence" Hsafe)
      as (qs & E & Hq).
    destruct (finite_perm (map snd (state_totals_of filtered)) qs) as (qs' & E' & Hq').
    { rewrite <- E. apply Permutation_map. apply sort_values_desc_perm. }
    exists qs'. split; [exact E' |]. now rewrite Hq'.
  - apply (groupby_sum_total HP filtered "sex_of_infant" Hsafe).
  - apply (groupby_sum_total HP filtered "month" Hsafe).
Qed.

(** The frame with a record that has no state: the per-state totals add
    up to the 90 births of the record that has one. *)
Lemma context_totals_cover_present_keys_witness :
  exact_sums reference /\
  safe (map (births_of (columns Sample.gap_df)) (rows Sample.gap_df)) /\
  exists c : context,
    build_context Sample.gap_df Sample.all Sample.all Sample.all = inr c /\
    exists qs : list Q,
      map snd (state_totals c) = map Fin qs /\
      (qsum qs
       == qsum (map (births_of (columns Sample.gap_df))
                    (filter (fun r => notna (cell (columns Sample.gap_df)
                                                  "state_of_residence" r))
                            (rows Sample.gap_df))))%Q.
Proof.
  assert (S : safe (map (births_of (columns Sample.gap_df)) (rows Sample.gap_df))).
  { split.
    - simpl. intros q [<- | [<- | []]]; [exists 100%Z | exists 90%Z]; reflexivity.
    - vm_compute. reflexivity. }
  split; [exact reference_exact_sums |]. split; [exact S |].
  destruct (context_totals_cover_present_keys Sample.gap_df Sample.all Sample.all
              Sample.all reference_exact_sums S) as (c & E & K & _).
  exists c. split; [exact E | exact K].
Defined.

(** X10.  In each mapping of the context a key occurs once: for a row of
    the filtered frame, exactly one entry carries its state (gender,
    month) when that cell is present, and none when it is missing. *)
Theorem context_one_entry_per_key {P : platform}
        (filtered : DataFrame) (ss gs ms : list value) (r : row) :
  In r (rows filtered) ->
  (List.length
     (filter (fun kv => value_eqb (fst kv) (cell (columns filtered) "state_of_residence" r))
             (state_totals_of filtered))
   = (if notna (cell (columns filtered) "state_of_residence" r) then 1 else 0)%nat /\
   List.length
     (filter (fun kv => value_eqb (fst kv) (cell (columns filtered) "sex_of_infant" r))
             (gender_totals_of filtered))
   = (if notna (cell (columns filtered) "sex_of_infant" r) then 1 else 0)%nat /\
   List.length
     (filter (fun kv => value_eqb (fst kv) (cell (columns filtered) "month" r))
             (monthly_totals_of filtered))
   = (if notna (cell (columns filtered) "month" r) then 1 else 0)%nat) /\
  (forall c : context,
      build_context filtered ss gs ms = inr c ->
      state_totals c = state_totals_of filtered /\
      gender_totals c = gender_totals_of filtered /\
      monthly_totals c = monthly_totals_of filtered).
Proof.
  intros Hr. split.
  - split; [| split]; try now apply groupby_sum_entries.
    unfold state_totals_of.
    rewrite (filter_length_perm _ _ _ (sort_values_desc_perm _)).
    now apply groupby_sum_entries.
  - intros c H. destruct (build_context_inr _ _ _ _ _ H) as (_ & A & B & C & _).
    now repeat split.
Qed.

Lemma context_one_entry_per_key_witness :
  In (Sample.record VNaN (VStr "Jan") 1 (VStr "M") (VNum (inject_Z 100)))
     (rows Sample.gap_df) /\
  List.length
    (filter (fun kv => value_eqb (fst kv) (VStr "M"))
            (gender_totals_of Sample.gap_df))
  = 1%nat /\
  List.length
    (filter (fun kv => value_eqb (fst kv) VNaN)
            (state_totals_of Sample.gap_df))
  = 0%nat.
Proof.
  assert (H : In (Sample.record VNaN (VStr "Jan") 1 (VStr "M") (VNum (inject_Z 100)))
                 (rows Sample.gap_df)) by (left; reflexivity).
  split; [exact H |].
  destruct (context_one_entry_per_key Sample.gap_df Sample.all
              Sample.all Sample.all _ H) as ((A & B & _) & _).
  split; [exact B | exact A].
Defined.

(** X11.  The per-gender and per-month mappings list their keys in
    ascending order (for month names, alphabetical order). *)
Theorem context_keys_ascending {P : platform} (filtered : DataFrame) :
  Sorted (fun a b => value_leb a b = true)
         (map fst (gender_totals_of filtered)) /\
  Sorted (fun a b => value_leb a b = true)
         (map fst (monthly_totals_of filtered)).
Proof.
  unfold gender_totals_of, monthly_totals_of.
  rewrite !map_fst_groupby_sum. split.
  - apply isort_ascending. exact value_leb_total.
  - apply isort_ascending. exact value_leb_total.
Qed.

(* ------------------------------------------------------------------ *)
(** ** The grand total (line 136) *)

(** X12.  The grand total is [int] of what the machine sum returned.  For
    a finite sum the context is built and its grand total is the sum cut
    towards zero: between 0 and the sum, less than one away from it.  For
    an infinite sum or one that is not a number, line 136 raises
    ([OverflowError], [ValueError]) and no context is built. *)
Theorem total_births_is_integer_part {P : platform}
        (filtered : DataFrame) (ss gs ms : list value) :
  match births_sum filtered with
  | Fin q =>
      exists c : context,
        build_context filtered ss gs ms = inr c /\
        ((0 <= q)%Q ->
         (0 <= total_births c)%Z /\
         (inject_Z (total_births c) <= q)%Q /\
         (q < inject_Z (total_births c) + 1)%Q) /\
        ((q <= 0)%Q ->
         (total_births c <= 0)%Z /\
         (q <= inject_Z (total_births c))%Q /\
         (inject_Z (total_births c) - 1 < q)%Q)
  | PosInf | NegInf =>
      build_context filtered ss gs ms = inl OverflowError /\
      prompt_context filtered ss gs ms = inl OverflowError
  | NotANumber =>
      build_context filtered ss gs ms = inl ValueError /\
      prompt_context filtered ss gs ms = inl ValueError
  end.
Proof.
  unfold prompt_context, build_context, total_births_of.
  destruct (births_sum filtered) as [q | | |]; simpl; try (split; reflexivity).
  eexists. split; [reflexivity |]. simpl. split.
  - apply py_int_floor.
  - apply py_int_ceiling.
Qed.

(* ------------------------------------------------------------------ *)
(** ** The chart aggregate (lines 85-89) *)

Section Grouping.
Context {K : Type} (eqb : K -> K -> bool).
Hypothesis eqb_sym : forall a b, eqb a b = eqb b a.
Hypothesis eqb_trans : forall a b c, eqb a b = true -> eqb b c = true -> eqb a c = true.

Lemma unique_by_count (z : K) (l : list K) :
  List.length (filter (fun k => eqb k z) (unique_by eqb l))
  = if existsb (fun y => eqb y z) l then 1%nat else 0%nat.
Proof.
  induction l as [| x xs IH]; simpl; trivial.
  rewrite filter_filter.
  destruct (eqb x z) eqn:E; simpl.
  - f_equal. rewrite (filter_ext _ (fun _ => false)).
    + apply filter_false_length.
    + intros k. destruct (eqb x k) eqn:F; simpl; trivial.
      destruct (eqb k z) eqn:G; trivial.
      rewrite eqb_sym in G.
      rewrite (eqb_trans x z k E G) in F. discriminate.
  - rewrite <- IH. f_equal. apply filter_ext. intros k.
    destruct (eqb x k) eqn:F; simpl; trivial.
    destruct (eqb k z) eqn:G; trivial.
    now rewrite (eqb_trans x k z F G) in E.
Qed.

Lemma group_sums_select_by (key : row -> K) (b : row -> Q)
      (ks : list K) (l : list row) :
  (forall z, (List.length (filter (fun k => eqb k z) ks) <= 1)%nat) ->
  (qsum (map (fun k => qsum (map b (filter (fun r => eqb k (key r)) l))) ks)
   == qsum (map (fun r =>
                   if (List.length (filter (fun k => eqb k (key r)) ks) =? 1)%nat
                   then b r else 0%Q) l))%Q.
Proof.
  intros Hks. induction l as [| r rs IH]; simpl.
  - apply qsum_zero.
  - rewrite <- IH.
    rewrite <- (qsum_add_selected (fun k => eqb k (key r))
                  (fun k => qsum (map b (filter (fun r0 => eqb k (key r0)) rs)))
                  (b r) ks (Hks (key r))).
    apply qsum_map_ext. intros k _.
    destruct (eqb k (key r)); simpl; reflexivity.
Qed.
End Grouping.

Lemma pair_eqb_sym (a b : value * value) : pair_eqb a b = pair_eqb b a.
Proof.
  unfold pair_eqb.
  now rewrite (value_eqb_sym (fst a)), (value_eqb_sym (snd a)).
Qed.

Lemma pair_eqb_trans (a b c : value * value) :
  pair_eqb a b = true -> pair_eqb b c = true -> pair_eqb a c = true.
Proof.
  unfold pair_eqb. rewrite !andb_true_iff.
  intros [H1 H2] [H3 H4]. split; eapply value_eqb_trans; eassumption.
Qed.

Lemma value_eqb_notna (a b : value) :
  value_eqb a b = true -> notna a = notna b.
Proof. destruct a, b; simpl; trivial; discriminate. Qed.


(** X13.  A row that has both a state and a gender counts in exactly one
    bar of the chart, and a row lacking either counts in none.  When the
    machine sums are exact on safe numbers and the measures are safe to
    add, the bars are finite and add up to the measure of the rows that
    have both. *)
Theorem chart_bars_total {P : platform} (df : DataFrame) (l1 l2 : string) :
  (forall r, In r (rows df) ->
             List.length
               (filter (fun bar => pair_eqb (fst bar) (key2 (columns df) l1 l2 r))
                       (groupby2_sum df l1 l2))
             = if notna (cell (columns df) l1 r) && notna (cell (columns df) l2 r)
               then 1%nat else 0%nat) /\
  (exact_sums P ->
   safe (map (births_of (columns df)) (rows df)) ->
   exists qs : list Q,
     map snd (groupby2_sum df l1 l2) = map Fin qs /\
     (qsum qs
      == qsum (map (births_of (columns df))
                   (filter (fun r => notna (cell (columns df) l1 r)
                                     && notna (cell (columns df) l2 r))
                           (rows df))))%Q).
Proof.
  set (cols := columns df).
  set (present := fun k : value * value => notna (fst k) && notna (snd k)).
  set (keys := filter present (map (key2 cols l1 l2) (rows df))).
  set (ks := isort pair_leb (unique_by pair_eqb keys)).
  assert (C : forall z,
             List.length (filter (fun k => pair_eqb k z) ks)
             = if existsb (fun y => pair_eqb y z) keys then 1%nat else 0%nat).
  { intros z. unfold ks.
    rewrite (filter_length_perm _ _ _ (isort_perm pair_leb _)).
    apply unique_by_count; [exact pair_eqb_sym | exact pair_eqb_trans]. }
  assert (Q : forall r, In r (rows df) ->
                        existsb (fun y => pair_eqb y (key2 cols l1 l2 r)) keys
                        = present (key2 cols l1 l2 r)).
  { intros r Hr. destruct (present (key2 cols l1 l2 r)) eqn:E.
    - apply existsb_exists. exists (key2 cols l1 l2 r). split.
      + apply filter_In. split; trivial. now apply in_map.
      + unfold pair_eqb. now rewrite !value_eqb_refl.
    - destruct (existsb _ keys) eqn:F; trivial.
      apply existsb_exists in F. destruct F as (y & Hy & Ey).
      apply filter_In in Hy. destruct Hy as [_ Hy].
      unfold pair_eqb in Ey. apply andb_true_iff in Ey. destruct Ey as [E1 E2].
      unfold present in *.
      rewrite (value_eqb_notna _ _ E1), (value_eqb_notna _ _ E2) in Hy.
      congruence. }
  split.
  - intros r Hr.
    rewrite (filter_length_map fst (fun k => pair_eqb k (key2 cols l1 l2 r))).
    assert (F : map fst (groupby2_sum df l1 l2) = ks).
    { unfold groupby2_sum. rewrite map_map. simpl. apply map_id. }
    rewrite F, C, (Q r Hr). reflexivity.
  - intros HP Hsafe.
    destruct (group_sums_exact HP (fun k r => pair_eqb k (key2 cols l1 l2 r))
                (births_of cols) (rows df) ks Hsafe) as (qs & E & Hq).
    exists qs. split.
    + unfold groupby2_sum. rewrite map_map. exact E.
    + rewrite Hq, (group_sums_select_by pair_eqb (key2 cols l1 l2)).
      * rewrite <- qsum_filter. apply qsum_map_ext. intros r Hr.
        rewrite C, (Q r Hr). unfold present, key2. simpl.
        destruct (notna (cell cols l1 r) && notna (cell cols l2 r)); reflexivity.
      * intros z. rewrite C. destruct (existsb _ _); lia.
Qed.

(** The sample frame: the bars 90, 100 and 50 add up to the 240 births. *)
Lemma chart_bars_total_witness :
  exact_sums reference /\
  safe (map (births_of (columns Sample.df)) (rows Sample.df)) /\
  exists qs : list Q,
    map snd (groupby2_sum Sample.df "state_of_residence" "sex_of_infant")
    = map Fin qs /\
    (qsum qs
     == qsum (map (births_of (columns Sample.df))
                  (filter (fun r => notna (cell (columns Sample.df) "state_of_residence" r)
                                    && notna (cell (columns Sample.df) "sex_of_infant" r))
                          (rows Sample.df))))%Q.
Proof.
  assert (S : safe (map (births_of (columns Sample.df)) (rows Sample.df))).
  { split.
    - simpl. intros q [<- | [<- | [<- | []]]];
        [exists 100%Z | exists 90%Z | exists 50%Z]; reflexivity.
    - vm_compute. reflexivity. }
  split; [exact reference_exact_sums |]. split; [exact S |].
  exact (proj2 (chart_bars_total Sample.df "state_of_residence" "sex_of_infant")
               reference_exact_sums S).
Defined.


(* ------------------------------------------------------------------ *)
(** ** The chat client (lines 188-208) *)

Lemma getitem_dict (key : string) (x v : pyval) :
  getitem key x = inr v -> exists l, x = PDict l.
Proof. destruct x; simpl; try discriminate. eauto. Qed.

(** X14.  The request yields a reply exactly when the secret is present,
    the post returns, the body decodes, and the decoded body is a
    dictionary whose "choices" is a non-empty list, whose first element is
    a dictionary with a dictionary under "message" that has a "content";
    the reply is then that content.  In every other case the assistant's
    text is the fallback. *)
Theorem completion_succeeds_iff (net : network) (ctx : context)
        (user_input : string) (r : pyval) :
  (completion net ctx user_input = inr r <->
   exists key resp body first rest message,
     secret net = Some key /\
     post net (chat_request key ctx user_input) = inr resp /\
     json resp = inr body /\
     getitem "choices" body = inr (PList (first :: rest)) /\
     getitem "message" first = inr message /\
     getitem "content" message = inr r /\
     (exists lb lf lm, body = PDict lb /\ first = PDict lf /\ message = PDict lm)) /\
  ((forall r', completion net ctx user_input <> inr r') ->
   chat_result net ctx user_input = PStr fallback).
Proof.
  split.
  - unfold completion, try_bind.
    split.
    + destruct (secret net) as [key |]; [| discriminate].
      cbv beta iota.
      destruct (post net _) as [e | resp] eqn:Hp; [discriminate |].
      destruct (json resp) as [e | body] eqn:Hj; [discriminate |].
      destruct (getitem "choices" body) as [e | choices] eqn:Hc; [discriminate |].
      destruct (getitem0 choices) as [e | first] eqn:H0; [discriminate |].
      destruct (getitem "message" first) as [e | message] eqn:Hm; [discriminate |].
      intros Hr.
      destruct (getitem_dict _ _ _ Hc) as [lb ->].
      destruct (getitem_dict _ _ _ Hm) as [lf ->].
      destruct (getitem_dict _ _ _ Hr) as [lm ->].
      destruct choices as [| | | s | [| y ys] | l]; simpl in H0; try discriminate.
      * destruct s; discriminate.
      * injection H0 as ->.
        exists key, resp, (PDict lb), (PDict lf), ys, (PDict lm).
        split; [reflexivity |]. split; [exact Hp |]. split; [exact Hj |].
        split; [exact Hc |]. split; [exact Hm |]. split; [exact Hr |].
        exists lb, lf, lm. repeat split.
    + intros (key & resp & body & first & rest & message
              & Hs & Hp & Hj & Hc & Hm & Hr & _).
      rewrite Hs. cbv beta iota. unfold chat_request in Hp.
      rewrite Hp, Hj, Hc. simpl. now rewrite Hm.
  - intros H. unfold chat_result.
    destruct (completion net ctx user_input) as [e | r'] eqn:E; trivial.
    now elim (H r').
Qed.


(* ------------------------------------------------------------------ *)
(** ** The analyst section and the conversation (lines 116-213) *)

(** What one execution adds to the conversation: nothing, the user's turn,
    or the user's turn and the assistant's. *)
Lemma exchange_shape {P : platform} (i : interaction) (filtered : DataFrame)
      (ss gs ms : list value) :
  exchange i filtered ss gs ms = [] \/
  map role (exchange i filtered ss gs ms) = ["user"] \/
  map role (exchange i filtered ss gs ms) = ["user"; "assistant"].
Proof.
  unfold exchange. destruct (submitted (chat_text i)); [| now left].
  right. destruct (prompt_context filtered ss gs ms); [left | right]; reflexivity.
Qed.

(** X15.  The analyst section ends at its last line, or in an exception
    when a question was submitted and lines 136-186 raise.  Either way it
    shows the stored conversation in order, then the input box, then the
    turns it adds, and the chat messages on screen are, in order, exactly
    the conversation it leaves in the session. *)
Theorem analyst_shows_the_conversation {P : platform}
        (i : interaction) (filtered : DataFrame) (ss gs ms : list value) (u0 : ui) :
  exists u1 shown,
    analyst i filtered ss gs ms u0
    = (u1, if answers i filtered ss gs ms then inl tt else inr Raised) /\
    (answers i filtered ss gs ms = false ->
     exists user_input e,
       submitted (chat_text i) = Some user_input /\
       prompt_context filtered ss gs ms = inl e) /\
    trace u1 = trace u0 ++ shown /\
    shown = transcript (conversation (messages u0)) (exchange i filtered ss gs ms) /\
    messages u1
    = Some (conversation (messages u0) ++ exchange i filtered ss gs ms) /\
    filter is_chat_message shown = map render_turn (conversation (messages u1)).
Proof.
  eexists. eexists. split; [apply analyst_eq |].
  split; [| split; [reflexivity |]; split; [reflexivity |]; split; [reflexivity |]].
  - unfold answers. destruct (submitted (chat_text i)) as [user_input |];
      [| discriminate].
    destruct (prompt_context filtered ss gs ms) as [e | ctx]; [| discriminate].
    intros _. now exists user_input, e.
  - unfold transcript. simpl.
    rewrite filter_app. simpl. rewrite !filter_chat_render.
    now rewrite map_app.
Qed.

Section Sessions.
Context {P : platform}.
Variable parse : string -> option Q.

(** X16.  An execution that stops at an error or at the warning, or that
    is given no question, leaves the conversation as it found it; when it
    does not reach its last line either, the session entry itself is
    unchanged. *)
Theorem conversation_untouched
        (i : interaction) (session : option (list turn)) (u : ui) (o : outcome) :
  run parse i session = (u, o) ->
  o = Stopped \/ submitted (chat_text i) = None ->
  conversation (messages u) = conversation session /\
  (o <> Completed -> messages u = session).
Proof.
  intros Hrun Hc.
  destruct (run_cases parse i session)
    as [(tr & o' & Ho & R) | (f & ss & gs & ms & tr & R)];
    rewrite R in Hrun; injection Hrun as <- <-.
  - split; trivial.
  - assert (N : submitted (chat_text i) = None).
    { destruct Hc as [Hc | Hc]; trivial.
      destruct (answers i f ss gs ms); discriminate. }
    unfold answers, exchange. rewrite N. simpl. split.
    + now rewrite app_nil_r.
    + intros H. now elim H.
Qed.

(** X17.  Over any sequence of executions of one session the conversation
    only grows at its end: what was there stays, in order, and each
    execution adds nothing, a user turn alone (when lines 136-186 raise),
    or a user turn followed by an assistant turn. *)
Theorem conversation_append_only
        (steps : list interaction) (session : option (list turn)) :
  exists blocks : list (list turn),
    conversation (session_after parse steps session)
    = conversation session ++ List.concat blocks /\
    (List.length blocks <= List.length steps)%nat /\
    Forall (fun b => map role b = ["user"] \/ map role b = ["user"; "assistant"])
           blocks.
Proof.
  revert session. induction steps as [| i rest IH]; intros session; simpl.
  - exists []. simpl. rewrite app_nil_r. repeat split; trivial.
  - destruct (IH (messages (fst (run parse i session)))) as (blocks & E & L & F).
    destruct (run_cases parse i session)
      as [(tr & o & Ho & Hr) | (f & ss & gs & ms & tr & Hr)];
      rewrite Hr in E |- *; simpl in E |- *.
    + exists blocks. split; [exact E |]. split; [lia | exact F].
    + destruct (exchange_shape i f ss gs ms) as [X | X].
      * rewrite X in E |- *. rewrite app_nil_r in E |- *. exists blocks.
        split; [exact E |]. split; [lia | exact F].
      * exists (exchange i f ss gs ms :: blocks). split; [| split].
        -- simpl. now rewrite E, <- app_assoc.
        -- simpl. lia.
        -- constructor; trivial.
Qed.

(** How an execution ends. *)
Lemma run_outcome_eq (i : interaction) (session : option (list turn)) :
  snd (run parse i session)
  = match load_data i with
    | None => Stopped
    | Some df_raw =>
        match normalize parse df_raw with
        | MissingColumns _ => Stopped
        | NotASeries => Raised
        | Clean df =>
            match options df "state_of_residence",
                  options df "sex_of_infant",
                  options df "month" with
            | Some _, Some _, Some _ =>
                let filtered :=
                  filter_engine df (state_choice i) (gender_choice i) (month_choice i) in
                if empty filtered then Stopped
                else if distinct (columns df)
                        && answers i filtered (state_choice i) (gender_choice i)
                                   (month_choice i)
                     then Completed else Raised
            | _, _, _ => Raised
            end
        end
    end.
Proof.
  destruct (load_data i) as [df_raw |] eqn:Hl.
  2:{ now rewrite (run_no_file parse i session Hl). }
  destruct (normalize parse df_raw) as [names | | df] eqn:Hn.
  1:{ now rewrite (run_missing_columns parse i session df_raw names Hl Hn). }
  1:{ unfold run, app. now rewrite Hl, Hn. }
  destruct (options df "state_of_residence") as [states |] eqn:Hs.
  2:{ unfold run, app. rewrite Hl, Hn, !bind_emit.
      now rewrite (bind_halt_of _ _ _ _ _ (option_list_none _ _ _ Hs)). }
  destruct (options df "sex_of_infant") as [genders |] eqn:Hg.
  2:{ unfold run, app. rewrite Hl, Hn, !bind_emit.
      rewrite (bind_ret_of _ _ _ _ _ (option_list_some _ _ _ _ Hs)).
      now rewrite (bind_halt_of _ _ _ _ _ (option_list_none _ _ _ Hg)). }
  destruct (options df "month") as [months |] eqn:Hm.
  2:{ unfold run, app. rewrite Hl, Hn, !bind_emit.
      rewrite (bind_ret_of _ _ _ _ _ (option_list_some _ _ _ _ Hs)).
      rewrite (bind_ret_of _ _ _ _ _ (option_list_some _ _ _ _ Hg)).
      now rewrite (bind_halt_of _ _ _ _ _ (option_list_none _ _ _ Hm)). }
  cbv zeta.
  destruct (empty (filter_engine df (state_choice i) (gender_choice i)
                                 (month_choice i))) eqn:He.
  - unfold run.
    rewrite (run_filtered parse i session df_raw df states genders months
                          Hl Hn Hs Hg Hm).
    now rewrite He.
  - rewrite (run_dashboard parse i session df_raw df states genders months
                           Hl Hn Hs Hg Hm He).
    destruct (distinct (columns df)); reflexivity.
Qed.

(** X18.  An execution reaches its last line exactly when the file is
    read, the normaliser hands over a frame, the three option lists can be
    built, the filter leaves a row, no two columns carry one label, and
    the analyst section answers (no question, or lines 136-186 do not
    raise).  It ends in an exception exactly when two columns are called
    births, or an option list cannot be built, or the filter leaves a row
    and either two columns carry one label or lines 136-186 raise on a
    question.  In every other case it stops at an error or at the
    warning. *)
Theorem run_outcome (i : interaction) (session : option (list turn)) :
  (snd (run parse i session) = Completed <->
   exists df_raw df states genders months,
     load_data i = Some df_raw /\
     normalize parse df_raw = Clean df /\
     options df "state_of_residence" = Some states /\
     options df "sex_of_infant" = Some genders /\
     options df "month" = Some months /\
     empty (filter_engine df (state_choice i) (gender_choice i) (month_choice i))
     = false /\
     distinct (columns df) = true /\
     answers i (filter_engine df (state_choice i) (gender_choice i) (month_choice i))
             (state_choice i) (gender_choice i) (month_choice i) = true) /\
  (snd (run parse i session) = Raised <->
   exists df_raw,
     load_data i = Some df_raw /\
     (normalize parse df_raw = NotASeries \/
      exists df,
        normalize parse df_raw = Clean df /\
        (options df "state_of_residence" = None \/
         options df "sex_of_infant" = None \/
         options df "month" = None \/
         (empty (filter_engine df (state_choice i) (gender_choice i) (month_choice i))
          = false /\
          (distinct (columns df) = false \/
           answers i (filter_engine df (state_choice i) (gender_choice i)
                                    (month_choice i))
                   (state_choice i) (gender_choice i) (month_choice i) = false))))).
Proof.
  rewrite run_outcome_eq.
  destruct (load_data i) as [df_raw |] eqn:Hl.
  2:{ split; split; try discriminate.
      - intros (? & ? & ? & ? & ? & H & _). discriminate.
      - intros (? & H & _). discriminate. }
  destruct (normalize parse df_raw) as [names | | df] eqn:Hn.
  - split; split; try discriminate.
    + intros (d & ? & ? & ? & ? & [= <-] & H & _). congruence.
    + intros (d & [= <-] & [H | (? & H & _)]); congruence.
  - split; split; try discriminate; try (intros _; reflexivity).
    + intros (d & ? & ? & ? & ? & [= <-] & H & _). congruence.
    + intros _. exists df_raw. split; trivial. now left.
  - assert (NC :
               (exists d df0 states genders months,
                   Some df_raw = Some d /\ normalize parse d = Clean df0 /\
                   options df0 "state_of_residence" = Some states /\
                   options df0 "sex_of_infant" = Some genders /\
                   options df0 "month" = Some months /\
                   empty (filter_engine df0 (state_choice i) (gender_choice i)
                                        (month_choice i)) = false /\
                   distinct (columns df0) = true /\
                   answers i (filter_engine df0 (state_choice i) (gender_choice i)
                                            (month_choice i))
                           (state_choice i) (gender_choice i) (month_choice i) = true) ->
               exists states genders months,
                 options df "state_of_residence" = Some states /\
                 options df "sex_of_infant" = Some genders /\
                 options df "month" = Some months /\
                 empty (filter_engine df (state_choice i) (gender_choice i)
                                      (month_choice i)) = false /\
                 distinct (columns df) = true /\
                 answers i (filter_engine df (state_choice i) (gender_choice i)
                                          (month_choice i))
                         (state_choice i) (gender_choice i) (month_choice i) = true).
    { intros (d & df0 & a & b & c & [= <-] & H & H1 & H2 & H3 & H4 & H5 & H6).
      assert (df0 = df) by congruence. subst df0.
      exists a, b, c. repeat split; assumption. }
    assert (NR : (exists d, Some df_raw = Some d /\
                   (normalize parse d = NotASeries \/
                    exists df0, normalize parse d = Clean df0 /\
                      (options df0 "state_of_residence" = None \/
                       options df0 "sex_of_infant" = None \/
                       options df0 "month" = None \/
                       (empty (filter_engine df0 (state_choice i) (gender_choice i)
                                             (month_choice i)) = false /\
                        (distinct (columns df0) = false \/
                         answers i (filter_engine df0 (state_choice i) (gender_choice i)
                                                  (month_choice i))
                                 (state_choice i) (gender_choice i) (month_choice i)
                         = false))))) ->
                 options df "state_of_residence" = None \/
                 options df "sex_of_infant" = None \/
                 options df "month" = None \/
                 (empty (filter_engine df (state_choice i) (gender_choice i)
                                       (month_choice i)) = false /\
                  (distinct (columns df) = false \/
                   answers i (filter_engine df (state_choice i) (gender_choice i)
                                            (month_choice i))
                           (state_choice i) (gender_choice i) (month_choice i)
                   = false))).
    { intros (d & [= <-] & [H | (df0 & H & K)]); [congruence |].
      assert (df0 = df) by congruence. now subst df0. }
    assert (RA :
               (options df "state_of_residence" = None \/
                options df "sex_of_infant" = None \/
                options df "month" = None \/
                (empty (filter_engine df (state_choice i) (gender_choice i)
                                      (month_choice i)) = false /\
                 (distinct (columns df) = false \/
                  answers i (filter_engine df (state_choice i) (gender_choice i)
                                           (month_choice i))
                          (state_choice i) (gender_choice i) (month_choice i)
                  = false))) ->
               exists d, Some df_raw = Some d /\
                 (normalize parse d = NotASeries \/
                  exists df0, normalize parse d = Clean df0 /\
                    (options df0 "state_of_residence" = None \/
                     options df0 "sex_of_infant" = None \/
                     options df0 "month" = None \/
                     (empty (filter_engine df0 (state_choice i) (gender_choice i)
                                           (month_choice i)) = false /\
                      (distinct (columns df0) = false \/
                       answers i (filter_engine df0 (state_choice i) (gender_choice i)
                                                (month_choice i))
                               (state_choice i) (gender_choice i) (month_choice i)
                       = false))))).
    { intros H. exists df_raw. split; trivial. right. exists df. now split. }
    destruct (options df "state_of_residence") as [states |] eqn:Hs.
    2:{ split; split; try discriminate; try (intros _; reflexivity).
        - intros H. destruct (NC H) as (? & ? & ? & K & _). discriminate.
        - intros _. apply RA. now left. }
    destruct (options df "sex_of_infant") as [genders |] eqn:Hg.
    2:{ split; split; try discriminate; try (intros _; reflexivity).
        - intros H. destruct (NC H) as (? & ? & ? & _ & K & _). discriminate.
        - intros _. apply RA. right. now left. }
    destruct (options df "month") as [months |] eqn:Hm.
    2:{ split; split; try discriminate; try (intros _; reflexivity).
        - intros H. destruct (NC H) as (? & ? & ? & _ & _ & K & _). discriminate.
        - intros _. apply RA. right. right. now left. }
    cbv zeta.
    destruct (empty _) eqn:He.
    + split; split; try discriminate.
      * intros H. destruct (NC H) as (? & ? & ? & _ & _ & _ & K & _). discriminate.
      * intros H. destruct (NR H) as [K | [K | [K | [K _]]]]; discriminate.
    + destruct (distinct (columns df)) eqn:D; simpl.
      * destruct (answers i _ _ _ _) eqn:A.
        -- split; split; try discriminate; try (intros _; reflexivity).
           ++ intros _. exists df_raw, df, states, genders, months.
              repeat split; trivial.
           ++ intros H.
              destruct (NR H) as [K | [K | [K | [_ [K | K]]]]]; discriminate.
        -- split; split; try discriminate; try (intros _; reflexivity).
           ++ intros H. destruct (NC H) as (? & ? & ? & _ & _ & _ & _ & _ & K).
              discriminate.
           ++ intros _. apply RA. right. right. right. split; trivial. now right.
      * split; split; try discriminate; try (intros _; reflexivity).
        -- intros H. destruct (NC H) as (? & ? & ? & _ & _ & _ & _ & K & _).
           discriminate.
        -- intros _. apply RA. right. right. right. split; trivial. now left.
Qed.
End Sessions.

(** The warning leaves a conversation of one turn as it was. *)
Lemma conversation_untouched_witness :
  run decimal_literal Sample.no_match (Some [mkTurn "user" (PStr "Hello")])
  = (fst (run decimal_literal Sample.no_match (Some [mkTurn "user" (PStr "Hello")])),
     Stopped) /\
  (Stopped = Stopped \/ submitted (chat_text Sample.no_match) = None) /\
  messages (fst (run decimal_literal Sample.no_match
                     (Some [mkTurn "user" (PStr "Hello")])))
  = Some [mkTurn "user" (PStr "Hello")].
Proof.
  assert (H : run decimal_literal Sample.no_match (Some [mkTurn "user" (PStr "Hello")])
              = (fst (run decimal_literal Sample.no_match
                          (Some [mkTurn "user" (PStr "Hello")])),
                 Stopped)) by (vm_compute; reflexivity).
  assert (C : Stopped = Stopped \/ submitted (chat_text Sample.no_match) = None)
    by (left; reflexivity).
  split; [exact H |]. split; [exact C |].
  apply (proj2 (conversation_untouched decimal_literal Sample.no_match _ _ _ H C)).
  discriminate.
Defined.

(* ------------------------------------------------------------------ *)
(** ** Executions that reach the dashboard, and files without counts *)

Lemma filter_none {A} (p : A -> bool) (l : list A) :
  (forall x, In x l -> p x = false) -> filter p l = [].
Proof.
  induction l as [| x xs IH]; intros H; simpl; trivial.
  rewrite (H x (or_introl eq_refl)). apply IH. intros y Hy. apply H. now right.
Qed.

Lemma options_no_rows (df : DataFrame) (label : string) :
  rows df = [] -> label_count label (columns df) = 1%nat ->
  options df label = Some [].
Proof.
  intros Hr Hc. unfold options, series. now rewrite Hc, Hr.
Qed.


Section Dashboard.
Context {P : platform}.
Variable parse : string -> option Q.

(** X19.  When the file is read, normalised, the option lists are built,
    the filter leaves a row, no two columns carry one label and the
    analyst section answers, the execution reaches its last line whatever
    the endpoint does: it renders the page header, the sidebar, the chart
    of the filtered frame grouped by state and gender, the table of the
    filtered frame itself, and the analyst section, and leaves the
    conversation extended by the turns of that section. *)
Theorem successful_execution
        (i : interaction) (session : option (list turn))
        (df_raw df : DataFrame) (states genders months : list value) :
  load_data i = Some df_raw ->
  normalize parse df_raw = Clean df ->
  options df "state_of_residence" = Some states ->
  options df "sex_of_infant" = Some genders ->
  options df "month" = Some months ->
  empty (filter_engine df (state_choice i) (gender_choice i) (month_choice i))
  = false ->
  distinct (columns df) = true ->
  answers i (filter_engine df (state_choice i) (gender_choice i) (month_choice i))
          (state_choice i) (gender_choice i) (month_choice i) = true ->
  run parse i session
  = (mkUi (preamble
           ++ sidebar states genders months
           ++ [ PlotlyChart
                  (groupby2_sum
                     (filter_engine df (state_choice i) (gender_choice i) (month_choice i))
                     "state_of_residence" "sex_of_infant");
                Subheader "Filtered Records";
                Dataframe
                  (filter_engine df (state_choice i) (gender_choice i) (month_choice i)) ]
           ++ transcript
                (conversation session)
                (exchange i
                   (filter_engine df (state_choice i) (gender_choice i) (month_choice i))
                   (state_choice i) (gender_choice i) (month_choice i)))
          (Some (conversation session
                 ++ exchange i
                      (filter_engine df (state_choice i) (gender_choice i) (month_choice i))
                      (state_choice i) (gender_choice i) (month_choice i))),
     Completed).
Proof.
  intros Hl Hn Hs Hg Hm He Hd Ha.
  rewrite (run_dashboard parse i session df_raw df states genders months
                         Hl Hn Hs Hg Hm He).
  now rewrite Hd, Ha.
Qed.

(** X20.  When no row of the file has a measure that coerces to a number
    (an empty file included), the normalised frame has no row, the three
    controls offer "All" only, and every execution ends at the warning,
    whatever is selected. *)
Theorem no_measure_no_dashboard
        (i : interaction) (session : option (list turn)) (df_raw df : DataFrame) :
  load_data i = Some df_raw ->
  normalize parse df_raw = Clean df ->
  (forall r, In r (rows df_raw) ->
             to_numeric parse (cell (columns df) "births" r) = VNaN) ->
  label_count "state_of_residence" (columns df) = 1%nat ->
  label_count "sex_of_infant" (columns df) = 1%nat ->
  label_count "month" (columns df) = 1%nat ->
  rows df = [] /\
  run parse i session
  = (mkUi (preamble ++ sidebar [] [] []
           ++ [Warning "No data matches selected filters."])
          session,
     Stopped).
Proof.
  intros Hl Hn Hv C1 C2 C3.
  assert (R : rows df = []).
  { destruct (normalize_clean_shape parse df_raw df Hn)
      as (_ & _ & _ & g & Hrows & Hcell & _).
    rewrite Hrows. apply filter_none. intros r Hr.
    apply in_map_iff in Hr. destruct Hr as (r0 & <- & Hr0).
    now rewrite Hcell, (Hv r0 Hr0). }
  split; trivial. unfold run.
  rewrite (run_filtered parse i session df_raw df [] [] [] Hl Hn
             (options_no_rows _ _ R C1) (options_no_rows _ _ R C2)
             (options_no_rows _ _ R C3)).
  assert (E : empty (filter_engine df (state_choice i) (gender_choice i)
                                   (month_choice i)) = true).
  { unfold empty. now rewrite filter_engine_rows, R. }
  rewrite E. simpl. reflexivity.
Qed.
End Dashboard.

(** The sample file, California selected, the endpoint out of reach. *)
Lemma successful_execution_witness :
  load_data (Sample.question Sample.offline) = Some Sample.raw /\
  normalize decimal_literal Sample.raw = Clean Sample.df /\
  options Sample.df "state_of_residence" = Some [VStr "CA"; VStr "TX"] /\
  options Sample.df "sex_of_infant" = Some [VStr "F"; VStr "M"] /\
  options Sample.df "month" = Some [VStr "Feb"; VStr "Jan"] /\
  empty (filter_engine Sample.df (state_choice (Sample.question Sample.offline))
                       (gender_choice (Sample.question Sample.offline))
                       (month_choice (Sample.question Sample.offline))) = false /\
  distinct (columns Sample.df) = true /\
  answers (Sample.question Sample.offline)
          (filter_engine Sample.df (state_choice (Sample.question Sample.offline))
                         (gender_choice (Sample.question Sample.offline))
                         (month_choice (Sample.question Sample.offline)))
          (state_choice (Sample.question Sample.offline))
          (gender_choice (Sample.question Sample.offline))
          (month_choice (Sample.question Sample.offline)) = true /\
  snd (run decimal_literal (Sample.question Sample.offline) None) = Completed.
Proof.
  assert (H1 : load_data (Sample.question Sample.offline) = Some Sample.raw)
    by reflexivity.
  assert (H2 : normalize decimal_literal Sample.raw = Clean Sample.df)
    by reflexivity.
  assert (H3 : options Sample.df "state_of_residence" = Some [VStr "CA"; VStr "TX"])
    by reflexivity.
  assert (H4 : options Sample.df "sex_of_infant" = Some [VStr "F"; VStr "M"])
    by reflexivity.
  assert (H5 : options Sample.df "month" = Some [VStr "Feb"; VStr "Jan"])
    by reflexivity.
  assert (H6 : empty (filter_engine Sample.df
                        (state_choice (Sample.question Sample.offline))
                        (gender_choice (Sample.question Sample.offline))
                        (month_choice (Sample.question Sample.offline))) = false)
    by reflexivity.
  assert (H7 : distinct (columns Sample.df) = true) by reflexivity.
  assert (H8 : answers (Sample.question Sample.offline)
                 (filter_engine Sample.df (state_choice (Sample.question Sample.offline))
                                (gender_choice (Sample.question Sample.offline))
                                (month_choice (Sample.question Sample.offline)))
                 (state_choice (Sample.question Sample.offline))
                 (gender_choice (Sample.question Sample.offline))
                 (month_choice (Sample.question Sample.offline)) = true)
    by (vm_compute; reflexivity).
  repeat (split; [assumption |]).
  rewrite (successful_execution decimal_literal (Sample.question Sample.offline) None
             Sample.raw Sample.df _ _ _ H1 H2 H3 H4 H5 H6 H7 H8).
  reflexivity.
Defined.

(** A file whose only count reads "Suppressed". *)
Lemma no_measure_no_dashboard_witness :
  load_data Sample.suppressed = Some Sample.suppressed_raw /\
  normalize decimal_literal Sample.suppressed_raw = Clean (mkDF Sample.labels []) /\
  (forall r, In r (rows Sample.suppressed_raw) ->
             to_numeric decimal_literal (cell Sample.labels "births" r) = VNaN) /\
  label_count "state_of_residence" Sample.labels = 1%nat /\
  label_count "sex_of_infant" Sample.labels = 1%nat /\
  label_count "month" Sample.labels = 1%nat /\
  snd (run decimal_literal Sample.suppressed None) = Stopped.
Proof.
  assert (H1 : load_data Sample.suppressed = Some Sample.suppressed_raw)
    by reflexivity.
  assert (H2 : normalize decimal_literal Sample.suppressed_raw
               = Clean (mkDF Sample.labels [])) by reflexivity.
  assert (H3 : forall r, In r (rows Sample.suppressed_raw) ->
                         to_numeric decimal_literal (cell Sample.labels "births" r) = VNaN)
    by (intros r [<- | []]; reflexivity).
  assert (C1 : label_count "state_of_residence" Sample.labels = 1%nat) by reflexivity.
  assert (C2 : label_count "sex_of_infant" Sample.labels = 1%nat) by reflexivity.
  assert (C3 : label_count "month" Sample.labels = 1%nat) by reflexivity.
  repeat (split; [assumption |]).
  rewrite (proj2 (no_measure_no_dashboard decimal_literal Sample.suppressed None
                    Sample.suppressed_raw (mkDF Sample.labels []) H1 H2 H3 C1 C2 C3)).
  reflexivity.
Defined.

(* ------------------------------------------------------------------ *)
(** ** When an option list cannot be built (lines 57-59) *)

Lemma forallb_unique (f : value -> bool) (l : list value) :
  (forall a b, value_eqb a b = true -> f a = f b) ->
  forallb f (unique l) = forallb f l.
Proof.
  intros Hf. unfold unique. induction l as [| x xs IH]; simpl; trivial.
  rewrite <- IH. clear IH. destruct (f x) eqn:E; simpl; trivial.
  induction (unique_by value_eqb xs) as [| y ys IHy]; simpl; trivial.
  destruct (value_eqb x y) eqn:F; simpl.
  - rewrite <- (Hf x y F), E. simpl. apply IHy.
  - now rewrite IHy.
Qed.

Lemma forallb_false {A} (f : A -> bool) (l : list A) :
  forallb f l = false <-> exists x, In x l /\ f x = false.
Proof.
  induction l as [| x xs IH]; simpl.
  - split; [discriminate | intros (x & [] & _)].
  - destruct (f x) eqn:E; simpl.
    + rewrite IH. split.
      * intros (y & Hy & Fy). eauto.
      * intros (y & [<- | Hy] & Fy); [congruence | eauto].
    + split; trivial. intros _. eauto.
Qed.

(** X21.  An option list cannot be built, and the execution ends in an
    exception, exactly when the label names no single column or the
    column holds both a number and a text; a column of one kind, with or
    without missing cells, always yields its list. *)
Theorem options_fail_iff (df : DataFrame) (label : string) :
  options df label = None <->
  label_count label (columns df) <> 1%nat \/
  exists a b,
    In a (series df label) /\ In b (series df label) /\
    is_num a = true /\ is_str b = true.
Proof.
  unfold options, sorted.
  destruct (label_count label (columns df) =? 1)%nat eqn:C.
  2:{ apply Nat.eqb_neq in C. split; auto. }
  apply Nat.eqb_eq in C.
  rewrite !forallb_unique
    by (intros a b E; destruct a, b; simpl in *; trivial; discriminate).
  destruct (forallb is_num (filter notna (series df label))) eqn:N; simpl.
  - split; [discriminate |]. intros [H | (a & b & Ha & Hb & Na & Sb)]; [contradiction |].
    exfalso. rewrite forallb_forall in N.
    assert (Hb' : In b (filter notna (series df label))).
    { apply filter_In. split; trivial. destruct b; try discriminate; reflexivity. }
    specialize (N b Hb'). destruct b; discriminate.
  - destruct (forallb is_str (filter notna (series df label))) eqn:S.
    + split; [discriminate |].
      intros [H | (a & b & Ha & Hb & Na & Sb)]; [contradiction |].
      exfalso. rewrite forallb_forall in S.
      assert (Ha' : In a (filter notna (series df label))).
      { apply filter_In. split; trivial. destruct a; try discriminate; reflexivity. }
      specialize (S a Ha'). destruct a; discriminate.
    + split; trivial. intros _. right.
      apply forallb_false in N. destruct N as (b & Hb & Nb).
      apply forallb_false in S. destruct S as (a & Ha & Sa).
      apply filter_In in Ha. apply filter_In in Hb.
      exists a, b. repeat split; try tauto.
      * destruct a; simpl in *; trivial; destruct Ha; discriminate.
      * destruct b; simpl in *; trivial; destruct Hb; discriminate.
Qed.

(* ------------------------------------------------------------------ *)
(** ** Questions that are answered (lines 128-213) *)

Lemma groupby_sum_keys_text {P : platform} (df : DataFrame) (label : string) :
  (forall r, In r (rows df) -> is_num (cell (columns df) label r) = false) ->
  forallb is_str (map fst (groupby_sum df label)) = true.
Proof.
  intros H. rewrite map_fst_groupby_sum. apply forallb_forall. intros k Hk.
  destruct (group_key_observed df label k Hk) as [Hna (r & Hr & E)].
  specialize (H r Hr). rewrite E in H.
  destruct k; trivial; [discriminate | congruence].
Qed.

(** X22.  When the machine sums are exact on safe numbers and [json.dumps]
    accepts the contexts made of texts, a question put to a filtered frame
    whose measures are safe to add, whose state, gender and month cells
    hold no number, and with selections made of texts, is answered: the
    context is built and serialised, the analyst section runs to its end,
    and the conversation is longer by the user's turn and the assistant's
    turn. *)
Theorem submission_is_answered {P : platform}
        (i : interaction) (filtered : DataFrame) (ss gs ms : list value)
        (u0 : ui) (user_input : string) :
  exact_sums P ->
  serialises_text P ->
  submitted (chat_text i) = Some user_input ->
  safe (map (births_of (columns filtered)) (rows filtered)) ->
  (forall r, In r (rows filtered) ->
             is_num (cell (columns filtered) "state_of_residence" r) = false /\
             is_num (cell (columns filtered) "sex_of_infant" r) = false /\
             is_num (cell (columns filtered) "month" r) = false) ->
  forallb is_str ss = true ->
  forallb is_str gs = true ->
  forallb is_str ms = true ->
  exists ctx u1,
    prompt_context filtered ss gs ms = inr ctx /\
    analyst i filtered ss gs ms u0 = (u1, inl tt) /\
    messages u1
    = Some (conversation (messages u0)
            ++ [ mkTurn "user" (PStr user_input);
                 mkTurn "assistant" (chat_result (net i) ctx user_input) ]).
Proof.
  intros HP HJ Hsub Hsafe Hcells Hs Hg Hm.
  destruct (total_births_exact HP filtered Hsafe) as (z & Ez & _).
  assert (B : build_context filtered ss gs ms
              = inr {| total_births := z;
                       state_totals := state_totals_of filtered;
                       gender_totals := gender_totals_of filtered;
                       monthly_totals := monthly_totals_of filtered;
                       filters_applied := (ss, gs, ms) |}).
  { unfold build_context. now rewrite Ez. }
  assert (C : prompt_context filtered ss gs ms
              = inr {| total_births := z;
                       state_totals := state_totals_of filtered;
                       gender_totals := gender_totals_of filtered;
                       monthly_totals := monthly_totals_of filtered;
                       filters_applied := (ss, gs, ms) |}).
  { unfold prompt_context. rewrite B. simpl. rewrite HJ; [reflexivity |].
    unfold textual. simpl. rewrite Hs, Hg, Hm, !andb_true_r.
    rewrite !andb_true_iff. repeat split.
    - unfold state_totals_of.
      rewrite (forallb_perm _ _ _ (Permutation_map fst (sort_values_desc_perm _))).
      apply groupby_sum_keys_text. intros r Hr. apply (Hcells r Hr).
    - apply groupby_sum_keys_text. intros r Hr. apply (Hcells r Hr).
    - apply groupby_sum_keys_text. intros r Hr. apply (Hcells r Hr). }
  eexists. eexists. split; [exact C |]. rewrite analyst_eq.
  unfold answers, exchange. rewrite Hsub, C. split; reflexivity.
Qed.

(** The sample frame, nothing restricted, the endpoint answering. *)
Lemma submission_is_answered_witness :
  exact_sums reference /\
  serialises_text reference /\
  submitted (chat_text (Sample.question Sample.online)) = Some "Why?" /\
  safe (map (births_of (columns Sample.df)) (rows Sample.df)) /\
  (forall r, In r (rows Sample.df) ->
             is_num (cell (columns Sample.df) "state_of_residence" r) = false /\
             is_num (cell (columns Sample.df) "sex_of_infant" r) = false /\
             is_num (cell (columns Sample.df) "month" r) = false) /\
  forallb is_str Sample.all = true /\
  exists ctx u1,
    prompt_context Sample.df Sample.all Sample.all Sample.all = inr ctx /\
    analyst (Sample.question Sample.online) Sample.df Sample.all Sample.all
            Sample.all (mkUi [] None) = (u1, inl tt) /\
    messages u1
    = Some (conversation None
            ++ [ mkTurn "user" (PStr "Why?");
                 mkTurn "assistant"
                        (chat_result Sample.online ctx "Why?") ]).
Proof.
  assert (S : safe (map (births_of (columns Sample.df)) (rows Sample.df))).
  { split.
    - simpl. intros q [<- | [<- | [<- | []]]];
        [exists 100%Z | exists 90%Z | exists 50%Z]; reflexivity.
    - vm_compute. reflexivity. }
  assert (T : forall r, In r (rows Sample.df) ->
                is_num (cell (columns Sample.df) "state_of_residence" r) = false /\
                is_num (cell (columns Sample.df) "sex_of_infant" r) = false /\
                is_num (cell (columns Sample.df) "month" r) = false)
    by (simpl; intros r [<- | [<- | [<- | []]]]; repeat split).
  split; [exact reference_exact_sums |].
  split; [exact reference_serialises_text |].
  split; [reflexivity |]. split; [exact S |]. split; [exact T |].
  split; [reflexivity |].
  exact (submission_is_answered (Sample.question Sample.online) Sample.df
           Sample.all Sample.all Sample.all (mkUi [] None) "Why?"
           reference_exact_sums reference_serialises_text eq_refl S T
           eq_refl eq_refl eq_refl).
Defined.


(* ------------------------------------------------------------------ *)
(** ** Column labels of ASCII characters (line 31) *)

Lemma skip_spaces_length (l : list ascii) :
  (List.length (skip_spaces l) <= List.length l)%nat.
Proof.
  induction l as [| c l IH]; simpl; trivial.
  destruct (Text.is_space c); simpl; lia.
Qed.

Lemma skip_spaces_idem (l : list ascii) :
  skip_spaces (skip_spaces l) = skip_spaces l.
Proof.
  induction l as [| c l IH]; simpl; trivial.
  destruct (Text.is_space c) eqn:E; trivial. simpl. now rewrite E.
Qed.

(** A text fixed by [skip_spaces] is empty or begins with a character that
    is not white space. *)
Lemma skip_spaces_fixed (l : list ascii) :
  skip_spaces l = l <->
  l = [] \/ exists a l', l = a :: l' /\ Text.is_space a = false.
Proof.
  split.
  - destruct l as [| a l']; [now left |]. simpl.
    destruct (Text.is_space a) eqn:E.
    + intros H. pose proof (skip_spaces_length l') as L.
      rewrite H in L. simpl in L. lia.
    + intros _. right. now exists a, l'.
  - intros [-> | (a & l' & -> & E)]; simpl; trivial. now rewrite E.
Qed.

Lemma skip_spaces_snoc (l : list ascii) (a : ascii) :
  Text.is_space a = false -> skip_spaces (l ++ [a]) = skip_spaces l ++ [a].
Proof.
  intros E. induction l as [| c l IH]; simpl.
  - now rewrite E.
  - destruct (Text.is_space c); trivial.
Qed.

Lemma skip_spaces_incl (l : list ascii) : incl (skip_spaces l) l.
Proof.
  induction l as [| c l IH]; simpl; intros x Hx; trivial.
  destruct (Text.is_space c); [right; now apply IH | exact Hx].
Qed.

Lemma skip_spaces_map (f : ascii -> ascii) (l : list ascii) :
  (forall c, Text.is_space c = false -> Text.is_space (f c) = false) ->
  skip_spaces l = l -> skip_spaces (map f l) = map f l.
Proof.
  intros Hf H. apply skip_spaces_fixed in H. apply skip_spaces_fixed.
  destruct H as [-> | (a & l' & -> & E)]; [now left |].
  right. exists (f a), (map f l'). split; [reflexivity | now apply Hf].
Qed.

(** White space removed at both ends of a text of ASCII characters. *)
Lemma strip_ends_clean (l : list ascii) :
  let x := rev (skip_spaces (rev (skip_spaces l))) in
  skip_spaces x = x /\ skip_spaces (rev x) = rev x.
Proof.
  cbv zeta. split.
  - pose proof (skip_spaces_idem l) as H. apply skip_spaces_fixed in H.
    destruct H as [-> | (a & l' & -> & E)]; [reflexivity |].
    simpl rev. rewrite (skip_spaces_snoc _ a E), rev_unit.
    simpl. now rewrite E.
  - rewrite rev_involutive. apply skip_spaces_idem.
Qed.

Lemma strip_fixed (l : list ascii) :
  skip_spaces l = l -> skip_spaces (rev l) = rev l ->
  rev (skip_spaces (rev (skip_spaces l))) = l.
Proof. intros -> ->. apply rev_involutive. Qed.

(** On ASCII characters the white space of Unicode is that of ASCII. *)
Lemma lstrip_bytes_ascii (l : list ascii) :
  forallb (fun c => (nat_of_ascii c <? 128)%nat) l = true ->
  Text.lstrip_bytes l = skip_spaces l.
Proof.
  induction l as [| c1 s1 IH]; intros H; trivial.
  simpl in H. apply andb_true_iff in H. destruct H as [H1 Hs].
  cbn [Text.lstrip_bytes skip_spaces].
  destruct (Text.is_space c1); [now apply IH |].
  apply Nat.ltb_lt in H1.
  destruct s1 as [| c2 s2]; trivial.
  assert (E2 : Text.is_space2 c1 c2 = false).
  { unfold Text.is_space2. cbv zeta.
    replace (nat_of_ascii c1 =? 194)%nat with false; trivial.
    symmetry. apply Nat.eqb_neq. lia. }
  rewrite E2. destruct s2 as [| c3 s3]; trivial.
  assert (E3 : Text.is_space3 c1 c2 c3 = false).
  { unfold Text.is_space3. cbv zeta.
    replace (nat_of_ascii c1 =? 225)%nat with false
      by (symmetry; apply Nat.eqb_neq; lia).
    replace (nat_of_ascii c1 =? 226)%nat with false
      by (symmetry; apply Nat.eqb_neq; lia).
    replace (nat_of_ascii c1 =? 227)%nat with false
      by (symmetry; apply Nat.eqb_neq; lia).
    reflexivity. }
  now rewrite E3.
Qed.

Lemma lstrip_reversed_ascii (l : list ascii) :
  forallb (fun c => (nat_of_ascii c <? 128)%nat) l = true ->
  Text.lstrip_reversed l = skip_spaces l.
Proof.
  induction l as [| c1 s1 IH]; intros H; trivial.
  simpl in H. apply andb_true_iff in H. destruct H as [H1 Hs].
  cbn [Text.lstrip_reversed skip_spaces].
  destruct (Text.is_space c1); [now apply IH |].
  destruct s1 as [| c2 s2]; trivial.
  simpl in Hs. apply andb_true_iff in Hs. destruct Hs as [H2 Hs].
  apply Nat.ltb_lt in H2.
  assert (E2 : Text.is_space2 c2 c1 = false).
  { unfold Text.is_space2. cbv zeta.
    replace (nat_of_ascii c2 =? 194)%nat with false; trivial.
    symmetry. apply Nat.eqb_neq. lia. }
  rewrite E2. destruct s2 as [| c3 s3]; trivial.
  simpl in Hs. apply andb_true_iff in Hs. destruct Hs as [H3 Hs].
  apply Nat.ltb_lt in H3.
  assert (E3 : Text.is_space3 c3 c2 c1 = false).
  { unfold Text.is_space3. cbv zeta.
    replace (nat_of_ascii c3 =? 225)%nat with false
      by (symmetry; apply Nat.eqb_neq; lia).
    replace (nat_of_ascii c3 =? 226)%nat with false
      by (symmetry; apply Nat.eqb_neq; lia).
    replace (nat_of_ascii c3 =? 227)%nat with false
      by (symmetry; apply Nat.eqb_neq; lia).
    reflexivity. }
  now rewrite E3.
Qed.

Lemma forallb_incl {A} (f : A -> bool) (l l' : list A) :
  incl l l' -> forallb f l' = true -> forallb f l = true.
Proof.
  intros I H. rewrite forallb_forall in H |- *. intros x Hx. apply H. now apply I.
Qed.

Lemma forallb_rev {A} (f : A -> bool) (l : list A) :
  forallb f l = true -> forallb f (rev l) = true.
Proof.
  apply forallb_incl. intros x Hx. now apply in_rev.
Qed.

(** [strip] on a text of ASCII characters. *)
Lemma strip_ascii (s : string) :
  Text.is_ascii s = true ->
  list_ascii_of_string (Text.strip s)
  = rev (skip_spaces (rev (skip_spaces (list_ascii_of_string s)))).
Proof.
  unfold Text.is_ascii, Text.strip, Text.rstrip, Text.lstrip. intros H.
  rewrite !list_ascii_of_string_of_list_ascii.
  rewrite (lstrip_bytes_ascii _ H).
  rewrite lstrip_reversed_ascii; trivial.
  apply forallb_rev. apply (forallb_incl _ _ _ (skip_spaces_incl _) H).
Qed.

Lemma strip_ascii_is_ascii (s : string) :
  Text.is_ascii s = true -> Text.is_ascii (Text.strip s) = true.
Proof.
  intros H. unfold Text.is_ascii. rewrite (strip_ascii s H).
  apply forallb_rev.
  apply (forallb_incl _ _ _ (skip_spaces_incl _)).
  apply forallb_rev.
  apply (forallb_incl _ _ _ (skip_spaces_incl _)). exact H.
Qed.

Lemma map_chars_bytes (f : ascii -> ascii) (s : string) :
  list_ascii_of_string (Text.map_chars f s) = map f (list_ascii_of_string s).
Proof. induction s as [| c s IH]; simpl; congruence. Qed.

Lemma map_chars_compose (f g : ascii -> ascii) (s : string) :
  Text.map_chars f (Text.map_chars g s) = Text.map_chars (fun c => f (g c)) s.
Proof. induction s as [| c s IH]; simpl; congruence. Qed.

Lemma map_chars_ext (f g : ascii -> ascii) (s : string) :
  (forall c, f c = g c) -> Text.map_chars f s = Text.map_chars g s.
Proof. intros H. induction s as [| c s IH]; simpl; congruence. Qed.

Lemma bytes_inj (s t : string) :
  list_ascii_of_string s = list_ascii_of_string t -> s = t.
Proof.
  intros H. rewrite <- (string_of_list_ascii_of_string s),
              <- (string_of_list_ascii_of_string t). now rewrite H.
Qed.

Lemma label_char_facts (c : ascii) :
  label_char (label_char c) = label_char c /\
  label_char c <> " "%char /\
  Text.lower_char (label_char c) = label_char c /\
  (Text.is_space c = false -> Text.is_space (label_char c) = false) /\
  ((nat_of_ascii c <? 128)%nat = true ->
   (nat_of_ascii (label_char c) <? 128)%nat = true).
Proof.
  destruct c as [[] [] [] [] [] [] [] []]; vm_compute;
    repeat split; trivial; discriminate.
Qed.

Section Labels.
Context {P : platform}.
Hypothesis lowers : lowers_ascii P.

(** The rewriting of a label of ASCII characters, character by character. *)
Lemma normalize_label_ascii (c : string) :
  Text.is_ascii c = true ->
  normalize_label c = Text.map_chars label_char (Text.strip c).
Proof.
  intros H. unfold normalize_label.
  rewrite (lowers _ (strip_ascii_is_ascii c H)).
  unfold Text.replace_space_underscore, Text.ascii_lower.
  now rewrite map_chars_compose.
Qed.

Lemma normalize_label_is_ascii (c : string) :
  Text.is_ascii c = true -> Text.is_ascii (normalize_label c) = true.
Proof.
  intros H. rewrite (normalize_label_ascii c H).
  pose proof (strip_ascii_is_ascii c H) as S.
  unfold Text.is_ascii in *. rewrite map_chars_bytes.
  rewrite forallb_forall in S |- *. intros x Hx.
  apply in_map_iff in Hx. destruct Hx as (y & <- & Hy).
  apply label_char_facts. now apply S.
Qed.

Lemma strip_normalize_label (c : string) :
  Text.is_ascii c = true ->
  Text.strip (normalize_label c) = normalize_label c.
Proof.
  intros H. apply bytes_inj.
  rewrite (strip_ascii _ (normalize_label_is_ascii c H)).
  rewrite (normalize_label_ascii c H), map_chars_bytes, (strip_ascii c H).
  destruct (strip_ends_clean (list_ascii_of_string c)) as [A B].
  apply strip_fixed.
  - apply skip_spaces_map; [intros x; apply label_char_facts | exact A].
  - rewrite <- map_rev.
    apply skip_spaces_map; [intros x; apply label_char_facts | exact B].
Qed.

Lemma normalize_label_idem (c : string) :
  Text.is_ascii c = true ->
  normalize_label (normalize_label c) = normalize_label c.
Proof.
  intros H.
  rewrite (normalize_label_ascii _ (normalize_label_is_ascii c H)).
  rewrite (strip_normalize_label c H), (normalize_label_ascii c H).
  rewrite map_chars_compose. apply map_chars_ext.
  intros x. apply label_char_facts.
Qed.

(** X1.  Where [lower] is the lower-casing of ASCII on texts of ASCII
    characters, rewriting a column label made of such characters is
    idempotent; the result is made of ASCII characters, holds no space and
    no upper-case letter, and neither starts nor ends with white space. *)
Theorem normalize_label_canonical (c : string) :
  Text.is_ascii c = true ->
  Text.is_ascii (normalize_label c) = true /\
  normalize_label (normalize_label c) = normalize_label c /\
  Text.strip (normalize_label c) = normalize_label c /\
  (forall ch, In ch (list_ascii_of_string (normalize_label c)) ->
              ch <> " "%char /\ Text.lower_char ch = ch).
Proof.
  intros H.
  split; [now apply normalize_label_is_ascii |].
  split; [now apply normalize_label_idem |].
  split; [now apply strip_normalize_label |].
  intros ch Hc. rewrite (normalize_label_ascii c H), map_chars_bytes in Hc.
  apply in_map_iff in Hc. destruct Hc as (x & <- & _).
  split; apply label_char_facts.
Qed.

(** X2.  Where [lower] is the lower-casing of ASCII on texts of ASCII
    characters, the normaliser is idempotent on files whose labels are
    made of such characters: a frame it has handed over passes it again
    unchanged, whatever the parser. *)
Theorem normalize_idempotent (parse parse' : string -> option Q)
        (df_raw df : DataFrame) :
  forallb Text.is_ascii (columns df_raw) = true ->
  normalize parse df_raw = Clean df -> normalize parse' df = Clean df.
Proof.
  intros Hascii H.
  destruct (normalize_clean_shape parse df_raw df H)
    as (M & C & HC & g & Hrows & Hcell & _).
  assert (R : rename_columns df = df).
  { apply frame_eq; simpl; trivial.
    rewrite HC, map_map. apply map_ext_in. intros c Hc.
    apply normalize_label_idem.
    rewrite forallb_forall in Hascii. now apply Hascii. }
  assert (N : forall r, In r (rows df) ->
                        exists q, cell (columns df) "births" r = VNum q).
  { intros r Hr. rewrite Hrows in Hr. apply filter_In in Hr.
    destruct Hr as [Hin Hna]. apply in_map_iff in Hin.
    destruct Hin as (r0 & <- & _). rewrite Hcell in Hna |- *.
    destruct (to_numeric_kind parse (cell (columns df) "births" r0)) as [E | [q E]];
      rewrite E in *; [discriminate | eauto]. }
  unfold normalize. rewrite R.
  assert (M' : missing df = []) by (unfold missing in *; simpl in M; now rewrite HC).
  rewrite M', HC, C. simpl. f_equal.
  apply frame_eq.
  - simpl. apply coerce_births_columns.
  - unfold dropna_births. simpl rows. rewrite coerce_births_columns.
    assert (K : rows (coerce_births parse' df) = rows df).
    { unfold coerce_births.
      destruct (index_of "births" (columns df)) as [i |] eqn:E; trivial.
      simpl. rewrite <- (map_id (rows df)) at 2. apply map_ext_in.
      intros r Hr. destruct (N r Hr) as [q Hq].
      unfold cell in Hq. rewrite E in Hq. rewrite Hq. simpl.
      rewrite <- Hq. apply set_nth_same. }
    rewrite K. apply filter_all. intros r Hr.
    destruct (N r Hr) as [q ->]. reflexivity.
Qed.
End Labels.

(** A label with blanks around and inside it. *)
Lemma normalize_label_canonical_witness :
  lowers_ascii reference /\
  Text.is_ascii "  Month Code " = true /\
  normalize_label "  Month Code " = "month_code" /\
  normalize_label (normalize_label "  Month Code ") = normalize_label "  Month Code ".
Proof.
  split; [exact reference_lowers_ascii |]. split; [reflexivity |].
  split; [reflexivity |].
  exact (proj1 (proj2 (normalize_label_canonical reference_lowers_ascii
                         "  Month Code " eq_refl))).
Defined.

Lemma normalize_idempotent_witness :
  lowers_ascii reference /\
  forallb Text.is_ascii (columns Sample.raw) = true /\
  normalize decimal_literal Sample.raw = Clean Sample.df /\
  normalize (fun _ => None) Sample.df = Clean Sample.df.
Proof.
  assert (H : normalize decimal_literal Sample.raw = Clean Sample.df)
    by reflexivity.
  split; [exact reference_lowers_ascii |]. split; [reflexivity |].
  split; [exact H |].
  exact (normalize_idempotent reference_lowers_ascii decimal_literal
           (fun _ => None) Sample.raw Sample.df eq_refl H).
Defined.

